(** * faceit-ext-chatbot-service: worker, moderation and data-plane models

    A shallow embedding of the parts of the chatbot service that its
    specification makes quantified statements about:

    - [src/lib/utils/validation.js], [src/lib/utils/index.js] (id manager);
    - class [StateManager], the XMPP stanza builders and the room
      join/leave helpers ([unnamed/part_004]);
    - classes [SmartWordFilter] and [Moderation]
      ([src/modules/moderation/banned-words/smart-word-filter.js]) and
      [BannedWordsManager] ([.../banned-words/banned-words-manager.js]);
    - classes [TimedMessages] and [Commands]
      ([src/modules/messaging/timed-messages.js]);
    - class [MessageProcessor] ([unnamed/part_007]);
    - class [DebugHandler] ([src/modules/monitoring/debug-handler.js]);
    - [src/services/worker/index.js] (pipeline, outgoing queue, reconnection);
    - [src/services/db-api/index.js] (token refresh throttle).

    Conventions.  A JavaScript string is a [string] whose characters are
    the code units U+0000..U+00FF.  A [Map] is a [gmap], a [Set] a [gset];
    where the code depends on the insertion order of a [Map], the order
    is an argument.  [null]/[undefined] is [None].  Numbers that the code
    only ever uses as integers are [Z].  A call that throws is
    [TypeError] ([Result]) or [Throws] ([Outcome]).  Calls to the outside
    world (HTTP requests, XMPP sends, process exit) are recorded as a list
    of [Action]s, oldest first; answers of the outside world are arguments
    of the function that consumes them.

    An event of the worker ([WorkerService.Event]) is one task of the
    event loop with the microtasks it starts; the client library delivers
    one stanza per task.  The moderation of a message waits twice inside
    [deleteMessage], at its sleep of 300 ms and at the retraction
    request: it is modelled in three pieces, and its two resumptions are
    events of their own, which carry what the waiting call holds
    ([Moderated]).  A resumption is accepted whether or not such a call
    is waiting, so that the model has every schedule of the worker, and
    more.  The handlers that wait for the data-plane (configuration of an
    entity's filter, assignment, update, preset refresh, reconciliation)
    have its answers at hand and run to their end; the data-plane's token
    refresh is modelled with its suspension.  A promise that is rejected
    and that nothing awaits or catches is the action
    [UnhandledRejection]; what the runtime does with it, a warning or the
    end of the process, depends on its version and flags and is not
    modelled.  Logging ([botLog]), state-change listeners and the
    time stamps of the health monitor have no effect on the modelled
    state and are left out. *)

From Stdlib Require Import ZArith Lia Ascii String List Bool.
From stdpp Require Import base option gmap strings list fin_maps.

Local Open Scope Z_scope.
Local Open Scope string_scope.

(** ** JavaScript string primitives *)

Module Js.

Definition code (c : ascii) : N := N_of_ascii c.

Definition between (lo hi n : N) : bool := ((lo <=? n) && (n <=? hi))%N.

(** [String.prototype.toLowerCase] on U+0000..U+00FF: A-Z and the
    Latin-1 capitals U+00C0..U+00DE (without the multiplication sign
    U+00D7) move up by 32, everything else stays. *)
Definition lowerChar (c : ascii) : ascii :=
  let n := code c in
  if between 65 90 n || (between 192 222 n && negb (n =? 215)%N)
  then ascii_of_N (n + 32) else c.

Fixpoint toLowerCase (s : string) : string :=
  match s with
  | EmptyString => EmptyString
  | String c s' => String (lowerChar c) (toLowerCase s')
  end.

(** [s.startsWith(p)] *)
Definition startsWith (p s : string) : bool := String.prefix p s.

(** [s.includes(p)] *)
Fixpoint includes (p s : string) : bool :=
  String.prefix p s ||
  match s with
  | EmptyString => false
  | String _ s' => includes p s'
  end.

(** [s.substring(1)] *)
Definition substring1 (s : string) : string :=
  match s with
  | EmptyString => EmptyString
  | String _ s' => s'
  end.

(** [s.split(sep)] for a one-character separator: the pieces between
    the separators, in order; never the empty list. *)
Fixpoint split (sep : ascii) (s : string) : list string :=
  match s with
  | EmptyString => [EmptyString]
  | String c s' =>
      if Ascii.eqb c sep then EmptyString :: split sep s'
      else match split sep s' with
           | [] => [String c EmptyString]
           | p :: ps => String c p :: ps
           end
  end.

(** Truthiness of a string-or-null value: [null] and the empty string
    are falsy. *)
Definition truthy (o : option string) : option string :=
  match o with
  | Some s => if String.eqb s "" then None else Some s
  | None => None
  end.

(** [a || b] on string-or-null values. *)
Definition or_else (a b : option string) : option string :=
  match truthy a with
  | Some s => Some s
  | None => b
  end.

(** JavaScript's [%] on integers truncates towards zero. *)
Definition rem (a b : Z) : Z := Z.rem a b.

End Js.

(** The result of a call that may throw: the value it returns, or the
    [TypeError] it throws. *)
Inductive Result (A : Type) :=
| Value (value : A)
| TypeError.
Arguments Value {A} value.
Arguments TypeError {A}.

(** ** lib/utils/validation.js *)

Module Validation.

(** [isValidString(value, minLength = 1, maxLength = 1000)] on a value
    that is a string. *)
Definition isValidString (value : string) (minLength maxLength : nat) : bool :=
  (minLength <=? String.length value)%nat &&
  (String.length value <=? maxLength)%nat.

(** [isValidArray(value, minLength = 0, maxLength = 1000)] on a value
    that is an array. *)
Definition isValidArray {A} (value : list A) (minLength maxLength : nat) : bool :=
  (minLength <=? List.length value)%nat &&
  (List.length value <=? maxLength)%nat.

(** [\p{L}] on U+0000..U+00FF. *)
Definition isLetter (c : ascii) : bool :=
  let n := Js.code c in
  Js.between 65 90 n || Js.between 97 122 n ||
  (n =? 170)%N || (n =? 181)%N || (n =? 186)%N ||
  Js.between 192 214 n || Js.between 216 246 n || Js.between 248 255 n.

(** [\p{N}] on U+0000..U+00FF: the digits, superscripts 1-3 and the
    vulgar fractions. *)
Definition isNumber (c : ascii) : bool :=
  let n := Js.code c in
  Js.between 48 57 n || (n =? 178)%N || (n =? 179)%N || (n =? 185)%N ||
  Js.between 188 190 n.

(** [\s] on U+0000..U+00FF: tab, line feed, vertical tab, form feed,
    carriage return, space and no-break space. *)
Definition isSpace (c : ascii) : bool :=
  let n := Js.code c in
  Js.between 9 13 n || (n =? 32)%N || (n =? 160)%N.

(** The punctuation of the character class: [-], [_], ['], [.], [!], [?]. *)
Definition isSafePunct (c : ascii) : bool :=
  let n := Js.code c in
  (n =? 45)%N || (n =? 95)%N || (n =? 39)%N || (n =? 46)%N ||
  (n =? 33)%N || (n =? 63)%N.

(** One character of [[\p{L}\p{N}\s\-_'.!?]]. *)
Definition isSafeWordChar (c : ascii) : bool :=
  isLetter c || isNumber c || isSpace c || isSafePunct c.

Fixpoint allChars (p : ascii -> bool) (s : string) : bool :=
  match s with
  | EmptyString => true
  | String c s' => p c && allChars p s'
  end.

(** [isSafeWordString(word)]: [isValidString(word, 1, 100)] and
    [/^[\p{L}\p{N}\s\-_'.!?]+$/u.test(word)]. *)
Definition isSafeWordString (word : string) : bool :=
  if negb (isValidString word 1 100) then false
  else negb (String.eqb word "") && allChars isSafeWordChar word.

(** [sanitizeStringArray(words, validator)] *)
Definition sanitizeStringArray (words : list string) (validator : string -> bool)
  : list string :=
  if negb (isValidArray words 0 1000) then []
  else List.filter validator words.

End Validation.

(** ** lib/utils/index.js: the id manager *)

Record XmppConfig := {
  domain : string;
  mucDomain : string;
  supergroupDomain : string;
}.

(** [config/index.js], production values of [xmppConfig]. *)
Definition xmppConfig : XmppConfig := {|
  domain := "chat.faceit.com";
  mucDomain := "muclight.chat.faceit.com";
  supergroupDomain := "supergroups.chat.faceit.com";
|}.

Record Command := {
  response : string;
  cmd_upload_id : option string;
}.

Record Timer := {
  message : string;
  upload_id : option string;
}.

(** An entity (room) configuration as [getEntityData] of the data-plane
    builds it.  [guid] is the key of the entity's row, the id the entity
    was asked for, and is never empty; [timer_counter_max] is the stored
    number or 30.  [permissions_parent_guid] is [permissions?.parent_guid],
    which the worker reads when [parent_guid] is falsy. *)
Record Entity := {
  guid : string;
  name : option string;
  type : option string;
  parent_guid : option string;
  permissions_parent_guid : option string;
  commands : option (gmap string Command);
  timers : list Timer;
  timer_counter_max : Z;
  read_only : bool;
}.

Module idManager.

Definition isHex (c : ascii) : bool :=
  let n := Js.code c in
  Js.between 48 57 n || Js.between 97 102 n || Js.between 65 70 n.

(** [n] hexadecimal digits at the head of [s]; the rest of [s]. *)
Fixpoint takeHex (n : nat) (s : string) : option string :=
  match n with
  | O => Some s
  | S k =>
      match s with
      | String c s' => if isHex c then takeHex k s' else None
      | EmptyString => None
      end
  end.

Definition takeDash (s : string) : option string :=
  match s with
  | String c s' => if Ascii.eqb c "-" then Some s' else None
  | EmptyString => None
  end.

(** A match of [[0-9a-f]{8}-[0-9a-f]{4}-[0-9a-f]{4}-[0-9a-f]{4}-[0-9a-f]{12}]
    (flag [i]) at the head of [s]: what follows the 36 characters. *)
Definition uuidAtHead (s : string) : option string :=
  s1 ← takeHex 8 s; s2 ← takeDash s1;
  s3 ← takeHex 4 s2; s4 ← takeDash s3;
  s5 ← takeHex 4 s4; s6 ← takeDash s5;
  s7 ← takeHex 4 s6; s8 ← takeDash s7;
  takeHex 12 s8.

(** The whole string is one UUID ([^...$]). *)
Definition isUuid (s : string) : bool :=
  match uuidAtHead s with
  | Some EmptyString => true
  | _ => false
  end.

Fixpoint take (n : nat) (s : string) : string :=
  match n, s with
  | S k, String c s' => String c (take k s')
  | _, _ => EmptyString
  end.

(** [id.match(/.../gi)]: the matches are found left to right and do not
    overlap; [skip] counts the characters of the current match still to
    be stepped over; [acc] is the last match seen. *)
Fixpoint lastUuid (skip : nat) (acc : option string) (s : string) : option string :=
  match s with
  | EmptyString => acc
  | String _ s' =>
      match skip with
      | S k => lastUuid k acc s'
      | O =>
          match uuidAtHead s with
          | Some _ => lastUuid 35 (Some (take 36 s)) s'
          | None => lastUuid 0 acc s'
          end
      end
  end.

(** [normalizeId(id)] for a string or [null]. *)
Definition normalizeId (id : option string) : option string :=
  match Js.truthy id with
  | None => None
  | Some s =>
      if isUuid s then Some s
      else match lastUuid 0 None s with
           | Some u => Some u
           | None => Some s
           end
  end.

(** [fromJid(jid)] *)
Definition fromJid (jid : option string) : option string := normalizeId jid.

Definition entityType (e : Entity) : string :=
  Js.toLowerCase (default "community" (Js.truthy (type e))).

Definition parentGuid (e : Entity) : option string :=
  Js.or_else (parent_guid e) (Js.truthy (permissions_parent_guid e)).

(** [entity?.guid || this.normalizeId(entity)] for an entity object.  The
    right operand is evaluated only for an entity without a guid, which
    the data-plane never hands out (see [Entity]). *)
Definition entityGuid (e : Entity) : string := guid e.

(** [toMucLightJidForEntity(entity, xmppConfig)] *)
Definition toMucLightJidForEntity (e : Entity) (cfg : XmppConfig) : string :=
  let ty := entityType e in
  if String.eqb ty "community" then
    "club-" +:+ entityGuid e +:+ "-general@" +:+ mucDomain cfg
  else
    match parentGuid e with
    | Some p =>
        if String.eqb ty "chat" || String.eqb ty "ihl" then
          "club-" +:+ p +:+ "-channel-" +:+ entityGuid e +:+ "@" +:+ mucDomain cfg
        else "club-" +:+ entityGuid e +:+ "-general@" +:+ mucDomain cfg
    | None => "club-" +:+ entityGuid e +:+ "-general@" +:+ mucDomain cfg
    end.

(** [toSupergroupBaseJidForEntity(entity, xmppConfig)] *)
Definition toSupergroupBaseJidForEntity (e : Entity) (cfg : XmppConfig) : string :=
  let baseGuid :=
    if String.eqb (entityType e) "community" then entityGuid e
    else match parentGuid e with
         | Some p => p
         | None => entityGuid e
         end in
  "club-" +:+ baseGuid +:+ "@" +:+ supergroupDomain cfg.

(** [toSupergroupPresenceGroupForEntity(entity, xmppConfig)] *)
Definition toSupergroupPresenceGroupForEntity (e : Entity) (cfg : XmppConfig) : string :=
  let base := toSupergroupBaseJidForEntity e cfg in
  if String.eqb (entityType e) "community" then base +:+ "/general"
  else base +:+ "/channel-" +:+ entityGuid e.

End idManager.

(** The object [{ guid: roomId, type: 'community' }] that stands in for a
    room without a stored entity. *)
Definition bareCommunity (roomId : string) : Entity := {|
  guid := roomId; name := None; type := Some "community"; parent_guid := None;
  permissions_parent_guid := None; commands := None; timers := [];
  timer_counter_max := 0; read_only := false;
|}.

(** ** XMPP stanzas ([@xmpp/xml] elements) *)

#[warnings="-register-all"] Inductive Node :=
| Elem (name : string) (attrs : list (string * string)) (children : list Node)
| Text (t : string).

Module Xml.

Fixpoint assoc (k : string) (l : list (string * string)) : option string :=
  match l with
  | [] => None
  | (k', v) :: l' => if String.eqb k k' then Some v else assoc k l'
  end.

(** [el.attrs[k]] *)
Definition attr (k : string) (n : Node) : option string :=
  match n with
  | Elem _ a _ => assoc k a
  | Text _ => None
  end.

Definition children (n : Node) : list Node :=
  match n with
  | Elem _ _ c => c
  | Text _ => []
  end.

(** [el.is(name)] *)
Definition isName (nm : string) (n : Node) : bool :=
  match n with
  | Elem nm' _ _ => String.eqb nm nm'
  | Text _ => false
  end.

(** [el.is(name, xmlns)], the namespace read from the element's own
    [xmlns] attribute. *)
Definition isNs (nm : string) (xmlns : option string) (n : Node) : bool :=
  isName nm n &&
  match xmlns with
  | None => true
  | Some ns => bool_decide (attr "xmlns" n = Some ns)
  end.

(** [el.getChild(name, xmlns)]: the first child element that fits. *)
Definition getChild (nm : string) (xmlns : option string) (n : Node) : option Node :=
  List.find (isNs nm xmlns) (children n).

(** [el.getText()]: the text children, concatenated. *)
Definition getText (n : Node) : string :=
  List.fold_right
    (fun c acc => match c with Text t => t +:+ acc | Elem _ _ _ => acc end)
    "" (children n).

(** [el.getChildText(name)] *)
Definition getChildText (nm : string) (n : Node) : option string :=
  getText <$> getChild nm None n.

End Xml.

(** ** The stanza builders the statements touch ([unnamed/part_004]) *)

Module xmppActions.

(** [sendMessage(entityOrRoomId, message, uploadId = null)]; the first
    argument is an entity ([inl]) or a bare room id ([inr]). *)
Definition sendMessage (entityOrRoomId : Entity + string) (msg : string)
    (uploadId : option string) : Node :=
  let roomJid :=
    match entityOrRoomId with
    | inr roomId => idManager.toMucLightJidForEntity (bareCommunity roomId) xmppConfig
    | inl e => idManager.toMucLightJidForEntity e xmppConfig
    end in
  let attachment :=
    match Js.truthy uploadId with
    | Some u => [Elem "x" [("xmlns", "msg:upload:1")] [Elem "img" [("id", u)] []]]
    | None => []
    end in
  Elem "message"
    [("xmlns", "jabber:client"); ("to", roomJid); ("type", "groupchat")]
    (Elem "body" [] [Text msg] :: attachment).

(** [createResubscribeStanza(presenceGroup)] *)
Definition createResubscribeStanza (presenceGroup : string) : Node :=
  Elem "iq"
    [("xmlns", "jabber:client"); ("type", "set"); ("to", presenceGroup)]
    [Elem "query" [("xmlns", "faceit:supergroup:group:0")]
       [Elem "subscribe" [("set", "true")] [];
        Elem "set" [("xmlns", "http://jabber.org/protocol/rsm")]
          [Elem "max" [] [Text "1"]; Elem "index" [] [Text "0"]]]].

(** [joinRoomEntity(entity)] *)
Definition joinRoomEntity (e : Entity) : Node :=
  Elem "iq"
    [("xmlns", "jabber:client"); ("type", "get");
     ("to", idManager.toMucLightJidForEntity e xmppConfig)]
    [Elem "query" [("xmlns", "urn:xmpp:muclight:0#configuration")] []].

(** [leaveRoomSimpleEntity(entity)] *)
Definition leaveRoomSimpleEntity (e : Entity) : Node :=
  Elem "iq"
    [("xmlns", "jabber:client"); ("type", "set");
     ("to", idManager.toSupergroupPresenceGroupForEntity e xmppConfig)]
    [Elem "query" [("xmlns", "faceit:supergroup:group:0")]
       [Elem "subscribe" [("set", "false")] []]].

End xmppActions.

(** ** modules/moderation/banned-words/smart-word-filter.js *)

(** The host's regular-expression engine.  [compiles pattern] tells
    whether [new RegExp(pattern, 'i')] returns (it throws otherwise);
    [test pattern subject] is [.test(subject)] of the compiled pattern.
    The patterns carry no flag [g] or [y], so [test] keeps no position
    between calls. *)
Record RegExpEngine := {
  compiles : string -> bool;
  test : string -> string -> bool;
}.

(** A value of the map [compiledPatterns]: the pattern of a word, stored
    under the word, or the array of evasion patterns of a word, stored
    under [evasion_] followed by the word.  A pattern is kept as its
    source; all patterns are compiled with the flag [i]. *)
Inductive Compiled :=
| Pattern (source : string)
| Patterns (sources : list string).

Module SmartWordFilter.

Definition isRegexSpecial (c : ascii) : bool :=
  let n := Js.code c in
  (n =? 46)%N || (n =? 42)%N || (n =? 43)%N || (n =? 63)%N || (n =? 94)%N ||
  (n =? 36)%N || (n =? 123)%N || (n =? 125)%N || (n =? 40)%N || (n =? 41)%N ||
  (n =? 124)%N || (n =? 91)%N || (n =? 93)%N || (n =? 92)%N.

(** [escapeRegex(string)]: a backslash before each of [.*+?^${}()|[]\]. *)
Fixpoint escapeRegex (s : string) : string :=
  match s with
  | EmptyString => EmptyString
  | String c s' =>
      if isRegexSpecial c then String "\" (String c (escapeRegex s'))
      else String c (escapeRegex s')
  end.

(** [word.split('').join(sep)] *)
Fixpoint joinChars (sep : string) (s : string) : string :=
  match s with
  | EmptyString => EmptyString
  | String c EmptyString => String c EmptyString
  | String c s' => String c (sep +:+ joinChars sep s')
  end.

Definition isVowel (c : ascii) : bool :=
  let n := Js.code c in
  (n =? 97)%N || (n =? 101)%N || (n =? 105)%N || (n =? 111)%N || (n =? 117)%N.

(** [word.replace(/[aeiou]/g, '\\*')] *)
Fixpoint starVowels (s : string) : string :=
  match s with
  | EmptyString => EmptyString
  | String c s' =>
      if isVowel c then String "\" (String "*" (starVowels s'))
      else String c (starVowels s')
  end.

Definition leetChar (c : ascii) : ascii :=
  let n := Js.code c in
  if (n =? 97)%N then "4"%char
  else if (n =? 101)%N then "3"%char
  else if (n =? 105)%N then "1"%char
  else if (n =? 111)%N then "0"%char
  else if (n =? 115)%N then "5"%char
  else c.

(** The chain of five [replace] calls; no replacement produces a
    character that a later one rewrites. *)
Fixpoint leetspeak (s : string) : string :=
  match s with
  | EmptyString => EmptyString
  | String c s' => String (leetChar c) (leetspeak s')
  end.

(** The pattern of [hasWordBoundaryMatch] for a word. *)
Definition boundarySource (bannedWord : string) : string :=
  "\b" +:+ escapeRegex bannedWord +:+ "\b".

(** The four patterns that [createEvasionPatterns] hands to
    [_createSafeRegExp], in its order: spaced, dotted, starred vowels,
    digits for letters. *)
Definition evasionSources (bannedWord : string) : list string :=
  [ joinChars "\s*" bannedWord;
    joinChars "\." bannedWord;
    starVowels bannedWord;
    leetspeak bannedWord ].

Section Engine.

Variable regexp : RegExpEngine.

(** [hasWordBoundaryMatch(message, bannedWord)] with the map
    [compiledPatterns] before the call: the answer and the map after
    it.  The call throws when the value under the key is an array,
    which has no method [test]. *)
Definition hasWordBoundaryMatch (message bannedWord : string) (c : gmap string Compiled)
  : Result bool * gmap string Compiled :=
  match c !! bannedWord with
  | Some (Pattern p) => (Value (test regexp p message), c)
  | Some (Patterns _) => (TypeError, c)
  | None =>
      let p := boundarySource bannedWord in
      if compiles regexp p
      then (Value (test regexp p message), <[bannedWord := Pattern p]> c)
      else (Value false, c)
  end.

(** [createEvasionPatterns(bannedWord)]: the patterns that compiled. *)
Definition createEvasionPatterns (bannedWord : string) : list string :=
  List.filter (compiles regexp) (evasionSources bannedWord).

(** [hasEvasionPattern(message, bannedWord)].  The call throws when the
    value under the key is a pattern, which is not iterable. *)
Definition hasEvasionPattern (message bannedWord : string) (c : gmap string Compiled)
  : Result bool * gmap string Compiled :=
  let patternKey := "evasion_" +:+ bannedWord in
  match c !! patternKey with
  | Some (Patterns ps) => (Value (existsb (fun p => test regexp p message) ps), c)
  | Some (Pattern _) => (TypeError, c)
  | None =>
      let ps := createEvasionPatterns bannedWord in
      (Value (existsb (fun p => test regexp p message) ps), <[patternKey := Patterns ps]> c)
  end.

(** [isWordPresent(lowerMessage, bannedWord)] *)
Definition isWordPresent (lowerMessage bannedWord : string) (c : gmap string Compiled)
  : Result bool * gmap string Compiled :=
  match hasWordBoundaryMatch lowerMessage bannedWord c with
  | (Value true, c1) => (Value true, c1)
  | (Value false, c1) => hasEvasionPattern lowerMessage bannedWord c1
  | (TypeError, c1) => (TypeError, c1)
  end.

(** The loop of [checkBannedWords] over the banned words. *)
Fixpoint scan (lowerMessage : string) (bannedWords : list string) (c : gmap string Compiled)
  : Result bool * gmap string Compiled :=
  match bannedWords with
  | [] => (Value false, c)
  | bannedWord :: rest =>
      if negb (Validation.isValidString bannedWord 1 1000) then scan lowerMessage rest c
      else
        match isWordPresent lowerMessage (Js.toLowerCase bannedWord) c with
        | (Value true, c1) => (Value true, c1)
        | (Value false, c1) => scan lowerMessage rest c1
        | (TypeError, c1) => (TypeError, c1)
        end
  end.

(** [checkBannedWords(message, bannedWords)] *)
Definition checkBannedWords (message : string) (bannedWords : list string)
    (c : gmap string Compiled) : Result bool * gmap string Compiled :=
  if negb (Validation.isValidString message 1 1000) then (Value false, c)
  else if negb (Validation.isValidArray bannedWords 1 1000) then (Value false, c)
  else scan (Js.toLowerCase message) bannedWords c.

End Engine.

(** [clearCompiledPatterns()] *)
Definition clearCompiledPatterns (c : gmap string Compiled) : gmap string Compiled := ∅.

(** Insertion into a [Set] that keeps insertion order. *)
Definition setAdd (w : string) (acc : list string) : list string :=
  if bool_decide (w ∈ acc) then acc else acc ++ [w].

Definition addWords (words : list string) (acc : list string) : list string :=
  List.fold_left
    (fun acc word =>
       if (0 <? String.length word)%nat then setAdd (Js.toLowerCase word) acc
       else acc)
    words acc.

(** [combineWordLists(presetWords, customWords)] *)
Definition combineWordLists (presetWords customWords : list string) : list string :=
  addWords customWords (addWords presetWords []).

End SmartWordFilter.

(** ** modules/moderation/banned-words/banned-words-manager.js *)

(** The profanity-filter configuration of an entity, as
    [GET /profanity-filter-config/:entityId] returns it. *)
Record ProfanityConfig := {
  is_active : bool;
  banned_words_preset_id : option Z;
  custom_words : list string;
  manager_guids : list string;
  discord_webhook_url : option string;
  discord_custom_message : option string;
  message_reply : option string;
  mute_duration_seconds : option Z;
}.

Record EntityConfig := {
  presetId : option Z;
  customWords : list string;
  managerGuids : list string;
  enabled : bool;
}.

(** The fields of a [BannedWordsManager]; [compiledPatterns] is the map
    of its [wordFilter]. *)
Record BannedWordsState := {
  presetWords : gmap Z (list string);
  entityConfigs : gmap string EntityConfig;
  usedPresetIds : gset Z;
  compiledPatterns : gmap string Compiled;
}.

Module BannedWordsManager.

(** [new BannedWordsManager(config, stateManager)] *)
Definition init : BannedWordsState := {|
  presetWords := ∅; entityConfigs := ∅; usedPresetIds := ∅;
  compiledPatterns := ∅;
|}.

Definition isDigit (c : ascii) : bool := Js.between 48 57 (Js.code c).

Fixpoint dropDigits (s : string) : string :=
  match s with
  | EmptyString => EmptyString
  | String c s' => if isDigit c then dropDigits s' else s
  end.

(** [/\{\d+,\}/] at the head of [s]. *)
Definition unboundedAtHead (s : string) : bool :=
  match s with
  | String b (String d rest) =>
      Ascii.eqb b "{" && isDigit d && String.prefix ",}" (dropDigits rest)
  | _ => false
  end.

Fixpoint anySuffix (p : string -> bool) (s : string) : bool :=
  p s ||
  match s with
  | EmptyString => false
  | String _ s' => anySuffix p s'
  end.

(** [containsDangerousRegexPatterns(word)]: the nine patterns, in the
    order of the source. *)
Definition containsDangerousRegexPatterns (word : string) : bool :=
  existsb (fun p => p word)
    [ Js.includes "(?=";
      Js.includes "(?!";
      Js.includes "(?<=";
      Js.includes "(?<!";
      anySuffix unboundedAtHead;
      Js.includes "++";
      Js.includes "**";
      Js.includes ("(." +:+ "*" +:+ ")");
      Js.includes "(.+)" ].

(** The validator that [validateAndSanitizeWords] hands to
    [sanitizeStringArray]. *)
Definition isAcceptedWord (word : string) : bool :=
  if negb (Validation.isSafeWordString word) then false
  else if containsDangerousRegexPatterns word then false
  else true.

(** [validateAndSanitizeWords(words)] *)
Definition validateAndSanitizeWords (words : list string) : list string :=
  if negb (Validation.isValidArray words 0 1000) then []
  else Validation.sanitizeStringArray words isAcceptedWord.

(** Truthiness of a preset id: [null], [undefined] and [0] are falsy. *)
Definition truthyId (o : option Z) : option Z :=
  match o with
  | Some z => if (z =? 0)%Z then None else Some z
  | None => None
  end.

(** [initializePreset(presetId)].  [fetched] is what [fetchPreset]
    answers, with [preset.words] already normalised to an array: [None]
    when the preset is absent or the request fails. *)
Definition initializePreset (pid : Z) (fetched : option (list string))
    (st : BannedWordsState) : BannedWordsState :=
  if bool_decide (is_Some (presetWords st !! pid)) then st
  else match fetched with
       | None => st
       | Some rawWords =>
           {| presetWords := <[pid := validateAndSanitizeWords rawWords]> (presetWords st);
              entityConfigs := entityConfigs st;
              usedPresetIds := usedPresetIds st;
              compiledPatterns := compiledPatterns st |}
       end.

(** [configureEntity(entityId, profanityConfig)] *)
Definition configureEntity (entityId : string) (profanityConfig : option ProfanityConfig)
    (fetched : option (list string)) (st : BannedWordsState) : BannedWordsState :=
  match profanityConfig with
  | None =>
      {| presetWords := presetWords st;
         entityConfigs := delete entityId (entityConfigs st);
         usedPresetIds := usedPresetIds st;
         compiledPatterns := compiledPatterns st |}
  | Some pc =>
      if negb (is_active pc) then
        {| presetWords := presetWords st;
           entityConfigs := delete entityId (entityConfigs st);
           usedPresetIds := usedPresetIds st;
           compiledPatterns := compiledPatterns st |}
      else
        let pid := banned_words_preset_id pc in
        let custom := validateAndSanitizeWords (custom_words pc) in
        let st1 :=
          match truthyId pid with
          | Some p =>
              let st' := initializePreset p fetched st in
              {| presetWords := presetWords st';
                 entityConfigs := entityConfigs st';
                 usedPresetIds := {[p]} ∪ usedPresetIds st';
                 compiledPatterns := compiledPatterns st' |}
          | None => st
          end in
        let config := {| presetId := pid; customWords := custom;
                         managerGuids := manager_guids pc; enabled := true |} in
        {| presetWords := presetWords st1;
           entityConfigs := <[entityId := config]> (entityConfigs st1);
           usedPresetIds := usedPresetIds st1;
           compiledPatterns := compiledPatterns st1 |}
  end.

(** [Array.from(this.entityConfigs.values()).some(c => c.presetId === p)] *)
Definition stillUsed (p : Z) (cfgs : gmap string EntityConfig) : bool :=
  existsb (fun ec => bool_decide (presetId ec.2 = Some p)) (map_to_list cfgs).

(** [cleanupEntity(entityId)] *)
Definition cleanupEntity (entityId : string) (st : BannedWordsState) : BannedWordsState :=
  match entityConfigs st !! entityId with
  | None => st
  | Some config =>
      let cfgs := delete entityId (entityConfigs st) in
      match truthyId (presetId config) with
      | Some p =>
          if stillUsed p cfgs then
            {| presetWords := presetWords st; entityConfigs := cfgs;
               usedPresetIds := usedPresetIds st;
               compiledPatterns := compiledPatterns st |}
          else
            {| presetWords := delete p (presetWords st); entityConfigs := cfgs;
               usedPresetIds := usedPresetIds st ∖ {[p]};
               compiledPatterns := compiledPatterns st |}
      | None =>
          {| presetWords := presetWords st; entityConfigs := cfgs;
             usedPresetIds := usedPresetIds st;
             compiledPatterns := compiledPatterns st |}
      end
  end.

(** [refreshPreset(presetId)], the id already parsed by [parseInt]; the
    result is the boolean the method returns.  Whatever [fetchPreset]
    answers, the compiled patterns are cleared. *)
Definition refreshPreset (pid : Z) (fetched : option (list string))
    (st : BannedWordsState) : bool * BannedWordsState :=
  if negb (bool_decide (is_Some (presetWords st !! pid))) then (false, st)
  else match fetched with
       | Some words =>
           (true,
            {| presetWords := <[pid := words]> (presetWords st);
               entityConfigs := entityConfigs st;
               usedPresetIds := usedPresetIds st;
               compiledPatterns :=
                 SmartWordFilter.clearCompiledPatterns (compiledPatterns st) |})
       | None =>
           (true,
            {| presetWords := delete pid (presetWords st);
               entityConfigs := entityConfigs st;
               usedPresetIds := usedPresetIds st ∖ {[pid]};
               compiledPatterns :=
                 SmartWordFilter.clearCompiledPatterns (compiledPatterns st) |})
       end.

(** [isAuthorExempt(entityId, messageAuthorGuid)]; [botGuid] is
    [stateManager.getBotCredentials()?.bot_guid]. *)
Definition isAuthorExempt (botGuid : option string) (entityId author : string)
    (st : BannedWordsState) : bool :=
  if String.eqb entityId "" || String.eqb author "" then false
  else match entityConfigs st !! entityId with
       | None => false
       | Some config =>
           if bool_decide (Some author = botGuid) then true
           else if bool_decide (author ∈ managerGuids config) then true
           else false
       end.

Definition withPatterns (c : gmap string Compiled) (st : BannedWordsState)
  : BannedWordsState :=
  {| presetWords := presetWords st; entityConfigs := entityConfigs st;
     usedPresetIds := usedPresetIds st; compiledPatterns := c |}.

(** The words that [checkBannedWords] hands to the filter for an
    entity's configuration: preset and custom words combined. *)
Definition allBannedWords (config : EntityConfig) (st : BannedWordsState) : list string :=
  let preset :=
    match truthyId (presetId config) with
    | Some p => default [] (presetWords st !! p)
    | None => []
    end in
  SmartWordFilter.combineWordLists preset (customWords config).

(** [checkBannedWords(message, entityId, messageAuthorGuid)]: what the
    call returns or throws, and the manager afterwards (the filter fills
    its map). *)
Definition checkBannedWords (regexp : RegExpEngine) (botGuid : option string)
    (msg entityId author : string) (st : BannedWordsState)
  : Result bool * BannedWordsState :=
  if String.eqb msg "" then (Value false, st)
  else if String.eqb entityId "" then (Value false, st)
  else if String.eqb author "" then (Value false, st)
  else match entityConfigs st !! entityId with
       | None => (Value false, st)
       | Some config =>
           if negb (enabled config) then (Value false, st)
           else if isAuthorExempt botGuid entityId author st then (Value false, st)
           else
             let '(answer, c) :=
               SmartWordFilter.checkBannedWords regexp msg (allBannedWords config st)
                 (compiledPatterns st) in
             (answer, withPatterns c st)
       end.

End BannedWordsManager.

(** ** class StateManager ([unnamed/part_004]) *)

Record Credentials := {
  bot_guid : option string;
  bot_token : option string;
}.

(** The [_state] object of a [StateManager].  [online] stands for
    [xmpp && xmpp.status === 'online']; timer handles are left out. *)
Record StateManagerState := {
  botCredentials : option Credentials;
  online : bool;
  isConnecting : bool;
  isShuttingDown : bool;
  reconnectionAttempts : Z;
  lastReconnectionTime : Z;
  reconnectionBackoffMs : Z;
  entities : gmap string Entity;
  messageCounts : gmap string Z;
  autoMessageTurn : gmap string Z;
  supergroupSubscriptions : gmap string string;
  recentlyUnassignedEntities : gset string;
  nonExistentEntities : gset string;
  outgoingStanzaQueue : list Node;
}.

Module StateManager.

(** [new StateManager(config)] *)
Definition init : StateManagerState := {|
  botCredentials := None; online := false;
  isConnecting := false; isShuttingDown := false;
  reconnectionAttempts := 0; lastReconnectionTime := 0;
  reconnectionBackoffMs := 5000;
  entities := ∅; messageCounts := ∅; autoMessageTurn := ∅;
  supergroupSubscriptions := ∅;
  recentlyUnassignedEntities := ∅; nonExistentEntities := ∅;
  outgoingStanzaQueue := [];
|}.

Definition withReconnection (attempts lastTime backoff : Z) (s : StateManagerState)
  : StateManagerState :=
  {| botCredentials := botCredentials s; online := online s;
     isConnecting := isConnecting s; isShuttingDown := isShuttingDown s;
     reconnectionAttempts := attempts; lastReconnectionTime := lastTime;
     reconnectionBackoffMs := backoff;
     entities := entities s; messageCounts := messageCounts s;
     autoMessageTurn := autoMessageTurn s;
     supergroupSubscriptions := supergroupSubscriptions s;
     recentlyUnassignedEntities := recentlyUnassignedEntities s;
     nonExistentEntities := nonExistentEntities s;
     outgoingStanzaQueue := outgoingStanzaQueue s |}.

Definition withFlags (on connecting shuttingDown : bool) (s : StateManagerState)
  : StateManagerState :=
  {| botCredentials := botCredentials s; online := on;
     isConnecting := connecting; isShuttingDown := shuttingDown;
     reconnectionAttempts := reconnectionAttempts s;
     lastReconnectionTime := lastReconnectionTime s;
     reconnectionBackoffMs := reconnectionBackoffMs s;
     entities := entities s; messageCounts := messageCounts s;
     autoMessageTurn := autoMessageTurn s;
     supergroupSubscriptions := supergroupSubscriptions s;
     recentlyUnassignedEntities := recentlyUnassignedEntities s;
     nonExistentEntities := nonExistentEntities s;
     outgoingStanzaQueue := outgoingStanzaQueue s |}.

(** [setBotCredentials(credentials)] *)
Definition setBotCredentials (c : option Credentials) (s : StateManagerState)
  : StateManagerState :=
  {| botCredentials := c; online := online s;
     isConnecting := isConnecting s; isShuttingDown := isShuttingDown s;
     reconnectionAttempts := reconnectionAttempts s;
     lastReconnectionTime := lastReconnectionTime s;
     reconnectionBackoffMs := reconnectionBackoffMs s;
     entities := entities s; messageCounts := messageCounts s;
     autoMessageTurn := autoMessageTurn s;
     supergroupSubscriptions := supergroupSubscriptions s;
     recentlyUnassignedEntities := recentlyUnassignedEntities s;
     nonExistentEntities := nonExistentEntities s;
     outgoingStanzaQueue := outgoingStanzaQueue s |}.

Definition withEntities (es : gmap string Entity) (s : StateManagerState)
  : StateManagerState :=
  {| botCredentials := botCredentials s; online := online s;
     isConnecting := isConnecting s; isShuttingDown := isShuttingDown s;
     reconnectionAttempts := reconnectionAttempts s;
     lastReconnectionTime := lastReconnectionTime s;
     reconnectionBackoffMs := reconnectionBackoffMs s;
     entities := es; messageCounts := messageCounts s;
     autoMessageTurn := autoMessageTurn s;
     supergroupSubscriptions := supergroupSubscriptions s;
     recentlyUnassignedEntities := recentlyUnassignedEntities s;
     nonExistentEntities := nonExistentEntities s;
     outgoingStanzaQueue := outgoingStanzaQueue s |}.

Definition withCounters (counts turns : gmap string Z) (s : StateManagerState)
  : StateManagerState :=
  {| botCredentials := botCredentials s; online := online s;
     isConnecting := isConnecting s; isShuttingDown := isShuttingDown s;
     reconnectionAttempts := reconnectionAttempts s;
     lastReconnectionTime := lastReconnectionTime s;
     reconnectionBackoffMs := reconnectionBackoffMs s;
     entities := entities s; messageCounts := counts;
     autoMessageTurn := turns;
     supergroupSubscriptions := supergroupSubscriptions s;
     recentlyUnassignedEntities := recentlyUnassignedEntities s;
     nonExistentEntities := nonExistentEntities s;
     outgoingStanzaQueue := outgoingStanzaQueue s |}.

Definition withSubscriptions (subs : gmap string string) (s : StateManagerState)
  : StateManagerState :=
  {| botCredentials := botCredentials s; online := online s;
     isConnecting := isConnecting s; isShuttingDown := isShuttingDown s;
     reconnectionAttempts := reconnectionAttempts s;
     lastReconnectionTime := lastReconnectionTime s;
     reconnectionBackoffMs := reconnectionBackoffMs s;
     entities := entities s; messageCounts := messageCounts s;
     autoMessageTurn := autoMessageTurn s;
     supergroupSubscriptions := subs;
     recentlyUnassignedEntities := recentlyUnassignedEntities s;
     nonExistentEntities := nonExistentEntities s;
     outgoingStanzaQueue := outgoingStanzaQueue s |}.

Definition withSets (recent nonExistent : gset string) (s : StateManagerState)
  : StateManagerState :=
  {| botCredentials := botCredentials s; online := online s;
     isConnecting := isConnecting s; isShuttingDown := isShuttingDown s;
     reconnectionAttempts := reconnectionAttempts s;
     lastReconnectionTime := lastReconnectionTime s;
     reconnectionBackoffMs := reconnectionBackoffMs s;
     entities := entities s; messageCounts := messageCounts s;
     autoMessageTurn := autoMessageTurn s;
     supergroupSubscriptions := supergroupSubscriptions s;
     recentlyUnassignedEntities := recent;
     nonExistentEntities := nonExistent;
     outgoingStanzaQueue := outgoingStanzaQueue s |}.

Definition withQueue (q : list Node) (s : StateManagerState) : StateManagerState :=
  {| botCredentials := botCredentials s; online := online s;
     isConnecting := isConnecting s; isShuttingDown := isShuttingDown s;
     reconnectionAttempts := reconnectionAttempts s;
     lastReconnectionTime := lastReconnectionTime s;
     reconnectionBackoffMs := reconnectionBackoffMs s;
     entities := entities s; messageCounts := messageCounts s;
     autoMessageTurn := autoMessageTurn s;
     supergroupSubscriptions := supergroupSubscriptions s;
     recentlyUnassignedEntities := recentlyUnassignedEntities s;
     nonExistentEntities := nonExistentEntities s;
     outgoingStanzaQueue := q |}.

(** [getBotCredentials()?.bot_guid] *)
Definition botGuid (s : StateManagerState) : option string :=
  botCredentials s ≫= bot_guid.

(** [getBotCredentials()?.bot_token], as a truthy value. *)
Definition accessToken (s : StateManagerState) : option string :=
  Js.truthy (botCredentials s ≫= bot_token).

Definition hasEntity (entityId : string) (s : StateManagerState) : bool :=
  bool_decide (is_Some (entities s !! entityId)).

Definition getEntity (entityId : string) (s : StateManagerState) : option Entity :=
  entities s !! entityId.

Definition setEntity (entityId : string) (e : Entity) (s : StateManagerState)
  : StateManagerState :=
  withEntities (<[entityId := e]> (entities s)) s.

(** [getMessageCount(roomId)]: [get(roomId) || 0] *)
Definition getMessageCount (roomId : string) (s : StateManagerState) : Z :=
  default 0 (messageCounts s !! roomId).

Definition setMessageCount (roomId : string) (count : Z) (s : StateManagerState)
  : StateManagerState :=
  withCounters (<[roomId := count]> (messageCounts s)) (autoMessageTurn s) s.

(** [incrementMessageCount(roomId)]: the new count and the new state. *)
Definition incrementMessageCount (roomId : string) (s : StateManagerState)
  : Z * StateManagerState :=
  let newCount := getMessageCount roomId s + 1 in
  (newCount, setMessageCount roomId newCount s).

Definition resetMessageCount (roomId : string) (s : StateManagerState)
  : StateManagerState :=
  setMessageCount roomId 0 s.

(** [getAutoMessageTurn(roomId)]: [get(roomId) || 0] *)
Definition getAutoMessageTurn (roomId : string) (s : StateManagerState) : Z :=
  default 0 (autoMessageTurn s !! roomId).

Definition setAutoMessageTurn (roomId : string) (turn : Z) (s : StateManagerState)
  : StateManagerState :=
  withCounters (messageCounts s) (<[roomId := turn]> (autoMessageTurn s)) s.

(** [incrementAutoMessageTurn(roomId, maxTurn)] *)
Definition incrementAutoMessageTurn (roomId : string) (maxTurn : Z)
    (s : StateManagerState) : Z * StateManagerState :=
  let current := getAutoMessageTurn roomId s in
  let newTurn := Js.rem (current + 1) maxTurn in
  (newTurn, setAutoMessageTurn roomId newTurn s).

Definition resetAutoMessageTurn (roomId : string) (s : StateManagerState)
  : StateManagerState :=
  setAutoMessageTurn roomId 0 s.

Definition removeMessageCount (roomId : string) (s : StateManagerState)
  : StateManagerState :=
  withCounters (delete roomId (messageCounts s)) (autoMessageTurn s) s.

Definition removeAutoMessageTurn (roomId : string) (s : StateManagerState)
  : StateManagerState :=
  withCounters (messageCounts s) (delete roomId (autoMessageTurn s)) s.

(** [removeEntity(entityId)] *)
Definition removeEntity (entityId : string) (s : StateManagerState)
  : StateManagerState :=
  if hasEntity entityId s then
    removeAutoMessageTurn entityId
      (removeMessageCount entityId
         (withEntities (delete entityId (entities s)) s))
  else s.

(** [clearAllEntities()] *)
Definition clearAllEntities (s : StateManagerState) : StateManagerState :=
  withCounters ∅ ∅ (withEntities ∅ s).

(** [performMemoryCleanup()]: counters of rooms that are no entity go. *)
Definition performMemoryCleanup (s : StateManagerState) : StateManagerState :=
  let keep (kv : string * Z) := is_Some (entities s !! kv.1) in
  withCounters (filter keep (messageCounts s)) (filter keep (autoMessageTurn s)) s.

Definition hasRecentlyUnassignedEntity (entityId : string) (s : StateManagerState) : bool :=
  bool_decide (entityId ∈ recentlyUnassignedEntities s).

Definition addRecentlyUnassignedEntity (entityId : string) (s : StateManagerState)
  : StateManagerState :=
  withSets ({[entityId]} ∪ recentlyUnassignedEntities s) (nonExistentEntities s) s.

Definition removeRecentlyUnassignedEntity (entityId : string) (s : StateManagerState)
  : StateManagerState :=
  withSets (recentlyUnassignedEntities s ∖ {[entityId]}) (nonExistentEntities s) s.

Definition hasNonExistentEntity (entityId : string) (s : StateManagerState) : bool :=
  bool_decide (entityId ∈ nonExistentEntities s).

Definition addNonExistentEntity (entityId : string) (s : StateManagerState)
  : StateManagerState :=
  withSets (recentlyUnassignedEntities s) ({[entityId]} ∪ nonExistentEntities s) s.

Definition removeNonExistentEntity (entityId : string) (s : StateManagerState)
  : StateManagerState :=
  withSets (recentlyUnassignedEntities s) (nonExistentEntities s ∖ {[entityId]}) s.

Definition setSupergroupSubscription (roomJid presenceGroup : string)
    (s : StateManagerState) : StateManagerState :=
  withSubscriptions (<[roomJid := presenceGroup]> (supergroupSubscriptions s)) s.

Definition removeSupergroupSubscription (roomJid : string) (s : StateManagerState)
  : StateManagerState :=
  withSubscriptions (delete roomJid (supergroupSubscriptions s)) s.

Definition addToOutgoingStanzaQueue (stanza : Node) (s : StateManagerState)
  : StateManagerState :=
  withQueue (outgoingStanzaQueue s ++ [stanza])%list s.

(** [getEntityKeys()]: the keys of the entity map in the order of their
    insertion, which a [gmap] does not keep.  [insertionOrder] gives
    it; keys of the map that it leaves out come last. *)
Definition getEntityKeys (insertionOrder : list string) (s : StateManagerState)
  : list string :=
  List.filter (fun entityId => hasEntity entityId s)
    (remove_dups (insertionOrder ++ (map_to_list (entities s)).*1)).

(** [cleanupEntityData(entityId, options)].  The class has no such
    method, and nothing adds one to its instances: the three calls, in
    [handle404Error], [handleEntityUnassignment] and the callback of
    [scheduleEntityUpdates], throw a [TypeError]. *)
Definition cleanupEntityData (entityId : string)
    (addToRecentlyUnassigned addToNonExistent : bool) (s : StateManagerState)
  : Result StateManagerState :=
  TypeError.

End StateManager.

(** ** The worker process: state, effects *)

Record WebhookConfig := {
  url : string;
  customMessage : string;
  muteDurationSeconds : Z;
  entityName : option string;
}.

(** What the worker does to the outside world. *)
Inductive Action :=
  (** [POST] to a Discord webhook url: message content, embed description,
      author, room. *)
| DiscordWebhook (webhookUrl content description author room : string)
  (** [POST {chatAdminUrl}/messages/retract/{messageId}?from={fromJid}&muc={mucJid}]
      with the bearer token. *)
| RetractMessage (messageId : option string) (fromJid mucJid token : string)
  (** [POST {chatAdminUrl}/club/{clubId}/member/{userGuid}:mute] with body
      [until = now + durationSeconds * 1000] and the bearer token. *)
| MuteMember (clubId userGuid : string) (durationSeconds : Z) (token : string)
  (** [xmpp.send(stanza)] *)
| XmppSend (stanza : Node)
  (** The answer [{ xmlns: 'jabber:client', id, to, type: 'result' }] that
      the worker's ping handler returns to the client library, which
      sends it at once. *)
| PingResult (id to : option string)
  (** [POST {baseUrl}/entities/{entityId}/status] *)
| PostEntityStatus (entityId status : string)
  (** [process.exit(code)], scheduled through [setTimeout]. *)
| ProcessExit (code : Z)
  (** A promise was rejected that nothing awaits or catches. *)
| UnhandledRejection.

Record Worker := {
  sm : StateManagerState;
  bannedWords : BannedWordsState;
  webhookConfigs : gmap string WebhookConfig;
  profanityFilterConfigs : gmap string ProfanityConfig;
}.

Definition withSm (s : StateManagerState) (w : Worker) : Worker :=
  {| sm := s; bannedWords := bannedWords w;
     webhookConfigs := webhookConfigs w;
     profanityFilterConfigs := profanityFilterConfigs w |}.

Definition withModeration (b : BannedWordsState) (wh : gmap string WebhookConfig)
    (pf : gmap string ProfanityConfig) (w : Worker) : Worker :=
  {| sm := sm w; bannedWords := b; webhookConfigs := wh;
     profanityFilterConfigs := pf |}.

(** A computation of the worker: it reads and writes the worker's state
    and appends to the trace of actions. *)
Definition M (A : Type) : Type := Worker -> A * Worker * list Action.

#[global] Instance M_ret : MRet M := fun A x w => (x, w, []).

#[global] Instance M_bind : MBind M := fun A B f c w =>
  let '(x, w1, t1) := c w in
  let '(y, w2, t2) := f x w1 in
  (y, w2, (t1 ++ t2)%list).

Definition getState : M Worker := fun w => (w, w, []).

Definition modifySm (f : StateManagerState -> StateManagerState) : M unit :=
  fun w => (tt, withSm (f (sm w)) w, []).

(** A method of the state manager that returns a value. *)
Definition liftSm {A} (f : StateManagerState -> A * StateManagerState) : M A :=
  fun w => let '(x, s) := f (sm w) in (x, withSm s w, []).

Definition emit (a : Action) : M unit := fun w => (tt, w, [a]).

Definition skip : M unit := mret tt.

(** The actions of a computation, and its final state. *)
Definition actionsOf {A} (c : M A) (w : Worker) : list Action := (c w).2.
Definition stateOf {A} (c : M A) (w : Worker) : Worker := (c w).1.2.
Definition resultOf {A} (c : M A) (w : Worker) : A := (c w).1.1.

(** [queueStanza(stanza)] of the worker. *)
Definition queueStanza (stanza : Node) : M unit :=
  w ← getState;
  if isShuttingDown (sm w) then skip
  else modifySm (StateManager.addToOutgoingStanzaQueue stanza).

(** [hasEntity(roomId) ? getEntity(roomId) : roomId] *)
Definition entityOrRoom (roomId : string) (s : StateManagerState) : Entity + string :=
  match StateManager.getEntity roomId s with
  | Some e => inl e
  | None => inr roomId
  end.

(** ** modules/moderation/discord/discord-webhook-manager.js *)

Module DiscordWebhookManager.

(** [sendBannedWordsNotification(entityId, messageContent, author, roomId)] *)
Definition sendBannedWordsNotification (entityId messageContent author roomId : string)
  : M unit :=
  w ← getState;
  match webhookConfigs w !! entityId with
  | None => skip
  | Some cfg =>
      let description :=
        if (1000 <? String.length messageContent)%nat
        then idManager.take 1000 messageContent +:+ "..."
        else messageContent in
      emit (DiscordWebhook (url cfg) (customMessage cfg) description author
              (default roomId (Js.truthy (entityName cfg))))
  end.

(** [cleanupWebhook(entityId)] *)
Definition cleanupWebhook (entityId : string) (wh : gmap string WebhookConfig)
  : gmap string WebhookConfig :=
  delete entityId wh.

End DiscordWebhookManager.

(** ** class Moderation ([modules/moderation/banned-words/smart-word-filter.js]) *)

(** [constants.moderation] of [config/index.js]. *)
Definition bannedWordMuteDuration : Z := 24 * 60 * 60.
Definition readOnlyMuteDuration : Z := 10.

(** The stage of the pipeline that found a message in breach. *)
Inductive Stage := BannedWordsStage | ReadOnlyStage.

(** What a call of [checkBannedWords] or of [enforceReadOnlyMode] holds
    while it waits inside [deleteMessage]: the stage and the arguments
    [messageId], [messageAuthorGuid] and [roomId]. *)
Record Moderated := {
  stage : Stage;
  retracted : option string;
  offender : string;
  room : string;
}.

(** How a call of an [async] function of the pipeline ends in the task
    that started it: it returns, it throws (its promise is rejected), or
    it waits at the sleep of [deleteMessage]. *)
Inductive Outcome (A : Type) :=
| Returns (value : A)
| Throws
| Awaits (call : Moderated).
Arguments Returns {A} value.
Arguments Throws {A}.
Arguments Awaits {A} call.

(** [const x = await c; f(x)] inside an [async] function. *)
Definition andThen {A B} (c : M (Outcome A)) (f : A -> M (Outcome B)) : M (Outcome B) :=
  o ← c;
  match o with
  | Returns x => f x
  | Throws => mret Throws
  | Awaits call => mret (Awaits call)
  end.

(** A call of an [async] function whose promise the caller neither
    awaits nor catches. *)
Definition detached {A} (c : M (Outcome A)) : M unit :=
  o ← c;
  match o with
  | Throws => emit UnhandledRejection
  | _ => skip
  end.

Module Moderation.

(** [getMessageReply(entityId)]: [config?.message_reply || null] *)
Definition getMessageReply (entityId : string) (w : Worker) : option string :=
  Js.truthy (profanityFilterConfigs w !! entityId ≫= message_reply).

(** [deleteMessage(messageId, messageAuthorGuid, roomId)] from the end of
    its sleep of 300 ms to its request.  The result is [true] when the
    request is made, on which the method waits for the answer, and
    [false] when the method has returned without one.  Whatever the
    answer, the method then returns a boolean of which its caller only
    makes a log line. *)
Definition deleteMessage (messageId : option string) (author roomId : string) : M bool :=
  w ← getState;
  match StateManager.accessToken (sm w) with
  | None => mret false
  | Some token =>
      let fromJid := author +:+ "@" +:+ domain xmppConfig in
      let e := default (bareCommunity roomId) (StateManager.getEntity roomId (sm w)) in
      let mucJid := idManager.toMucLightJidForEntity e xmppConfig in
      emit (RetractMessage messageId fromJid mucJid token);;
      mret true
  end.

(** [entity.type === 'chat' || entity.type === 'ihl'] *)
Definition isChannelType (e : Entity) : bool :=
  bool_decide (type e = Some "chat") || bool_decide (type e = Some "ihl").

(** [muteUser(userGuid, roomId, durationSeconds)] up to its request; of
    the boolean that it returns its caller only makes a log line. *)
Definition muteUser (userGuid roomId : string) (durationSeconds : Z) : M unit :=
  if (durationSeconds <=? 0)%Z then skip
  else
    w ← getState;
    match StateManager.accessToken (sm w) with
    | None => skip
    | Some token =>
        let apiClubId :=
          match StateManager.getEntity roomId (sm w) with
          | Some e =>
              if isChannelType e
              then default roomId
                     (Js.or_else (parent_guid e) (Js.truthy (permissions_parent_guid e)))
              else roomId
          | None => roomId
          end in
        emit (MuteMember apiClubId userGuid durationSeconds token)
    end.

(** What [checkBannedWords] and [enforceReadOnlyMode] do once
    [deleteMessage] has returned: the mute.  They return [true] then, on
    which [processModeration] and [handleGroupChatMessage] return. *)
Definition afterDelete (call : Moderated) : M unit :=
  match stage call with
  | BannedWordsStage =>
      w ← getState;
      let muteDuration :=
        default bannedWordMuteDuration
          (profanityFilterConfigs w !! room call ≫= mute_duration_seconds) in
      muteUser (offender call) (room call) muteDuration
  | ReadOnlyStage =>
      muteUser (offender call) (room call) readOnlyMuteDuration
  end.

(** The waiting call when the sleep of [deleteMessage] has ended.  The
    result is [true] when it waits again, for the answer to the
    retraction request. *)
Definition resumeAfterSleep (call : Moderated) : M bool :=
  requested ← deleteMessage (retracted call) (offender call) (room call);
  if requested : bool then mret true
  else afterDelete call;; mret false.

(** The waiting call when the retraction request has been answered, or
    has failed. *)
Definition resumeAfterRetraction (call : Moderated) : M unit :=
  afterDelete call.

Section Engine.

Variable regexp : RegExpEngine.

(** [checkBannedWords(messageContent, roomId, author, messageId, queueStanza)]
    up to [await this.deleteMessage(...)]. *)
Definition checkBannedWords (messageContent roomId author : string)
    (messageId : option string) : M (Outcome bool) :=
  w ← getState;
  let '(answer, manager) :=
    BannedWordsManager.checkBannedWords regexp (StateManager.botGuid (sm w))
      messageContent roomId author (bannedWords w) in
  (fun w => (tt, withModeration manager (webhookConfigs w) (profanityFilterConfigs w) w, []));;
  match answer with
  | TypeError => mret Throws
  | Value false => mret (Returns false)
  | Value true =>
      DiscordWebhookManager.sendBannedWordsNotification roomId messageContent author roomId;;
      w1 ← getState;
      match getMessageReply roomId w1 with
      | Some messageReply =>
          queueStanza (xmppActions.sendMessage (entityOrRoom roomId (sm w1)) messageReply None)
      | None => skip
      end;;
      mret (Awaits {| stage := BannedWordsStage; retracted := messageId;
                      offender := author; room := roomId |})
  end.

(** [enforceReadOnlyMode(roomConfig, roomId, author, messageId, _, _)] up
    to [await this.deleteMessage(...)]. *)
Definition enforceReadOnlyMode (roomConfig : Entity) (roomId author : string)
    (messageId : option string) : M (Outcome bool) :=
  if read_only roomConfig then
    mret (Awaits {| stage := ReadOnlyStage; retracted := messageId;
                    offender := author; room := roomId |})
  else mret (Returns false).

(** [processModeration(messageData, roomConfig, queueStanza)] *)
Definition processModeration (messageContent roomId author : string)
    (messageId : option string) (roomConfig : Entity) : M (Outcome bool) :=
  andThen (checkBannedWords messageContent roomId author messageId) (fun hit =>
    if hit : bool then mret (Returns true)
    else
      andThen (enforceReadOnlyMode roomConfig roomId author messageId) (fun ro =>
        if ro : bool then mret (Returns true) else mret (Returns false))).

End Engine.

End Moderation.

(** ** modules/messaging/timed-messages.js *)

Module TimedMessages.

(** [roomConfig.timers.at(nextTurn)]: a negative index counts from the
    end of the array; out of range the result is [undefined]. *)
Definition at_ (ts : list Timer) (i : Z) : option Timer :=
  let k := if (0 <=? i)%Z then i else Z.of_nat (List.length ts) + i in
  if (k <? 0)%Z then None else ts !! Z.to_nat k.

(** [processTimedMessages(roomId, roomConfig, queueStanza)].  Reading
    [.message] of an undefined timer would throw before anything is
    queued; [(current + 1) % length] lies strictly between [-length] and
    [length], so [at] is always defined here (lemma [at_rem_defined]). *)
Definition processTimedMessages (roomId : string) (roomConfig : Entity) : M unit :=
  newCount ← liftSm (StateManager.incrementMessageCount roomId);
  if (0 <? List.length (timers roomConfig))%nat
     && (timer_counter_max roomConfig <? newCount)%Z
  then
    nextTurn ← liftSm (StateManager.incrementAutoMessageTurn roomId
                          (Z.of_nat (List.length (timers roomConfig))));
    match at_ (timers roomConfig) nextTurn with
    | None => skip
    | Some timerConfig =>
        w ← getState;
        queueStanza (xmppActions.sendMessage (entityOrRoom roomId (sm w))
                       (message timerConfig) (Js.truthy (upload_id timerConfig)));;
        modifySm (StateManager.resetMessageCount roomId)
    end
  else skip.

End TimedMessages.

(** ** class Commands ([modules/messaging/timed-messages.js]) *)

Module Commands.

(** [processCommands(messageContent, roomId, roomConfig, queueStanza)] *)
Definition processCommands (messageContent roomId : string) (roomConfig : Entity)
  : M bool :=
  if negb (Js.startsWith "!" messageContent) then mret false
  else
    let command := Js.toLowerCase (Js.substring1 messageContent) in
    match commands roomConfig with
    | None => mret false
    | Some cmds =>
        match cmds !! command with
        | None => mret false
        | Some commandConfig =>
            w ← getState;
            queueStanza (xmppActions.sendMessage (entityOrRoom roomId (sm w))
                           (response commandConfig)
                           (Js.truthy (cmd_upload_id commandConfig)));;
            mret true
        end
    end.

End Commands.

(** ** class MessageProcessor ([unnamed/part_007]) *)

Record MessageData := {
  messageContent : string;
  roomJid : string;
  roomId : option string;
  messageAuthorGuid : string;
  messageId : option string;
}.

Module MessageProcessor.

(** [validateMessage(stanza)].  The method throws on a stanza without
    [from] ([split] of [undefined]) and, for an author that is not
    empty, in a worker without credentials ([bot_guid] of [null]). *)
Definition validateMessage (stanza : Node) (s : StateManagerState)
  : Result (option MessageData) :=
  match Xml.getChild "body" None stanza with
  | None => Value None
  | Some body =>
      match Xml.getChild "delay" (Some "urn:xmpp:delay") stanza with
      | Some _ => Value None
      | None =>
          match Xml.attr "from" stanza with
          | None => TypeError
          | Some from =>
              let parts := Js.split "/" from in
              let roomJid := default "" (parts !! 0%nat) in
              let author :=
                Js.truthy (parts !! 1%nat) ≫= (fun a => Js.split "@" a !! 0%nat) in
              match Js.truthy author with
              | None => Value None
              | Some a =>
                  match botCredentials s with
                  | None => TypeError
                  | Some creds =>
                      if bool_decide (Some a = bot_guid creds) then Value None
                      else
                        let messageId :=
                          match Xml.getChild "stanza-id" (Some "urn:xmpp:sid:0") stanza with
                          | Some el => Xml.attr "id" el
                          | None => Xml.attr "id" stanza
                          end in
                        Value (Some {| messageContent := Xml.getText body;
                                       roomJid := roomJid;
                                       roomId := idManager.fromJid (Some roomJid);
                                       messageAuthorGuid := a;
                                       messageId := messageId |})
                  end
              end
          end
      end
  end.

(** [isValidEntity(roomId, roomJid)] *)
Definition isValidEntity (roomId : option string) (s : StateManagerState) : bool :=
  match roomId with
  | None => true
  | Some r =>
      if StateManager.hasRecentlyUnassignedEntity r s then false
      else if StateManager.hasNonExistentEntity r s then false
      else true
  end.

(** [getRoomConfig(roomId, roomJid)] *)
Definition getRoomConfig (roomId : option string) (s : StateManagerState) : option Entity :=
  r ← roomId; StateManager.getEntity r s.

End MessageProcessor.

(** ** modules/monitoring/debug-handler.js *)

Module DebugHandler.

(** [handle404Error(stanza)].  The call of [cleanupEntityData] throws,
    so that the promise of this [async] method is rejected before the
    status update is asked for. *)
Definition handle404Error (stanza : Node) : M (Outcome unit) :=
  match Xml.attr "from" stanza with
  | None => mret (Returns tt)
  | Some fromJid =>
      if negb (Js.includes "@supergroups" fromJid) && negb (Js.includes "@muclight" fromJid)
      then mret (Returns tt)
      else
        w ← getState;
        match idManager.fromJid (Some fromJid) with
        | None => mret (Returns tt)
        | Some entityId =>
            if StateManager.hasEntity entityId (sm w) then
              match StateManager.cleanupEntityData entityId true true (sm w) with
              | TypeError => mret Throws
              | Value s =>
                  modifySm (fun _ => s);;
                  emit (PostEntityStatus entityId "inactive");;
                  mret (Returns tt)
              end
            else mret (Returns tt)
        end
  end.

(** [handleVerboseError(stanza)] *)
Definition handleVerboseError (stanza : Node) : M unit :=
  match Xml.getChild "error" None stanza with
  | Some error =>
      if bool_decide (Xml.attr "code" error = Some "404")
      then detached (handle404Error stanza)
      else skip
  | None => skip
  end.

(** [handleVerboseSuccess(stanza, queueStanza)] *)
Definition handleVerboseSuccess (stanza : Node) : M unit :=
  match Xml.getChild "query" None stanza with
  | None => skip
  | Some query =>
      if bool_decide (Xml.attr "xmlns" query = Some "faceit:supergroup:group:0") then skip
      else if bool_decide (Xml.attr "xmlns" query = Some "urn:xmpp:muclight:0#configuration")
      then
        match Js.truthy (Xml.getChildText "presence-group" query) with
        | Some presenceGroup =>
            match Xml.attr "from" stanza with
            | Some from =>
                modifySm (StateManager.setSupergroupSubscription from presenceGroup)
            | None => skip
            end;;
            queueStanza (xmppActions.createResubscribeStanza presenceGroup)
        | None => skip
        end
      else skip
  end.

(** [handleVerboseSupergroupIQ(stanza, queueStanza)] *)
Definition handleVerboseSupergroupIQ (stanza : Node) : M unit :=
  if bool_decide (Xml.attr "type" stanza = Some "error")
  then handleVerboseError stanza
  else handleVerboseSuccess stanza.

End DebugHandler.

(** ** Joining and leaving rooms ([unnamed/part_004]) *)

(** [joinRoomForEntity(entityId, entity, context)] *)
Definition joinRoomForEntity (entityId : string) (entity : option Entity) : M unit :=
  w ← getState;
  if StateManager.hasNonExistentEntity entityId (sm w) then skip
  else if negb (online (sm w)) then skip
  else
    let entityData :=
      match entity with
      | Some e => e
      | None => default (bareCommunity entityId) (StateManager.getEntity entityId (sm w))
      end in
    queueStanza (xmppActions.joinRoomEntity entityData).

(** [leaveRoomForEntity(entityId, context)] *)
Definition leaveRoomForEntity (entityId : string) : M unit :=
  w ← getState;
  if negb (online (sm w)) then skip
  else
    let entityData :=
      default (bareCommunity entityId) (StateManager.getEntity entityId (sm w)) in
    let roomJid := idManager.toMucLightJidForEntity entityData xmppConfig in
    modifySm (StateManager.removeSupergroupSubscription roomJid);;
    queueStanza (xmppActions.leaveRoomSimpleEntity entityData).

(** ** lib/utils/validation.js: Discord webhook urls *)

Module WebhookUrl.

Definition stripPrefix (p s : string) : option string :=
  if String.prefix p s
  then Some (String.substring (String.length p) (String.length s - String.length p) s)
  else None.

Definition isDigit (c : ascii) : bool := Js.between 48 57 (Js.code c).

(** [\w] and [-] *)
Definition isTokenChar (c : ascii) : bool :=
  let n := Js.code c in
  Js.between 48 57 n || Js.between 65 90 n || Js.between 97 122 n ||
  (n =? 95)%N || (n =? 45)%N.

Fixpoint dropDigits (s : string) : string :=
  match s with
  | EmptyString => EmptyString
  | String c s' => if isDigit c then dropDigits s' else s
  end.

(** [isValidDiscordWebhookUrl(url)]:
    [/^https:\/\/discord(?:app)?\.com\/api\/webhooks\/\d+\/[\w-]+$/] *)
Definition isValidDiscordWebhookUrl (u : string) : bool :=
  Validation.isValidString u 1 1000 &&
  match stripPrefix "https://discord" u with
  | None => false
  | Some r0 =>
      let r1 := default r0 (stripPrefix "app" r0) in
      match stripPrefix ".com/api/webhooks/" r1 with
      | None => false
      | Some r2 =>
          match r2 with
          | String d _ =>
              isDigit d &&
              match stripPrefix "/" (dropDigits r2) with
              | Some tok =>
                  negb (String.eqb tok "") && Validation.allChars isTokenChar tok
              | None => false
              end
          | EmptyString => false
          end
      end
  end.

End WebhookUrl.

(** [DiscordWebhookManager.configureWebhook(entityId, webhookConfig, entityName)] *)
Definition configureWebhook (entityId : string) (pc : ProfanityConfig)
    (entityName : option string) (wh : gmap string WebhookConfig)
  : gmap string WebhookConfig :=
  if String.eqb entityId "" then wh
  else match Js.truthy (discord_webhook_url pc) with
       | None => delete entityId wh
       | Some u =>
           if negb (WebhookUrl.isValidDiscordWebhookUrl u) then wh
           else
             let mute :=
               match mute_duration_seconds pc with
               | Some d => if (d =? 0)%Z then 300 else d
               | None => 300
               end in
             <[entityId :=
                 {| url := u;
                    customMessage :=
                      default "A message was caught by the profanity filter."
                        (Js.truthy (discord_custom_message pc));
                    muteDurationSeconds := mute;
                    entityName := entityName |}]> wh
       end.

(** ** services/worker/index.js *)

(** The answer to a [getRequest]: the body of the response, or the
    message of the [Error] that [getRequest] throws. *)
Inductive Reply (A : Type) :=
| Ok (body : A)
| Fails (message : string).
Arguments Ok {A} body.
Arguments Fails {A} message.

(** The message of the [Error] that [getRequest(url)] throws:
    [detail] is the status and the body of an error response, or the
    message of the client's own error (a time-out, a refused
    connection). *)
Definition getRequestError (url detail : string) : string :=
  "GET request to " +:+ url +:+ " failed: " +:+ detail.

(** The two urls that [configureEntityProfanityFilter] asks for;
    [baseUrl] is [apiConfig.baseUrl]. *)
Definition profanityConfigUrl (baseUrl entityId : string) : string :=
  baseUrl +:+ "/profanity-filter-config/" +:+ entityId.

Definition entityDataUrl (baseUrl entityId : string) : string :=
  baseUrl +:+ "/entities/" +:+ entityId +:+ "/data".

(** What the data-plane answers while one entity's profanity filter is
    configured: the filter configuration, the preset (words normalised to
    an array, [None] when there is none), the entity data. *)
Record ConfigureEnv := {
  profanityReply : Reply (option ProfanityConfig);
  presetReply : option (list string);
  entityDataReply : Reply (option Entity);
}.

Module WorkerService.

(** The three clean-up calls that [configureEntityProfanityFilter] makes
    when an entity has no active configuration. *)
Definition cleanupModeration (entityId : string) (w : Worker) : Worker :=
  withModeration
    (BannedWordsManager.cleanupEntity entityId (bannedWords w))
    (DiscordWebhookManager.cleanupWebhook entityId (webhookConfigs w))
    (delete entityId (profanityFilterConfigs w)) w.

(** The [catch] of [configureEntityProfanityFilter]:
    [error.message && error.message.includes('404')] chooses the
    clean-up. *)
Definition configureFailed (entityId message : string) (w : Worker) : Worker :=
  if negb (String.eqb message "") && Js.includes "404" message
  then cleanupModeration entityId w
  else w.

(** [configureEntityProfanityFilter(entityId)] *)
Definition configureEntityProfanityFilter (entityId : string) (env : ConfigureEnv)
  : M unit :=
  fun w =>
    match profanityReply env with
    | Ok (Some pc) =>
        if negb (is_active pc) then (tt, cleanupModeration entityId w, [])
        else
          let w1 :=
            withModeration
              (BannedWordsManager.configureEntity entityId (Some pc) (presetReply env)
                 (bannedWords w))
              (webhookConfigs w)
              (<[entityId := pc]> (profanityFilterConfigs w)) w in
          match entityDataReply env with
          | Ok entityData =>
              (tt,
               withModeration (bannedWords w1)
                 (configureWebhook entityId pc (entityData ≫= name) (webhookConfigs w1))
                 (profanityFilterConfigs w1) w1,
               [])
          | Fails message => (tt, configureFailed entityId message w1, [])
          end
    | Ok None => (tt, cleanupModeration entityId w, [])
    | Fails message => (tt, configureFailed entityId message w, [])
    end.

(** [processStanzaQueue()]: one tick of the outgoing queue. *)
Definition processStanzaQueue : M unit :=
  w ← getState;
  match outgoingStanzaQueue (sm w) with
  | [] => skip
  | stanza :: rest =>
      if negb (online (sm w)) then skip
      else
        modifySm (StateManager.withQueue rest);;
        match Js.truthy (Xml.attr "to" stanza) ≫= (fun to => idManager.fromJid (Some to)) with
        | Some entityId =>
            if StateManager.hasNonExistentEntity entityId (sm w) then skip
            else emit (XmppSend stanza)
        | None => emit (XmppSend stanza)
        end
  end.

(** [handleIQGet(stanza)] *)
Definition handleIQGet (stanza : Node) : M unit :=
  match Xml.getChild "ping" (Some "urn:xmpp:ping") stanza with
  | Some _ => skip
  | None =>
      let toAttr :=
        match Xml.attr "from" stanza with
        | Some from => [("to", from)]
        | None => []
        end in
      queueStanza
        (Elem "iq" (toAttr ++ [("type", "error")])%list
           [Elem "error" [("type", "cancel")]
              [Elem "feature-not-implemented"
                 [("xmlns", "urn:ietf:params:xml:ns:xmpp-stanzas")] []]])
  end.

Section Handlers.

Variable regexp : RegExpEngine.

(** [isVerboseLoggingEnabled] of [config/index.js]. *)
Variable isVerboseLoggingEnabled : bool.

(** [handleSupergroupIQ(stanza)] *)
Definition handleSupergroupIQ (stanza : Node) : M unit :=
  let query := Xml.getChild "query" None stanza in
  if bool_decide (query ≫= Xml.attr "xmlns" = Some "faceit:supergroup:group:0")
  then skip
  else
    (if bool_decide (Xml.attr "type" stanza = Some "error")
     then DebugHandler.handleVerboseError stanza else skip);;
    if isVerboseLoggingEnabled then DebugHandler.handleVerboseSupergroupIQ stanza
    else if bool_decide (Xml.attr "type" stanza = Some "error") then skip
    else
      match query with
      | Some q =>
          if bool_decide (Xml.attr "xmlns" q = Some "urn:xmpp:muclight:0#configuration")
          then
            match Js.truthy (Xml.getChildText "presence-group" q) with
            | Some presenceGroup =>
                match Xml.attr "from" stanza with
                | Some from =>
                    modifySm (StateManager.setSupergroupSubscription from presenceGroup)
                | None => skip
                end;;
                queueStanza (xmppActions.createResubscribeStanza presenceGroup)
            | None => skip
            end
          else skip
      | None => skip
      end.

(** [handleGroupChatMessage(stanza)] *)
Definition handleGroupChatMessage (stanza : Node) : M (Outcome unit) :=
  w ← getState;
  match MessageProcessor.validateMessage stanza (sm w) with
  | TypeError => mret Throws
  | Value None => mret (Returns tt)
  | Value (Some md) =>
      if negb (MessageProcessor.isValidEntity (roomId md) (sm w)) then mret (Returns tt)
      else
        match roomId md, MessageProcessor.getRoomConfig (roomId md) (sm w) with
        | Some r, Some roomConfig =>
            andThen
              (Moderation.processModeration regexp (messageContent md) r
                 (messageAuthorGuid md) (messageId md) roomConfig)
              (fun moderated =>
                 if moderated : bool then mret (Returns tt)
                 else
                   TimedMessages.processTimedMessages r roomConfig;;
                   Commands.processCommands (messageContent md) r roomConfig;;
                   mret (Returns tt))
        | _, _ => mret (Returns tt)
        end
  end.

(** The handler that [createXmppClient] registers with the client's
    [iqCallee] for [ping] requests in [urn:xmpp:ping].  The client
    library calls it with the request and sends what it returns. *)
Definition handlePing (stanza : Node) : M unit :=
  emit (PingResult (Xml.attr "id" stanza) (Xml.attr "from" stanza)).

(** [handleStanza(stanza)] *)
Definition handleStanza (stanza : Node) : M unit :=
  w ← getState;
  if isShuttingDown (sm w) then skip
  else
    let ty := Xml.attr "type" stanza in
    if Xml.isName "iq" stanza
       && bool_decide (ty = Some "get")
       && bool_decide (is_Some (Xml.getChild "ping" (Some "urn:xmpp:ping") stanza))
    then skip
    else if Xml.isName "iq" stanza
            && (bool_decide (ty = Some "result") || bool_decide (ty = Some "error"))
    then handleSupergroupIQ stanza
    else if Xml.isName "iq" stanza && bool_decide (ty = Some "get")
    then handleIQGet stanza
    else if Xml.isName "message" stanza && bool_decide (ty = Some "groupchat")
    then detached (handleGroupChatMessage stanza)
    else skip.

(** [handleEntityAssignment(req, res)]: [entityData] is [req.body.entityData],
    [fetchedReply] the answer to the fall-back [GET /entities/:id/data]. *)
Definition handleEntityAssignment (entityId : string) (entityData : option Entity)
    (fetchedReply : Reply (option Entity)) (env : ConfigureEnv) : M unit :=
  w ← getState;
  (if StateManager.hasRecentlyUnassignedEntity entityId (sm w)
   then modifySm (StateManager.removeRecentlyUnassignedEntity entityId) else skip);;
  (if StateManager.hasNonExistentEntity entityId (sm w)
   then modifySm (StateManager.removeNonExistentEntity entityId) else skip);;
  match entityData with
  | Some e =>
      modifySm (StateManager.setEntity entityId e);;
      configureEntityProfanityFilter entityId env;;
      w' ← getState;
      if online (sm w') then joinRoomForEntity entityId None else skip
  | None =>
      match fetchedReply with
      | Ok (Some e) =>
          modifySm (StateManager.setEntity entityId e);;
          configureEntityProfanityFilter entityId env
      | _ => skip
      end
  end.

(** [handleEntityUnassignment(req, res)].  The call of
    [cleanupEntityData] throws and the [catch] ends the handler: the
    room is not left, and the timer that would take the entity out of
    the recently-unassigned set five minutes later is not set. *)
Definition handleEntityUnassignment (entityId : string) : M unit :=
  modifySm (StateManager.addRecentlyUnassignedEntity entityId);;
  (fun w => (tt, cleanupModeration entityId w, []));;
  w ← getState;
  match StateManager.cleanupEntityData entityId true false (sm w) with
  | TypeError => skip
  | Value s =>
      modifySm (fun _ => s);;
      w' ← getState;
      if online (sm w') then leaveRoomForEntity entityId else skip
  end.

(** [handleEntityUpdate(req, res)] *)
Definition handleEntityUpdate (entityId : string) (entityReply : Reply (option Entity))
    (env : ConfigureEnv) : M unit :=
  match entityReply with
  | Ok (Some e) =>
      modifySm (StateManager.setEntity entityId e);;
      configureEntityProfanityFilter entityId env
  | _ => skip
  end.

(** [handlePresetRefresh(req, res)] *)
Definition handlePresetRefresh (pid : Z) (fetched : option (list string)) : M unit :=
  fun w =>
    (tt,
     withModeration (BannedWordsManager.refreshPreset pid fetched (bannedWords w)).2
       (webhookConfigs w) (profanityFilterConfigs w) w,
     []).

Fixpoint forEach {A} (l : list A) (f : A -> M unit) : M unit :=
  match l with
  | [] => skip
  | a :: l' => f a;; forEach l' f
  end.

(** [cleanupEntityTracking(entityId, botId)] *)
Definition cleanupEntityTracking (entityId : string) : M unit :=
  w ← getState;
  (if StateManager.hasRecentlyUnassignedEntity entityId (sm w)
   then modifySm (StateManager.removeRecentlyUnassignedEntity entityId) else skip);;
  (if StateManager.hasNonExistentEntity entityId (sm w)
   then modifySm (StateManager.removeNonExistentEntity entityId) else skip).

(** The body of the second loop of that callback for a key that is no
    longer assigned.  The call of [cleanupEntityData] throws. *)
Definition removeStale (entityId : string) : M (Result unit) :=
  (fun w => (tt, cleanupModeration entityId w, []));;
  w ← getState;
  match StateManager.cleanupEntityData entityId false false (sm w) with
  | TypeError => mret TypeError
  | Value s =>
      modifySm (fun _ => s);;
      leaveRoomForEntity entityId;;
      mret (Value tt)
  end.

(** A [for] loop whose body may throw: the first throw ends it. *)
Fixpoint forEachTry {A} (l : list A) (f : A -> M (Result unit)) : M (Result unit) :=
  match l with
  | [] => mret (Value tt)
  | a :: l' =>
      r ← f a;
      match r with
      | TypeError => mret TypeError
      | Value _ => forEachTry l' f
      end
  end.

(** The callback of [scheduleEntityUpdates()]: [updated] is the object
    that [GET /bots/:id/entities] answers, as its list of entries;
    [envOf] gives the data-plane's answers while each new entity is
    configured; [insertionOrder] is the order in which the entity map
    yields its keys.  A throw in the second loop is caught at the end of
    the callback, past the third loop. *)
Definition reconcileEntities (updated : Reply (option (list (string * Entity))))
    (envOf : string -> ConfigureEnv) (insertionOrder : list string) : M unit :=
  w ← getState;
  if isShuttingDown (sm w) then skip
  else
    match updated with
    | Ok (Some updatedEntities) =>
        forEach updatedEntities (fun '(entityId, entity) =>
          w1 ← getState;
          if negb (StateManager.hasEntity entityId (sm w1))
             && negb (StateManager.hasNonExistentEntity entityId (sm w1))
          then
            cleanupEntityTracking entityId;;
            configureEntityProfanityFilter entityId (envOf entityId);;
            joinRoomForEntity entityId (Some entity)
          else skip);;
        w2 ← getState;
        r ← forEachTry (StateManager.getEntityKeys insertionOrder (sm w2)) (fun entityId =>
               if negb (bool_decide (entityId ∈ updatedEntities.*1))
               then removeStale entityId
               else mret (Value tt));
        match r with
        | TypeError => skip
        | Value _ =>
            forEach updatedEntities (fun '(entityId, entityData) =>
              modifySm (StateManager.setEntity entityId entityData))
        end
    | _ => skip
    end.

(** *** Reconnection *)

(** [shouldAttemptReconnection()], [now] being [Date.now()]. *)
Definition shouldAttemptReconnection (now : Z) (s : StateManagerState) : bool :=
  if (10 <=? reconnectionAttempts s)%Z then false
  else if (now - lastReconnectionTime s <? reconnectionBackoffMs s)%Z then false
  else true.

(** [recordReconnectionAttempt()] *)
Definition recordReconnectionAttempt (now : Z) : M unit :=
  w ← getState;
  let attempts := reconnectionAttempts (sm w) + 1 in
  let currentBackoff := reconnectionBackoffMs (sm w) in
  let newBackoff := Z.min (currentBackoff * 2) 300000 in
  modifySm (StateManager.withReconnection attempts now newBackoff);;
  if (10 <=? attempts)%Z then emit (ProcessExit 1) else skip.

(** [resetReconnectionState()] *)
Definition resetReconnectionState : M unit :=
  modifySm (fun s => StateManager.withReconnection 0 (lastReconnectionTime s) 5000 s).

(** [performPreConnectionChecks()] *)
Definition performPreConnectionChecks (now : Z) (s : StateManagerState) : bool :=
  if isConnecting s || isShuttingDown s then false
  else if negb (shouldAttemptReconnection now s) then false
  else true.

(** [connectXmpp()]: [cleanupExistingConnections] stops the previous
    client, so the session is offline from then on.  [fetched] is the
    answer to [GET /bots/:id/config], stored by [fetchBotCredentials]
    when there is one; [started] tells whether the credentials were
    complete, the chat token was obtained and the new client started,
    otherwise the [catch] branch ran. *)
Definition connectXmpp (now : Z) (fetched : option Credentials) (started : bool)
  : M unit :=
  w ← getState;
  if negb (performPreConnectionChecks now (sm w)) then skip
  else
    modifySm (fun s => StateManager.withFlags (online s) true (isShuttingDown s) s);;
    recordReconnectionAttempt now;;
    modifySm (fun s => StateManager.withFlags false true (isShuttingDown s) s);;
    match fetched with
    | Some creds => modifySm (StateManager.setBotCredentials (Some creds))
    | None => skip
    end;;
    if started then skip
    else modifySm (fun s => StateManager.withFlags false false (isShuttingDown s) s).

(** [handleXmppOnline(address)]: the client's status is [online] when the
    event fires. *)
Definition handleXmppOnline : M unit :=
  modifySm (fun s => StateManager.withFlags true false (isShuttingDown s) s);;
  resetReconnectionState;;
  queueStanza (Elem "presence" [] []).

(** [handleXmppOffline()]; the reconnect it schedules is a later
    [connectXmpp]. *)
Definition handleXmppOffline : M unit :=
  modifySm (fun s => StateManager.withFlags false false (isShuttingDown s) s).

(** *** The worker as a reactive system *)

Inductive Event :=
  (** the client emits [stanza] *)
| Stanza (stanza : Node)
  (** the client library calls the ping handler *)
| ServerPing (stanza : Node)
  (** the interval of the outgoing queue fires *)
| Tick
  (** the sleep of a waiting [deleteMessage] ends *)
| SleepElapsed (call : Moderated)
  (** the retraction request of a waiting [deleteMessage] is answered,
      or fails *)
| RetractionAnswered (call : Moderated)
| Assign (entityId : string) (entityData : option Entity)
    (fetchedReply : Reply (option Entity)) (env : ConfigureEnv)
| Unassign (entityId : string)
| Update (entityId : string) (entityReply : Reply (option Entity)) (env : ConfigureEnv)
| RefreshPreset (pid : Z) (fetched : option (list string))
| Reconcile (updated : Reply (option (list (string * Entity))))
    (envOf : string -> ConfigureEnv) (insertionOrder : list string)
| Connect (now : Z) (fetched : option Credentials) (started : bool)
| Online
| Offline
  (** any other caller of [queueStanza] *)
| Queue (stanza : Node).

Definition handle (ev : Event) : M unit :=
  match ev with
  | Stanza stanza => handleStanza stanza
  | ServerPing stanza => handlePing stanza
  | Tick => processStanzaQueue
  | SleepElapsed call => Moderation.resumeAfterSleep call;; skip
  | RetractionAnswered call => Moderation.resumeAfterRetraction call
  | Assign entityId entityData fetchedReply env =>
      handleEntityAssignment entityId entityData fetchedReply env
  | Unassign entityId => handleEntityUnassignment entityId
  | Update entityId entityReply env => handleEntityUpdate entityId entityReply env
  | RefreshPreset pid fetched => handlePresetRefresh pid fetched
  | Reconcile updated envOf insertionOrder =>
      reconcileEntities updated envOf insertionOrder
  | Connect now fetched started => connectXmpp now fetched started
  | Online => handleXmppOnline
  | Offline => handleXmppOffline
  | Queue stanza => queueStanza stanza
  end.

(** The events of a trace, handled one after the other. *)
Definition run (evs : list Event) : M unit := forEach evs handle.

End Handlers.

End WorkerService.

(** ** services/db-api/index.js: the token refresh throttle *)

Record AuthConstants := {
  tokenRefreshIntervalMs : Z;
  forceRefreshMinIntervalMs : Z;
}.

(** [parseInt(process.env.X || '', 10) || fallback]: an unset, unparsable
    or zero variable gives the fallback. *)
Definition envOr (env : option Z) (fallback : Z) : Z :=
  match env with
  | Some v => if (v =? 0)%Z then fallback else v
  | None => fallback
  end.

(** [constants.auth] of [config/index.js]. *)
Definition authConstants (envTokenRefresh envForceRefresh : option Z) : AuthConstants := {|
  tokenRefreshIntervalMs := envOr envTokenRefresh (30 * 60 * 1000);
  forceRefreshMinIntervalMs := envOr envForceRefresh (60 * 1000);
|}.

(** How [updateBotAccessToken] ends: the OAuth endpoint was called
    (whatever it answered), the bot has no refresh token, or the first
    database query threw. *)
Inductive RefreshOutcome := UpstreamCalled | NoRefreshToken | QueryFailed.

(** The data-plane process: [lastTokenRefreshAt], and the bots for which
    a call of [refreshBotAccessTokenIfNeeded] is suspended at
    [await updateBotAccessToken(botId)]. *)
Record DbApiState := {
  lastTokenRefreshAt : gmap string Z;
  refreshing : list string;
}.

Module DbApi.

Section Throttle.

Variable auth : AuthConstants.

Definition init : DbApiState := {| lastTokenRefreshAt := ∅; refreshing := [] |}.

(** The part of [refreshBotAccessTokenIfNeeded(botId, { force })] before
    its [await]: [false] is the early [return false]. *)
Definition refreshNeeded (botId : string) (force : bool) (now : Z) (st : DbApiState)
  : bool :=
  let minInterval :=
    if force then forceRefreshMinIntervalMs auth else tokenRefreshIntervalMs auth in
  let last := default 0 (lastTokenRefreshAt st !! botId) in
  let elapsed := now - last in
  if (elapsed <? minInterval)%Z then false else true.

(** A request [GET /bots/:botId/config] arrives at time [now]. *)
Definition beginCall (botId : string) (force : bool) (now : Z) (st : DbApiState)
  : DbApiState :=
  if refreshNeeded botId force now st
  then {| lastTokenRefreshAt := lastTokenRefreshAt st;
          refreshing := botId :: refreshing st |}
  else st.

Fixpoint removeOne (botId : string) (l : list string) : list string :=
  match l with
  | [] => []
  | b :: l' => if String.eqb b botId then l' else b :: removeOne botId l'
  end.

(** [updateBotAccessToken(botId)] of a suspended call ends at time
    [done_]; the result is the number of calls made to the OAuth
    endpoint (0 or 1) and the new state. *)
Definition endCall (botId : string) (outcome : RefreshOutcome) (done_ : Z)
    (st : DbApiState) : nat * DbApiState :=
  if bool_decide (botId ∈ refreshing st) then
    match outcome with
    | UpstreamCalled =>
        (1%nat, {| lastTokenRefreshAt := <[botId := done_]> (lastTokenRefreshAt st);
                   refreshing := removeOne botId (refreshing st) |})
    | NoRefreshToken =>
        (0%nat, {| lastTokenRefreshAt := <[botId := done_]> (lastTokenRefreshAt st);
                   refreshing := removeOne botId (refreshing st) |})
    | QueryFailed =>
        (0%nat, {| lastTokenRefreshAt := lastTokenRefreshAt st;
                   refreshing := removeOne botId (refreshing st) |})
    end
  else (0%nat, st).

Inductive DbEvent :=
| Begin (botId : string) (force : bool) (now : Z)
| End_ (botId : string) (outcome : RefreshOutcome) (done_ : Z).

Definition dbStep (ev : DbEvent) (st : DbApiState) : nat * DbApiState :=
  match ev with
  | Begin botId force now => (0%nat, beginCall botId force now st)
  | End_ botId outcome done_ => endCall botId outcome done_ st
  end.

(** The number of OAuth refreshes made along a schedule, and the final
    state. *)
Fixpoint dbRun (evs : list DbEvent) (st : DbApiState) : nat * DbApiState :=
  match evs with
  | [] => (0%nat, st)
  | ev :: evs' =>
      let '(n, st1) := dbStep ev st in
      let '(m, st2) := dbRun evs' st1 in
      ((n + m)%nat, st2)
  end.

(** [refreshBotAccessTokenIfNeeded(botId, { force })] run from its
    start at time [now] to its end, nothing else happening in between;
    [done_] is the [Date.now()] stored after the [await]. *)
Definition refreshBotAccessTokenIfNeeded (botId : string) (force : bool) (now : Z)
    (outcome : RefreshOutcome) (done_ : Z) (st : DbApiState) : nat * DbApiState :=
  if refreshNeeded botId force now st
  then endCall botId outcome done_ (beginCall botId force now st)
  else (0%nat, st).

End Throttle.

End DbApi.

(** ** Sample data for the examples *)

(** A worker as [main()] leaves it before any entity is loaded. *)
Definition initWorker : Worker := {|
  sm := StateManager.init;
  bannedWords := BannedWordsManager.init;
  webhookConfigs := ∅;
  profanityFilterConfigs := ∅;
|}.

Module Sample.

Definition isWordChar (c : ascii) : bool :=
  let n := Js.code c in
  Js.between 48 57 n || Js.between 65 90 n || Js.between 97 122 n || (n =? 95)%N.

Definition startsNonWord (s : string) : bool :=
  match s with
  | EmptyString => true
  | String c _ => negb (isWordChar c)
  end.

Definition drop (n : nat) (s : string) : string :=
  String.substring n (String.length s - n) s.

(** [word] stands in [s] between two non-word positions. *)
Fixpoint occursAsWord (word : string) (prevIsWord : bool) (s : string) : bool :=
  (negb prevIsWord && String.prefix word s
   && startsNonWord (drop (String.length word) s)) ||
  match s with
  | EmptyString => false
  | String c s' => occursAsWord word (isWordChar c) s'
  end.

(** An engine for the examples: every pattern compiles, the pattern
    [\bbadword\b] is decided as JavaScript does on lower-case subjects,
    and no other pattern matches. *)
Definition regexp : RegExpEngine := {|
  compiles := fun _ => true;
  test := fun pattern subject =>
    if String.eqb pattern "\bbadword\b"
    then occursAsWord "badword" false subject
    else false;
|}.

End Sample.

(** ** Vocabulary of the statements *)

(** *** Timers *)

(** The timer stage run on [m] messages of one room in a row. *)
Fixpoint feed (m : nat) (r : string) (rc : Entity) : M unit :=
  match m with
  | O => skip
  | S m' => TimedMessages.processTimedMessages r rc;; feed m' r rc
  end.

(** Timer number [i], counted round the list. *)
Definition timerAt (ts : list Timer) (t0 : Timer) (i : Z) : Timer :=
  nth (Z.to_nat (i mod Z.of_nat (List.length ts))) ts t0.

(** The stanza that carries timer [t] to room [r]. *)
Definition timedStanzaIn (es : gmap string Entity) (r : string) (t : Timer) : Node :=
  xmppActions.sendMessage
    (match es !! r with Some e => inl e | None => inr r end)
    (message t) (Js.truthy (upload_id t)).

(** What the timer stage sees of a live worker: the room's counter and
    cursor, the outgoing queue, the entity map. *)
Definition timerView (r : string) (w : Worker) (count cursor : Z) (q : list Node)
    (es : gmap string Entity) : Prop :=
  StateManager.getMessageCount r (sm w) = count /\
  StateManager.getAutoMessageTurn r (sm w) = cursor /\
  outgoingStanzaQueue (sm w) = q /\
  entities (sm w) = es /\
  isShuttingDown (sm w) = false.

(** The room of the specification's scenario 4: three timers,
    threshold 2. *)
Definition T0 : Timer := {| message := "zero"; upload_id := None |}.
Definition T1 : Timer := {| message := "one"; upload_id := Some "img-1" |}.
Definition T2 : Timer := {| message := "two"; upload_id := None |}.

Definition roomE3 : Entity := {|
  guid := "e3"; name := Some "E3"; type := Some "community"; parent_guid := None;
  permissions_parent_guid := None; commands := None;
  timers := [T0; T1; T2]; timer_counter_max := 2; read_only := false;
|}.

(** *** Invariants of the worker *)

(** The entity that the outgoing queue reads off a stanza's [to]. *)
Definition addressee (stanza : Node) : option string :=
  Js.truthy (Xml.attr "to" stanza) ≫= (fun to => idManager.fromJid (Some to)).

(** No stored rotation cursor is negative. *)
Definition cursorsOk (s : StateManagerState) : Prop :=
  forall r v, autoMessageTurn s !! r = Some v -> 0 <= v.

(** Attempt counter, time of the last attempt, next delay. *)
Definition reconnection (s : StateManagerState) : Z * Z * Z :=
  (reconnectionAttempts s, lastReconnectionTime s, reconnectionBackoffMs s).

(** The reconnection fields satisfy [R], the entities of [N] are flagged
    non-existent, no entity outside [X] is and, when [c] is set, the
    cursors are not negative. *)
Definition workerInv (R : Z * Z * Z -> Prop) (N X : gset string) (c : bool)
    (s : StateManagerState) : Prop :=
  R (reconnection s) /\ N ⊆ nonExistentEntities s /\ nonExistentEntities s ⊆ X /\
  (c = true -> cursorsOk s).

(** An action that sends nothing to an entity of [N], that is an exit
    only if exits are allowed, and that is no status update. *)
Definition actionOk (exitAllowed : bool) (N : gset string) (a : Action) : Prop :=
  match a with
  | XmppSend st => forall e, addressee st = Some e -> e ∉ N
  | ProcessExit _ => exitAllowed = true
  | PostEntityStatus _ _ => False
  | _ => True
  end.

(** [c], started in a state that satisfies [I], ends in one, and all its
    actions satisfy [T]. *)
Definition specAt {A} (I : StateManagerState -> Prop) (T : Action -> Prop)
    (c : M A) (w : Worker) : Prop :=
  I (sm w) -> I (sm (stateOf c w)) /\ Forall T (actionsOf c w).

Definition spec {A} (I : StateManagerState -> Prop) (T : Action -> Prop) (c : M A)
  : Prop :=
  forall w, specAt I T c w.

(** The events that neither assign an entity nor touch the reconnection
    fields. *)
Definition ordinary (ev : WorkerService.Event) : Prop :=
  match ev with
  | WorkerService.Assign _ _ _ _ | WorkerService.Connect _ _ _ | WorkerService.Online => False
  | _ => True
  end.

(** The specification's scenario 6: ten connection attempts in a row,
    1000 s apart, none of which gets as far as starting the client. *)
Definition tenFailedConnects : list WorkerService.Event :=
  List.map (fun i : nat => WorkerService.Connect (Z.of_nat i * 1000000) None false)
    (seq 1 10).

(** *** Sample rooms, users and stanzas *)

Definition sampleCreds : Credentials :=
  {| bot_guid := Some "b07b07b0-0000-4000-8000-000000000b07"; bot_token := Some "access-token" |}.

Definition guidE1 : string := "e1e1e1e1-1111-4111-8111-111111111111".

(** A guid that holds the digits 404. *)
Definition guid404 : string := "e2e2e2e2-2222-4042-8222-222222222222".

(** A community room with three timers (threshold 2) and one command. *)
Definition roomE1 (readOnly : bool) : Entity := {|
  guid := guidE1; name := Some "E1"; type := Some "community"; parent_guid := None;
  permissions_parent_guid := None;
  commands := Some {[ "help" := {| response := "ask a manager"; cmd_upload_id := None |} ]};
  timers := [T0; T1; T2]; timer_counter_max := 2; read_only := readOnly;
|}.

(** A groupchat message of [author] in room E1. *)
Definition groupchat (author body id : string) : Node :=
  Elem "message"
    [("from", "club-" +:+ guidE1 +:+ "-general@muclight.chat.faceit.com/"
              +:+ author +:+ "@chat.faceit.com");
     ("type", "groupchat"); ("id", id)]
    [Elem "body" [] [Text body]].

(** [apiConfig.baseUrl] with the default port. *)
Definition baseUrl : string := "http://localhost:3008".

(** The request for the data of room E1 times out. *)
Definition timedOut : Reply (option Entity) :=
  Fails (getRequestError (entityDataUrl baseUrl guidE1) "timeout of 10000ms exceeded").

(** A data-plane without a profanity configuration for the entity. *)
Definition noFilter : ConfigureEnv :=
  {| profanityReply := Ok None; presetReply := None; entityDataReply := timedOut |}.

(** A worker that is online with room E1 assigned. *)
Definition onlineWithE1 (readOnly : bool) : list WorkerService.Event :=
  [ WorkerService.Connect 1700000000000 (Some sampleCreds) true;
    WorkerService.Online;
    WorkerService.Assign guidE1 (Some (roomE1 readOnly)) timedOut noFilter ].

(** Three plain messages of user u1 in room E1. *)
Definition threeMessages : list WorkerService.Event :=
  [ WorkerService.Stanza (groupchat "u1" "hello" "m1");
    WorkerService.Stanza (groupchat "u1" "hello again" "m2");
    WorkerService.Stanza (groupchat "u1" "and again" "m3") ].

(** Room E1 after its timers were replaced by a single one. *)
Definition roomE1Short : Entity := {|
  guid := guidE1; name := Some "E1"; type := Some "community"; parent_guid := None;
  permissions_parent_guid := None; commands := None;
  timers := [T2]; timer_counter_max := 0; read_only := false;
|}.

(** *** The 404 answer *)




(** Room E1 is joined and the queue has been drained. *)
Definition joinedE1 : list WorkerService.Event :=
  (onlineWithE1 false ++ [WorkerService.Tick; WorkerService.Tick])%list.

(** *** A moderated room *)

(** The profanity configuration of room E1 in the specification's
    scenario 2: preset 1, one manager, a webhook, a reply, and no
    [mute_duration_seconds]. *)
Definition filterE1 : ProfanityConfig := {|
  is_active := true;
  banned_words_preset_id := Some 1;
  custom_words := [];
  manager_guids := ["m1"];
  discord_webhook_url := Some "https://discord.com/api/webhooks/123/abc-DEF_1";
  discord_custom_message := None;
  message_reply := Some "watch your language";
  mute_duration_seconds := None;
|}.

(** The data-plane's answers while room E1 is configured with it. *)
Definition filteredEnv (readOnly : bool) : ConfigureEnv :=
  {| profanityReply := Ok (Some filterE1);
     presetReply := Some ["badword"];
     entityDataReply := Ok (Some (roomE1 readOnly)) |}.

(** A worker that is online with the moderated room E1 assigned, the
    queue drained. *)
Definition moderatedE1 (readOnly : bool) : list WorkerService.Event :=
  [ WorkerService.Connect 1700000000000 (Some sampleCreds) true;
    WorkerService.Online;
    WorkerService.Assign guidE1 (Some (roomE1 readOnly)) timedOut (filteredEnv readOnly);
    WorkerService.Tick; WorkerService.Tick ].

(** A configuration of room E1 that bans the words [bad] and
    [evasion_bad], and a worker that is online with the room under it. *)
Definition filterColliding : ProfanityConfig := {|
  is_active := true;
  banned_words_preset_id := None;
  custom_words := ["bad"; "evasion_bad"];
  manager_guids := [];
  discord_webhook_url := None;
  discord_custom_message := None;
  message_reply := None;
  mute_duration_seconds := None;
|}.

Definition collidingE1 : list WorkerService.Event :=
  [ WorkerService.Connect 1700000000000 (Some sampleCreds) true;
    WorkerService.Online;
    WorkerService.Assign guidE1 (Some (roomE1 false)) timedOut
      {| profanityReply := Ok (Some filterColliding);
         presetReply := None;
         entityDataReply := Ok (Some (roomE1 false)) |};
    WorkerService.Tick; WorkerService.Tick ].

(** The exempt authors of a room, as [isAuthorExempt] sees them: the bot
    itself and the managers of the room's filter configuration. *)
Definition managerOf (w : Worker) (r a : string) : Prop :=
  exists cfg, entityConfigs (bannedWords w) !! r = Some cfg /\ a ∈ managerGuids cfg.

(** *** The requests of the moderation stages *)

(** What the banned-words manager answers for a message of author [a]
    in room [r], and the worker once it has answered: only the filter's
    map of compiled patterns may differ. *)
Definition managerAnswer (re : RegExpEngine) (content r a : string) (w : Worker)
  : Result bool :=
  (BannedWordsManager.checkBannedWords re (StateManager.botGuid (sm w)) content r a
     (bannedWords w)).1.

Definition afterCheck (re : RegExpEngine) (content r a : string) (w : Worker) : Worker :=
  withModeration
    (BannedWordsManager.checkBannedWords re (StateManager.botGuid (sm w)) content r a
       (bannedWords w)).2
    (webhookConfigs w) (profanityFilterConfigs w) w.

(** The call that waits after a banned word, and the one that waits
    after a message in a read-only room. *)
Definition bannedWordCall (mid : option string) (a r : string) : Moderated :=
  {| stage := BannedWordsStage; retracted := mid; offender := a; room := r |}.

Definition readOnlyCall (mid : option string) (a r : string) : Moderated :=
  {| stage := ReadOnlyStage; retracted := mid; offender := a; room := r |}.

(** The retraction of message [mid] of author [a] in room [r]. *)
Definition retraction (w : Worker) (mid : option string) (a r token : string) : Action :=
  RetractMessage mid (a +:+ "@" +:+ domain xmppConfig)
    (idManager.toMucLightJidForEntity
       (default (bareCommunity r) (StateManager.getEntity r (sm w))) xmppConfig)
    token.

(** The club in which an author of room [r] is muted: the parent for a
    chat or ihl entity that has one, the room itself otherwise. *)
Definition muteClub (w : Worker) (r : string) : string :=
  match StateManager.getEntity r (sm w) with
  | Some e =>
      if Moderation.isChannelType e
      then default r (Js.or_else (parent_guid e) (Js.truthy (permissions_parent_guid e)))
      else r
  | None => r
  end.

(** The webhook call for a hit in room [r], if the room has a webhook. *)
Definition webhookCall (w : Worker) (r content a : string) : list Action :=
  match webhookConfigs w !! r with
  | None => []
  | Some cfg =>
      [DiscordWebhook (url cfg) (customMessage cfg)
         (if (1000 <? String.length content)%nat
          then idManager.take 1000 content +:+ "..." else content)
         a (default r (Js.truthy (entityName cfg)))]
  end.

(** The reply stanza for a hit in room [r], if the room has a reply. *)
Definition replyStanza (w : Worker) (r : string) : list Node :=
  match Moderation.getMessageReply r w with
  | Some reply => [xmppActions.sendMessage (entityOrRoom r (sm w)) reply None]
  | None => []
  end.

(** A violating message in that room. *)
Definition violation (author : string) : Node :=
  groupchat author "this is badword indeed" "m1".

(** The same, as [validateMessage] reads it. *)
Definition violationText : string := "this is badword indeed".

(** *** A command on the message that triggers a timer *)

(** Room E1 joined, two plain messages counted. *)
Definition twoCounted : list WorkerService.Event :=
  (joinedE1 ++ [ WorkerService.Stanza (groupchat "u1" "hello" "m1");
                 WorkerService.Stanza (groupchat "u1" "hello again" "m2") ])%list.

(** The third message is the command [!help]. *)
Definition helpMessage : Node := groupchat "u1" "!help" "m3".

Definition helpData : MessageData := {|
  messageContent := "!help";
  roomJid := "club-" +:+ guidE1 +:+ "-general@muclight.chat.faceit.com";
  roomId := Some guidE1;
  messageAuthorGuid := "u1";
  messageId := Some "m3";
|}.

(** *** Operations on the banned-words manager *)

Inductive ManagerOp :=
| ConfigureOp (entityId : string) (pc : option ProfanityConfig)
    (fetched : option (list string))
| CleanupOp (entityId : string)
| RefreshOp (pid : Z) (fetched : option (list string)).

Definition applyOp (op : ManagerOp) (st : BannedWordsState) : BannedWordsState :=
  match op with
  | ConfigureOp e pc fetched => BannedWordsManager.configureEntity e pc fetched st
  | CleanupOp e => BannedWordsManager.cleanupEntity e st
  | RefreshOp pid fetched => (BannedWordsManager.refreshPreset pid fetched st).2
  end.

Definition runOps (ops : list ManagerOp) (st : BannedWordsState) : BannedWordsState :=
  List.fold_left (fun st op => applyOp op st) ops st.

Definition isRefresh (op : ManagerOp) : bool :=
  match op with
  | RefreshOp _ _ => true
  | _ => false
  end.

(** The safe shape: 1 to 100 characters of the class
    [[\p{L}\p{N}\s\-_'.!?]] and none of the nine dangerous patterns. *)
Definition safeShape (word : string) : Prop :=
  (1 <= String.length word <= 100)%nat /\
  Validation.allChars Validation.isSafeWordChar word = true /\
  BannedWordsManager.containsDangerousRegexPatterns word = false.

(** Every word of every cached preset and of every entity's custom
    words has the safe shape. *)
Definition wordsSafe (st : BannedWordsState) : Prop :=
  (forall p ws, presetWords st !! p = Some ws -> Forall safeShape ws) /\
  (forall e c, entityConfigs st !! e = Some c -> Forall safeShape (customWords c)).

(** A preset is referenced by the configuration of some entity. *)
Definition referenced (st : BannedWordsState) (p : Z) : Prop :=
  exists e c, entityConfigs st !! e = Some c /\ presetId c = Some p.

(** The configuration of an entity that uses preset [p] and nothing else. *)
Definition usesPreset (p : Z) : ProfanityConfig := {|
  is_active := true;
  banned_words_preset_id := Some p;
  custom_words := [];
  manager_guids := [];
  discord_webhook_url := None;
  discord_custom_message := None;
  message_reply := None;
  mute_duration_seconds := Some 0;
|}.

(** * Further functions of the modelled files *)

(** ** lib/utils/validation.js: guids *)

Module Guid.

(** One character of [[a-zA-Z0-9_-]]. *)
Definition isSimpleIdChar (c : ascii) : bool :=
  let n := Js.code c in
  Js.between 97 122 n || Js.between 65 90 n || Js.between 48 57 n ||
  (n =? 95)%N || (n =? 45)%N.

(** [/^[a-zA-Z0-9_-]{1,50}$/.test(id)] *)
Definition isSimpleId (id : string) : bool :=
  (1 <=? String.length id)%nat && (String.length id <=? 50)%nat &&
  Validation.allChars isSimpleIdChar id.

(** [isValidGuid(id)] on a value that is a string; the UUID pattern is
    the one of [normalizeId]. *)
Definition isValidGuid (id : string) : bool :=
  if negb (Validation.isValidString id 1 1000) then false
  else idManager.isUuid id || isSimpleId id.

End Guid.

(** ** class Commands: the look-up methods *)

Module CommandQueries.

(** [_getCommand(commands, command)] *)
Definition _getCommand (cmds : gmap string Command) (command : string) : option Command :=
  cmds !! command.

(** [hasCommand(command, roomConfig)], as its truth value. *)
Definition hasCommand (command : string) (roomConfig : Entity) : bool :=
  match commands roomConfig with
  | Some cmds => bool_decide (is_Some (_getCommand cmds command))
  | None => false
  end.

(** [getCommandResponse(command, roomConfig)] *)
Definition getCommandResponse (command : string) (roomConfig : Entity) : option string :=
  if negb (hasCommand command roomConfig) then None
  else commands roomConfig ≫= (fun cmds => response <$> _getCommand cmds command).

(** [getCommandUploadId(command, roomConfig)] *)
Definition getCommandUploadId (command : string) (roomConfig : Entity) : option string :=
  if negb (hasCommand command roomConfig) then None
  else commands roomConfig ≫= (fun cmds =>
         _getCommand cmds command ≫= (fun c => Js.truthy (cmd_upload_id c))).

End CommandQueries.

(** ** services/worker/index.js: shutdown *)

(** [shutdown(signal)].  The timeout and the intervals it clears are the
    sources of the events [Reconcile] and [Tick]; the client's new
    status arrives with the [offline] event; [process.exit(0)] follows
    the grace period.  The entity keys are visited in the order of
    [map_to_list]. *)
Definition shutdown : M unit :=
  w ← getState;
  if isShuttingDown (sm w) then skip
  else
    modifySm (fun s => StateManager.withFlags (online s) (isConnecting s) true s);;
    (fun w =>
       let keys := (map_to_list (entities (sm w))).*1 in
       (tt,
        withModeration
          (foldl (fun b entityId => BannedWordsManager.cleanupEntity entityId b)
             (bannedWords w) keys)
          (foldl (fun wh entityId => DiscordWebhookManager.cleanupWebhook entityId wh)
             (webhookConfigs w) keys)
          ∅ w,
        []));;
    emit (ProcessExit 0).

(** ** Vocabulary of the further statements *)

(** What the filter answers when it keeps no compiled pattern: each
    pattern is compiled when it is needed, and one that does not compile
    matches nothing. *)
Module WithoutMap.

Section Engine.

Variable regexp : RegExpEngine.

Definition testPattern (pattern subject : string) : bool :=
  compiles regexp pattern && test regexp pattern subject.

Definition hasWordBoundaryMatch (msg bannedWord : string) : bool :=
  testPattern (SmartWordFilter.boundarySource bannedWord) msg.

Definition hasEvasionPattern (msg bannedWord : string) : bool :=
  existsb (fun p => testPattern p msg) (SmartWordFilter.evasionSources bannedWord).

Definition isWordPresent (lowerMessage bannedWord : string) : bool :=
  if hasWordBoundaryMatch lowerMessage bannedWord then true
  else if hasEvasionPattern lowerMessage bannedWord then true
  else false.

Definition checkBannedWords (msg : string) (bannedWords : list string) : bool :=
  if negb (Validation.isValidString msg 1 1000) then false
  else if negb (Validation.isValidArray bannedWords 1 1000) then false
  else
    let lowerMessage := Js.toLowerCase msg in
    existsb
      (fun bannedWord =>
         Validation.isValidString bannedWord 1 1000 &&
         isWordPresent lowerMessage (Js.toLowerCase bannedWord))
      bannedWords.

End Engine.

End WithoutMap.

(** The map holds what the filter stores for words that do not start
    with [evasion_]: under a word its pattern, which compiled, and under
    [evasion_] and a word the word's evasion patterns that compiled. *)
Definition cacheOk (regexp : RegExpEngine) (c : gmap string Compiled) : Prop :=
  forall k v, c !! k = Some v ->
    (String.prefix "evasion_" k = false /\
     v = Pattern (SmartWordFilter.boundarySource k) /\
     compiles regexp (SmartWordFilter.boundarySource k) = true) \/
    (exists w, k = "evasion_" +:+ w /\
               v = Patterns (SmartWordFilter.createEvasionPatterns regexp w)).


(** The shape of a UUID: five groups of hexadecimal digits, of lengths
    8, 4, 4, 4 and 12, with dashes between them. *)
Definition uuidShape (u : string) : Prop :=
  exists h1 h2 h3 h4 h5,
    u = h1 +:+ "-" +:+ h2 +:+ "-" +:+ h3 +:+ "-" +:+ h4 +:+ "-" +:+ h5 /\
    String.length h1 = 8%nat /\ String.length h2 = 4%nat /\ String.length h3 = 4%nat /\
    String.length h4 = 4%nat /\ String.length h5 = 12%nat /\
    Validation.allChars idManager.isHex h1 = true /\
    Validation.allChars idManager.isHex h2 = true /\
    Validation.allChars idManager.isHex h3 = true /\
    Validation.allChars idManager.isHex h4 = true /\
    Validation.allChars idManager.isHex h5 = true.

(** No match starts at the head of a string one of whose first eight
    characters is no hexadecimal digit. *)
Fixpoint nonHexWithin (n : nat) (s : string) : bool :=
  match n, s with
  | S k, String c s' => negb (idManager.isHex c) || nonHexWithin k s'
  | _, _ => false
  end.

(** Every position of [p] is one at which no match starts. *)
Fixpoint noMatchStart (p : string) : bool :=
  match p with
  | EmptyString => true
  | String _ p' => nonHexWithin 8 p && noMatchStart p'
  end.

(** A stanza of the queue that [processStanzaQueue] sends: its addressee
    is not flagged non-existent. *)
Definition deliverable (s : StateManagerState) (stanza : Node) : bool :=
  match addressee stanza with
  | Some e => negb (StateManager.hasNonExistentEntity e s)
  | None => true
  end.

(** An action that puts a stanza on the XMPP connection. *)
Definition goesOut (a : Action) : bool :=
  match a with
  | XmppSend _ | PingResult _ _ => true
  | _ => false
  end.

(** The answer to the configuration query for room E1: it names the
    room's presence group. *)
Definition presenceGroupE1 : string :=
  "club-" +:+ guidE1 +:+ "@supergroups.chat.faceit.com/general".

Definition configurationResult : Node :=
  Elem "iq"
    [("from", "club-" +:+ guidE1 +:+ "-general@muclight.chat.faceit.com");
     ("type", "result"); ("id", "q1")]
    [Elem "query" [("xmlns", "urn:xmpp:muclight:0#configuration")]
       [Elem "presence-group" [] [Text presenceGroupE1]]].

(** The violation of user u1 as the server replays it to a worker that
    joins the room: it carries a [delay] element. *)
Definition replayedViolation : Node :=
  Elem "message"
    [("from", "club-" +:+ guidE1 +:+ "-general@muclight.chat.faceit.com/u1@chat.faceit.com");
     ("type", "groupchat"); ("id", "m1")]
    [Elem "body" [] [Text "this is badword indeed"];
     Elem "delay" [("xmlns", "urn:xmpp:delay")] []].

(** A keep-alive ping of the server. *)
Definition serverPing : Node :=
  Elem "iq" [("from", "chat.faceit.com"); ("type", "get"); ("id", "ping-1")]
    [Elem "ping" [("xmlns", "urn:xmpp:ping")] []].

(** [n] ticks of the outgoing queue in a row. *)
Definition ticks (n : nat) : list WorkerService.Event := repeat WorkerService.Tick n.

(** The bot that an event of the data-plane concerns. *)
Definition dbEventBot (ev : DbApi.DbEvent) : string :=
  match ev with
  | DbApi.Begin botId _ _ => botId
  | DbApi.End_ botId _ _ => botId
  end.

(** Every stored webhook has a url that [isValidDiscordWebhookUrl]
    accepts. *)
Definition webhooksValid (w : Worker) : Prop :=
  forall e cfg, webhookConfigs w !! e = Some cfg ->
                WebhookUrl.isValidDiscordWebhookUrl (url cfg) = true.

(** An action that is no webhook call, or one to an accepted url. *)
Definition validWebhookCall (a : Action) : Prop :=
  match a with
  | DiscordWebhook u _ _ _ _ => WebhookUrl.isValidDiscordWebhookUrl u = true
  | _ => True
  end.

(** [c], started in a worker that satisfies [J], ends in one, and all
    its actions satisfy [T]. *)
Definition keeps {A} (J : Worker -> Prop) (T : Action -> Prop) (c : M A) : Prop :=
  forall w, J w -> J (stateOf c w) /\ Forall T (actionsOf c w).

(** * Theorems *)

(** ** Running worker computations *)

Lemma run_bind {A B} (c : M A) (f : A -> M B) (w : Worker) :
  (c ≫= f) w
  = ((f (c w).1.1 (c w).1.2).1.1, (f (c w).1.1 (c w).1.2).1.2,
     ((c w).2 ++ (f (c w).1.1 (c w).1.2).2)%list).
Proof.
  unfold mbind, M_bind. destruct (c w) as [[x w1] t1]. cbn [fst snd].
  destruct (f x w1) as [[y w2] t2]. reflexivity.
Qed.

Lemma run_liftSm {A} (f : StateManagerState -> A * StateManagerState) (w : Worker) :
  liftSm f w = ((f (sm w)).1, withSm (f (sm w)).2 w, []).
Proof. unfold liftSm. destruct (f (sm w)). reflexivity. Qed.

Lemma run_queueStanza stanza w :
  isShuttingDown (sm w) = false ->
  queueStanza stanza w = (tt, withSm (StateManager.addToOutgoingStanzaQueue stanza (sm w)) w, []).
Proof.
  intros H. unfold queueStanza. rewrite run_bind. cbn [getState fst snd].
  rewrite H. reflexivity.
Qed.

Lemma run_queueStanza_down stanza w :
  isShuttingDown (sm w) = true -> queueStanza stanza w = (tt, w, []).
Proof.
  intros H. unfold queueStanza. rewrite run_bind. cbn [getState fst snd].
  rewrite H. reflexivity.
Qed.

(** ** The timer stage *)

Lemma timer_stage_quiet w r rc :
  ((0 <? List.length (timers rc))%nat
   && (timer_counter_max rc <? StateManager.getMessageCount r (sm w) + 1)%Z) = false ->
  TimedMessages.processTimedMessages r rc w
  = (tt, withSm (StateManager.setMessageCount r (StateManager.getMessageCount r (sm w) + 1) (sm w)) w, []).
Proof.
  intros H. unfold TimedMessages.processTimedMessages.
  rewrite run_bind, run_liftSm.
  cbn [fst snd StateManager.incrementMessageCount]. rewrite H. reflexivity.
Qed.

Lemma at_nonneg ts i :
  0 <= i -> TimedMessages.at_ ts i = ts !! Z.to_nat i.
Proof.
  intros Hi. unfold TimedMessages.at_.
  destruct (Z.leb_spec 0 i); [|lia]. destruct (Z.ltb_spec i 0); [lia|reflexivity].
Qed.

Lemma at_Some_nonempty ts i t : TimedMessages.at_ ts i = Some t -> ts <> [].
Proof.
  unfold TimedMessages.at_. intros H Hnil. subst ts.
  destruct (_ <? 0)%Z; [discriminate|]. rewrite lookup_nil in H. discriminate.
Qed.

(** The index that [incrementAutoMessageTurn] computes is always in the
    domain of [at]. *)
Lemma at_rem_defined ts cur :
  ts <> [] ->
  is_Some (TimedMessages.at_ ts (Js.rem (cur + 1) (Z.of_nat (List.length ts)))).
Proof.
  intros Hne. unfold TimedMessages.at_, Js.rem.
  assert (Hn : 0 < Z.of_nat (List.length ts)) by (destruct ts; [congruence|cbn; lia]).
  set (n := Z.of_nat (List.length ts)) in *.
  assert (Hb : - n < Z.rem (cur + 1) n < n).
  { pose proof (Z.rem_bound_abs (cur + 1) n). lia. }
  destruct (Z.leb_spec 0 (Z.rem (cur + 1) n)).
  - destruct (Z.ltb_spec (Z.rem (cur + 1) n) 0); [lia|].
    apply lookup_lt_is_Some. subst n. lia.
  - destruct (Z.ltb_spec (n + Z.rem (cur + 1) n) 0); [lia|].
    apply lookup_lt_is_Some. subst n. lia.
Qed.

Lemma timer_stage_fires w r rc t :
  isShuttingDown (sm w) = false ->
  (timer_counter_max rc <? StateManager.getMessageCount r (sm w) + 1)%Z = true ->
  TimedMessages.at_ (timers rc)
    (Js.rem (StateManager.getAutoMessageTurn r (sm w) + 1)
       (Z.of_nat (List.length (timers rc)))) = Some t ->
  let turn := Js.rem (StateManager.getAutoMessageTurn r (sm w) + 1)
                (Z.of_nat (List.length (timers rc))) in
  let s' := sm (stateOf (TimedMessages.processTimedMessages r rc) w) in
  actionsOf (TimedMessages.processTimedMessages r rc) w = [] /\
  StateManager.getAutoMessageTurn r s' = turn /\
  StateManager.getMessageCount r s' = 0 /\
  outgoingStanzaQueue s' = (outgoingStanzaQueue (sm w) ++ [timedStanzaIn (entities (sm w)) r t])%list /\
  entities s' = entities (sm w) /\
  isShuttingDown s' = false.
Proof.
  intros Hsd Hk Ht.
  assert (Hn : (0 <? List.length (timers rc))%nat = true).
  { apply Nat.ltb_lt. apply at_Some_nonempty in Ht. destruct (timers rc); [congruence|cbn; lia]. }
  unfold stateOf, actionsOf, TimedMessages.processTimedMessages.
  rewrite run_bind, run_liftSm.
  cbn [fst snd StateManager.incrementMessageCount]. rewrite Hn, Hk. cbn [andb].
  rewrite run_bind, run_liftSm.
  cbn [fst snd StateManager.incrementAutoMessageTurn sm withSm].
  change (StateManager.getAutoMessageTurn r (StateManager.setMessageCount r
           (StateManager.getMessageCount r (sm w) + 1) (sm w)))
    with (StateManager.getAutoMessageTurn r (sm w)).
  rewrite Ht. rewrite !run_bind. cbn [getState fst snd].
  rewrite run_queueStanza by exact Hsd.
  cbn [fst snd modifySm].
  unfold StateManager.getAutoMessageTurn, StateManager.getMessageCount. cbn.
  rewrite !lookup_insert_eq. repeat split; try reflexivity. exact Hsd.
Qed.

Lemma feed_S m r rc w :
  stateOf (feed (S m) r rc) w
  = stateOf (feed m r rc) (stateOf (TimedMessages.processTimedMessages r rc) w).
Proof.
  unfold stateOf. cbn [feed]. unfold mbind, M_bind.
  destruct (TimedMessages.processTimedMessages r rc w) as [[[] w1] t1].
  cbn [fst snd].
  destruct (feed m r rc w1) as [[[] w2] t2]. reflexivity.
Qed.

Lemma feed_add a b r rc w :
  stateOf (feed (a + b) r rc) w = stateOf (feed b r rc) (stateOf (feed a r rc) w).
Proof.
  revert w. induction a as [|a IH]; intros w.
  - reflexivity.
  - change (S a + b)%nat with (S (a + b)). rewrite !feed_S. apply IH.
Qed.

Lemma view_quiet r rc w c cur q es :
  timerView r w c cur q es ->
  c + 1 <= timer_counter_max rc ->
  timerView r (stateOf (TimedMessages.processTimedMessages r rc) w) (c + 1) cur q es.
Proof.
  intros (Hc & Hcur & Hq & Hes & Hsd) Hk.
  unfold stateOf. rewrite timer_stage_quiet.
  - unfold timerView, StateManager.getMessageCount, StateManager.getAutoMessageTurn in *.
    cbn. rewrite lookup_insert_eq. cbn. repeat split; try assumption. lia.
  - apply andb_false_iff. right. apply Z.ltb_ge. lia.
Qed.

Lemma view_quiet_run r rc m w c cur q es :
  timerView r w c cur q es ->
  c + Z.of_nat m <= timer_counter_max rc ->
  timerView r (stateOf (feed m r rc) w) (c + Z.of_nat m) cur q es.
Proof.
  revert w c. induction m as [|m IH]; intros w c Hv Hk.
  - replace (c + Z.of_nat 0) with c by lia. exact Hv.
  - rewrite feed_S.
    replace (c + Z.of_nat (S m)) with ((c + 1) + Z.of_nat m) by lia.
    apply IH; [|lia]. apply view_quiet; [exact Hv|lia].
Qed.

Lemma lookup_timerAt ts t0 i :
  ts <> [] ->
  ts !! Z.to_nat (i mod Z.of_nat (List.length ts)) = Some (timerAt ts t0 i).
Proof.
  intros Hne. unfold timerAt.
  assert (0 < Z.of_nat (List.length ts)) by (destruct ts; [congruence | cbn; lia]).
  pose proof (Z.mod_pos_bound i _ H).
  destruct (nth_lookup_or_length ts (Z.to_nat (i mod Z.of_nat (List.length ts))) t0)
    as [Hl|Hl]; [exact Hl | lia].
Qed.

Lemma view_fire r rc w c cur q es t0 :
  timerView r w c cur q es ->
  timers rc <> [] ->
  timer_counter_max rc < c + 1 ->
  0 <= cur ->
  timerView r (stateOf (TimedMessages.processTimedMessages r rc) w) 0
    ((cur + 1) mod Z.of_nat (List.length (timers rc)))
    (q ++ [timedStanzaIn es r (timerAt (timers rc) t0 (cur + 1))])%list es.
Proof.
  intros (Hc & Hcur & Hq & Hes & Hsd) Hne Hk Hpos.
  assert (Hn : 0 < Z.of_nat (List.length (timers rc)))
    by (destruct (timers rc); [congruence | cbn; lia]).
  assert (Hrem : Js.rem (StateManager.getAutoMessageTurn r (sm w) + 1)
                   (Z.of_nat (List.length (timers rc)))
                 = (cur + 1) mod Z.of_nat (List.length (timers rc))).
  { unfold Js.rem. rewrite Hcur. apply Z.rem_mod_nonneg; lia. }
  destruct (timer_stage_fires w r rc (timerAt (timers rc) t0 (cur + 1)))
    as (_ & H1 & H2 & H3 & H4 & H5).
  - exact Hsd.
  - apply Z.ltb_lt. lia.
  - rewrite Hrem, at_nonneg by (apply Z.mod_pos_bound; exact Hn).
    apply lookup_timerAt. exact Hne.
  - unfold timerView. rewrite H1, H2, H3, H4, H5, Hrem, Hq, Hes.
    repeat split.
Qed.

(** One round: [k] quiet messages (none when [k] is negative), then the
    one that triggers. *)
Lemma view_round r rc w cur q es t0 :
  timerView r w 0 cur q es ->
  timers rc <> [] ->
  0 <= cur ->
  timerView r (stateOf (feed (Z.to_nat (timer_counter_max rc) + 1) r rc) w) 0
    ((cur + 1) mod Z.of_nat (List.length (timers rc)))
    (q ++ [timedStanzaIn es r (timerAt (timers rc) t0 (cur + 1))])%list es.
Proof.
  intros Hv Hne Hpos.
  rewrite feed_add. cbn [feed].
  change (stateOf (TimedMessages.processTimedMessages r rc;; skip) ?w)
    with (stateOf (feed 1 r rc) w).
  rewrite feed_S. cbn [feed]. unfold stateOf at 1. cbn [skip mret M_ret fst snd].
  destruct (Z_lt_le_dec (timer_counter_max rc) 0) as [Hk|Hk].
  - replace (Z.to_nat (timer_counter_max rc)) with 0%nat by lia. cbn [feed].
    change (stateOf skip w) with w.
    apply (view_fire _ _ _ _ _ _ _ t0 Hv Hne); lia.
  - pose proof (view_quiet_run r rc (Z.to_nat (timer_counter_max rc)) w 0 cur q es Hv
                  ltac:(lia)) as Hq.
    apply (view_fire _ _ _ _ _ _ _ t0 Hq Hne); lia.
Qed.

Lemma timerAt_mod ts t0 a :
  timerAt ts t0 (a mod Z.of_nat (List.length ts) + 1) = timerAt ts t0 (a + 1).
Proof. unfold timerAt. rewrite Zplus_mod_idemp_l. reflexivity. Qed.

Lemma view_rounds r rc t0 es j : forall w cur q,
  timerView r w 0 cur q es ->
  timers rc <> [] ->
  0 <= cur ->
  timerView r (stateOf (feed (S j * (Z.to_nat (timer_counter_max rc) + 1)) r rc) w) 0
    ((cur + Z.of_nat (S j)) mod Z.of_nat (List.length (timers rc)))
    (q ++ map (fun i : nat =>
                 timedStanzaIn es r (timerAt (timers rc) t0 (cur + Z.of_nat i)))
            (seq 1 (S j)))%list es.
Proof.
  induction j as [|j IH]; intros w cur q Hv Hne Hpos.
  - cbn [Nat.mul]. rewrite Nat.add_0_r.
    replace (cur + Z.of_nat 1) with (cur + 1) by lia. cbn [seq map].
    apply view_round; assumption.
  - assert (Hn : 0 < Z.of_nat (List.length (timers rc)))
      by (destruct (timers rc); [congruence | cbn; lia]).
    replace (S (S j) * (Z.to_nat (timer_counter_max rc) + 1))%nat
      with (S j * (Z.to_nat (timer_counter_max rc) + 1)
            + (Z.to_nat (timer_counter_max rc) + 1))%nat by lia.
    rewrite feed_add.
    pose proof (view_round r rc _ _ _ es t0 (IH w cur q Hv Hne Hpos) Hne) as Hr.
    assert (Hb := Z.mod_pos_bound (cur + Z.of_nat (S j)) _ Hn).
    specialize (Hr ltac:(lia)).
    rewrite Zplus_mod_idemp_l, timerAt_mod in Hr.
    replace (cur + Z.of_nat (S j) + 1) with (cur + Z.of_nat (S (S j))) in Hr by lia.
    rewrite (seq_S (S j)), map_app. cbn [map].
    rewrite app_assoc.
    replace (cur + Z.of_nat (1 + S j)) with (cur + Z.of_nat (S (S j))) by lia.
    exact Hr.
Qed.

(** C8.  For a room with a non-empty timers list and threshold
    [timer_counter_max = k], in a live worker whose cursor for the room
    is not negative: a message that takes the counter above [k] moves the
    cursor to [(cursor + 1) mod n] before anything is queued, queues the
    timer at the new cursor and resets the counter to 0; and from a
    counter of 0 every [k + 1] messages (every message when [k] is
    negative) give one emission, so that the emissions are timers
    [cursor + 1], [cursor + 2], ... counted round the list: t1, t2, ...,
    t0, t1, ... from a cursor of 0. *)
Theorem timer_rotation (w : Worker) (r : string) (rc : Entity) (t0 : Timer)
    (cur : Z) (q : list Node) (es : gmap string Entity) (j : nat) :
  timers rc <> [] ->
  0 <= cur ->
  (forall c,
      timerView r w c cur q es ->
      timer_counter_max rc < c + 1 ->
      timerView r (stateOf (TimedMessages.processTimedMessages r rc) w) 0
        ((cur + 1) mod Z.of_nat (List.length (timers rc)))
        (q ++ [timedStanzaIn es r (timerAt (timers rc) t0 (cur + 1))])%list es)
  /\
  (timerView r w 0 cur q es ->
   timerView r
     (stateOf (feed (S j * (Z.to_nat (timer_counter_max rc) + 1)) r rc) w) 0
     ((cur + Z.of_nat (S j)) mod Z.of_nat (List.length (timers rc)))
     (q ++ map (fun i : nat =>
                  timedStanzaIn es r (timerAt (timers rc) t0 (cur + Z.of_nat i)))
             (seq 1 (S j)))%list es).
Proof.
  intros Hne Hpos. split.
  - intros c Hv Hc. apply (view_fire _ _ _ c); assumption.
  - intros Hv. apply view_rounds; assumption.
Qed.

(** Scenario 4 of the specification: nine messages give T1, T2, T0. *)
Lemma timer_rotation_witness :
  outgoingStanzaQueue (sm (stateOf (feed 9 "e3" roomE3) initWorker))
  = [timedStanzaIn ∅ "e3" T1; timedStanzaIn ∅ "e3" T2; timedStanzaIn ∅ "e3" T0].
Proof.
  destruct (timer_rotation initWorker "e3" roomE3 T0 0 [] ∅ 2) as [_ H].
  - discriminate.
  - lia.
  - destruct H as (_ & _ & Hq & _).
    + repeat split; reflexivity.
    + exact Hq.
Defined.

(** ** The moderation stages *)

Lemma withModeration_same w :
  withModeration (bannedWords w) (webhookConfigs w) (profanityFilterConfigs w) w = w.
Proof. destruct w. reflexivity. Qed.

Lemma withPatterns_same st : BannedWordsManager.withPatterns (compiledPatterns st) st = st.
Proof. destruct st. reflexivity. Qed.

Lemma run_deleteMessage mid a r token w :
  StateManager.accessToken (sm w) = Some token ->
  Moderation.deleteMessage mid a r w = (true, w, [retraction w mid a r token]).
Proof.
  intros Ht. unfold Moderation.deleteMessage. rewrite run_bind.
  cbn [getState fst snd]. rewrite Ht. reflexivity.
Qed.

Lemma run_deleteMessage_no_token mid a r w :
  StateManager.accessToken (sm w) = None ->
  Moderation.deleteMessage mid a r w = (false, w, []).
Proof.
  intros Ht. unfold Moderation.deleteMessage. rewrite run_bind.
  cbn [getState fst snd]. rewrite Ht. reflexivity.
Qed.

Lemma run_muteUser_skip a r d w :
  d <= 0 -> Moderation.muteUser a r d w = (tt, w, []).
Proof.
  intros Hd. unfold Moderation.muteUser.
  destruct (Z.leb_spec d 0); [reflexivity|lia].
Qed.

Lemma run_muteUser a r d token w :
  0 < d ->
  StateManager.accessToken (sm w) = Some token ->
  Moderation.muteUser a r d w = (tt, w, [MuteMember (muteClub w r) a d token]).
Proof.
  intros Hd Ht. unfold Moderation.muteUser.
  destruct (Z.leb_spec d 0); [lia|].
  rewrite run_bind. cbn [getState fst snd]. rewrite Ht. reflexivity.
Qed.

Lemma run_muteUser_no_token a r d w :
  StateManager.accessToken (sm w) = None ->
  Moderation.muteUser a r d w = (tt, w, []).
Proof.
  intros Ht. unfold Moderation.muteUser.
  destruct (d <=? 0)%Z; [reflexivity|].
  rewrite run_bind. cbn [getState fst snd]. rewrite Ht. reflexivity.
Qed.

(** After a banned word the mute lasts as long as the room's
    configuration says when the retraction has been answered. *)
Lemma run_afterDelete_banned mid a r w :
  Moderation.afterDelete (bannedWordCall mid a r) w
  = Moderation.muteUser a r
      (default bannedWordMuteDuration
         (profanityFilterConfigs w !! r ≫= mute_duration_seconds)) w.
Proof.
  unfold Moderation.afterDelete, bannedWordCall. cbn [stage offender room].
  rewrite run_bind. cbn [getState fst snd].
  destruct (Moderation.muteUser a r _ w) as [[[] w1] t1]. reflexivity.
Qed.

Lemma run_afterDelete_readOnly mid a r w :
  Moderation.afterDelete (readOnlyCall mid a r) w
  = Moderation.muteUser a r readOnlyMuteDuration w.
Proof. reflexivity. Qed.

Lemma run_afterDelete_no_token call w :
  StateManager.accessToken (sm w) = None ->
  Moderation.afterDelete call w = (tt, w, []).
Proof.
  intros Ht. destruct call as [[] mid a r].
  - change (Moderation.afterDelete (bannedWordCall mid a r) w = (tt, w, [])).
    rewrite run_afterDelete_banned. apply run_muteUser_no_token, Ht.
  - change (Moderation.muteUser a r readOnlyMuteDuration w = (tt, w, [])).
    apply run_muteUser_no_token, Ht.
Qed.

Lemma run_resumeAfterSleep call token w :
  StateManager.accessToken (sm w) = Some token ->
  Moderation.resumeAfterSleep call w
  = (true, w, [retraction w (retracted call) (offender call) (room call) token]).
Proof.
  intros Ht. unfold Moderation.resumeAfterSleep. rewrite run_bind.
  rewrite (run_deleteMessage _ _ _ token) by exact Ht. reflexivity.
Qed.

Lemma run_resumeAfterSleep_no_token call w :
  StateManager.accessToken (sm w) = None ->
  Moderation.resumeAfterSleep call w = (false, w, []).
Proof.
  intros Ht. unfold Moderation.resumeAfterSleep. rewrite run_bind.
  rewrite run_deleteMessage_no_token by exact Ht. cbn [fst snd].
  rewrite run_bind, run_afterDelete_no_token by exact Ht. reflexivity.
Qed.

Lemma run_sendBannedWordsNotification r content a w :
  DiscordWebhookManager.sendBannedWordsNotification r content a r w
  = (tt, w, webhookCall w r content a).
Proof.
  unfold DiscordWebhookManager.sendBannedWordsNotification, webhookCall.
  rewrite run_bind. cbn [getState fst snd].
  destruct (webhookConfigs w !! r); reflexivity.
Qed.

Lemma run_enforceReadOnlyMode_off rc r a mid w :
  read_only rc = false ->
  Moderation.enforceReadOnlyMode rc r a mid w = (Returns false, w, []).
Proof. intros H. unfold Moderation.enforceReadOnlyMode. rewrite H. reflexivity. Qed.

Lemma run_enforceReadOnlyMode_on rc r a mid w :
  read_only rc = true ->
  Moderation.enforceReadOnlyMode rc r a mid w = (Awaits (readOnlyCall mid a r), w, []).
Proof. intros H. unfold Moderation.enforceReadOnlyMode. rewrite H. reflexivity. Qed.

(** The filter is not run for the bot or for a manager. *)
Lemma exempt_no_hit re w content r a :
  StateManager.botGuid (sm w) = Some a \/ managerOf w r a ->
  BannedWordsManager.checkBannedWords re (StateManager.botGuid (sm w)) content r a
    (bannedWords w) = (Value false, bannedWords w).
Proof.
  intros Hex. unfold BannedWordsManager.checkBannedWords.
  destruct (String.eqb content ""); [reflexivity|].
  destruct (String.eqb r "") eqn:Hr; [reflexivity|].
  destruct (String.eqb a "") eqn:Ha; [reflexivity|].
  destruct (entityConfigs (bannedWords w) !! r) as [cfg|] eqn:Hcfg; [|reflexivity].
  destruct (enabled cfg); [|reflexivity]. cbn [negb].
  unfold BannedWordsManager.isAuthorExempt. rewrite Hr, Ha, Hcfg. cbn [orb].
  destruct Hex as [Hbot|(cfg' & Hcfg' & Hin)].
  - rewrite bool_decide_eq_true_2 by (symmetry; exact Hbot). reflexivity.
  - rewrite Hcfg in Hcfg'. injection Hcfg' as <-.
    destruct (bool_decide (Some a = StateManager.botGuid (sm w))); [reflexivity|].
    rewrite bool_decide_eq_true_2 by exact Hin. reflexivity.
Qed.

Lemma run_checkBannedWords re content r a mid w :
  Moderation.checkBannedWords re content r a mid w
  = match managerAnswer re content r a w with
    | TypeError => (Throws, afterCheck re content r a w, [])
    | Value false => (Returns false, afterCheck re content r a w, [])
    | Value true =>
        (Awaits (bannedWordCall mid a r),
         stateOf (match replyStanza w r with
                  | stanza :: _ => queueStanza stanza
                  | [] => skip
                  end) (afterCheck re content r a w),
         webhookCall w r content a)
    end.
Proof.
  unfold Moderation.checkBannedWords, managerAnswer, afterCheck.
  rewrite run_bind. cbn [getState fst snd].
  destruct (BannedWordsManager.checkBannedWords re (StateManager.botGuid (sm w))
              content r a (bannedWords w)) as [answer manager].
  cbn [fst snd]. rewrite run_bind. cbn [fst snd app].
  set (w0 := withModeration manager (webhookConfigs w) (profanityFilterConfigs w) w).
  destruct answer as [[|]|]; [|reflexivity|reflexivity].
  rewrite run_bind, run_sendBannedWordsNotification. cbn [fst snd].
  rewrite run_bind. cbn [getState fst snd app].
  rewrite run_bind. unfold replyStanza.
  change (Moderation.getMessageReply r w0) with (Moderation.getMessageReply r w).
  change (entityOrRoom r (sm w0)) with (entityOrRoom r (sm w)).
  change (webhookCall w0 r content a) with (webhookCall w r content a).
  destruct (Moderation.getMessageReply r w) as [reply|].
  - unfold stateOf.
    destruct (queueStanza (xmppActions.sendMessage (entityOrRoom r (sm w)) reply None) w0)
      as [[[] w1] t1] eqn:Hq.
    assert (t1 = []) as ->.
    { unfold queueStanza in Hq. rewrite run_bind in Hq. cbn [getState fst snd] in Hq.
      destruct (isShuttingDown (sm w0)); injection Hq as _ <-; reflexivity. }
    cbn. rewrite app_nil_r. reflexivity.
  - cbn. rewrite app_nil_r. reflexivity.
Qed.

Lemma afterCheck_exempt re content r a w :
  StateManager.botGuid (sm w) = Some a \/ managerOf w r a ->
  managerAnswer re content r a w = Value false /\ afterCheck re content r a w = w.
Proof.
  intros Hex. unfold managerAnswer, afterCheck.
  rewrite (exempt_no_hit re w content r a Hex). cbn [fst snd].
  split; [reflexivity|apply withModeration_same].
Qed.

Lemma afterCheck_sm re content r a w : sm (afterCheck re content r a w) = sm w.
Proof. reflexivity. Qed.

Lemma webhookCall_no_mute w r content a c u d tok :
  MuteMember c u d tok ∉ webhookCall w r content a.
Proof.
  unfold webhookCall. destruct (webhookConfigs w !! r).
  - intros H. apply list_elem_of_singleton in H. discriminate.
  - apply not_elem_of_nil.
Qed.

(** C2, as amended.  On a banned-word hit in a live worker the stage at
    once calls the entity's Discord webhook if it has one and queues the
    entity's reply if it has one, and waits.  When its sleep of 300 ms
    has ended it asks the admin API to retract the message, with the
    access token the worker holds then; without a token it asks for
    nothing, neither retraction nor mute.  When that request has been
    answered it asks the admin API to mute the author, with the token
    and for the [mute_duration_seconds] that the worker holds for the
    room then: no mute request at all when that duration is 0 (or
    below), a mute of the default 86400 s when the configuration has no
    duration. *)
Theorem banned_word_hit (re : RegExpEngine) (w : Worker) (content r a : string)
    (mid : option string) :
  managerAnswer re content r a w = Value true ->
  isShuttingDown (sm w) = false ->
  let stage := Moderation.checkBannedWords re content r a mid in
  let call := bannedWordCall mid a r in
  (resultOf stage w = Awaits call /\
   actionsOf stage w = webhookCall w r content a /\
   stateOf stage w
   = withSm (StateManager.withQueue
               (outgoingStanzaQueue (sm w) ++ replyStanza w r)%list (sm w))
       (afterCheck re content r a w)) /\
  (forall w1 token,
     StateManager.accessToken (sm w1) = Some token ->
     Moderation.resumeAfterSleep call w1 = (true, w1, [retraction w1 mid a r token])) /\
  (forall w1,
     StateManager.accessToken (sm w1) = None ->
     Moderation.resumeAfterSleep call w1 = (false, w1, [])) /\
  (forall w2 token,
     StateManager.accessToken (sm w2) = Some token ->
     let configured := profanityFilterConfigs w2 !! r ≫= mute_duration_seconds in
     (forall d, configured = Some d -> 0 < d ->
        Moderation.resumeAfterRetraction call w2
        = (tt, w2, [MuteMember (muteClub w2 r) a d token])) /\
     (forall d, configured = Some d -> d <= 0 ->
        Moderation.resumeAfterRetraction call w2 = (tt, w2, [])) /\
     (configured = None ->
        Moderation.resumeAfterRetraction call w2
        = (tt, w2, [MuteMember (muteClub w2 r) a 86400 token]))).
Proof.
  intros Hhit Hsd stage call. split; [|split; [|split]].
  - unfold resultOf, actionsOf, stateOf. subst stage.
    rewrite run_checkBannedWords, Hhit. cbn [fst snd].
    split; [reflexivity|]. split; [reflexivity|].
    destruct (replyStanza w r) as [|stanza rest] eqn:Hreply.
    + cbn [skip mret M_ret fst snd]. rewrite app_nil_r.
      unfold afterCheck. destruct w as [[] ? ? ?]. reflexivity.
    + assert (rest = []) as ->.
      { unfold replyStanza in Hreply. destruct (Moderation.getMessageReply r w);
          [injection Hreply as _ <-; reflexivity | discriminate]. }
      unfold stateOf. rewrite run_queueStanza by exact Hsd. reflexivity.
  - intros w1 token Ht. exact (run_resumeAfterSleep call token w1 Ht).
  - intros w1 Ht. exact (run_resumeAfterSleep_no_token call w1 Ht).
  - intros w2 token Ht configured.
    unfold Moderation.resumeAfterRetraction. subst call.
    rewrite run_afterDelete_banned. fold configured.
    split; [|split].
    + intros d -> Hd. exact (run_muteUser a r d token w2 Hd Ht).
    + intros d -> Hd. exact (run_muteUser_skip a r d w2 Hd).
    + intros ->. apply (run_muteUser a r 86400 token w2); [reflexivity|exact Ht].
Qed.

(** Scenario 2: the violation of user u1 in the moderated room E1. *)
Lemma banned_word_hit_witness :
  let w := stateOf (WorkerService.run Sample.regexp false (moderatedE1 false)) initWorker in
  let stage := Moderation.checkBannedWords Sample.regexp violationText guidE1 "u1"
                 (Some "m1") in
  let call := bannedWordCall (Some "m1") "u1" guidE1 in
  resultOf stage w = Awaits call /\
  actionsOf stage w = webhookCall w guidE1 violationText "u1" /\
  Moderation.resumeAfterSleep call w
  = (true, w, [retraction w (Some "m1") "u1" guidE1 "access-token"]) /\
  Moderation.resumeAfterRetraction call w
  = (tt, w, [MuteMember (muteClub w guidE1) "u1" 86400 "access-token"]).
Proof.
  destruct (banned_word_hit Sample.regexp
              (stateOf (WorkerService.run Sample.regexp false (moderatedE1 false)) initWorker)
              violationText guidE1 "u1" (Some "m1"))
    as ((H1 & H2 & _) & H3 & _ & H4).
  - vm_compute. reflexivity.
  - vm_compute. reflexivity.
  - split; [exact H1|]. split; [exact H2|]. split.
    + apply H3. vm_compute. reflexivity.
    + refine (proj2 (proj2 (H4 _ "access-token" _)) _); vm_compute; reflexivity.
Defined.

(** C2 as stated fails: the configuration of room E1 has no
    [mute_duration_seconds], and the violation of user u1 is answered
    with a mute request for 86400 seconds. *)
Lemma absent_duration_mutes_for_a_day :
  let w := stateOf (WorkerService.run Sample.regexp false (moderatedE1 false)) initWorker in
  let call := bannedWordCall (Some "m1") "u1" guidE1 in
  profanityFilterConfigs w !! guidE1 = Some filterE1 /\
  mute_duration_seconds filterE1 = None /\
  resultOf (WorkerService.handleGroupChatMessage Sample.regexp (violation "u1")) w
  = Awaits call /\
  actionsOf (WorkerService.run Sample.regexp false
               [ WorkerService.Stanza (violation "u1");
                 WorkerService.SleepElapsed call;
                 WorkerService.RetractionAnswered call ]) w
  = [ DiscordWebhook "https://discord.com/api/webhooks/123/abc-DEF_1"
        "A message was caught by the profanity filter." violationText "u1" "E1";
      RetractMessage (Some "m1") "u1@chat.faceit.com"
        ("club-" +:+ guidE1 +:+ "-general@muclight.chat.faceit.com") "access-token";
      MuteMember guidE1 "u1" 86400 "access-token" ].
Proof. repeat split; vm_compute; reflexivity. Qed.

(** ** The pipeline *)

Lemma validateMessage_not_bot st s md :
  MessageProcessor.validateMessage st s = Value (Some md) ->
  StateManager.botGuid s <> Some (messageAuthorGuid md).
Proof.
  unfold MessageProcessor.validateMessage, StateManager.botGuid.
  destruct (Xml.getChild "body" None st) as [body|]; [|discriminate].
  destruct (Xml.getChild "delay" _ st); [discriminate|].
  destruct (Xml.attr "from" st) as [from|]; [|discriminate].
  destruct (Js.truthy _) as [a|]; [|discriminate].
  destruct (botCredentials s) as [creds|]; [|discriminate]. cbn [mbind option_bind].
  case_bool_decide as Hbot; [discriminate|].
  intros [= <-]. cbn. congruence.
Qed.

Lemma run_handleGroupChatMessage_invalid re st w :
  MessageProcessor.validateMessage st (sm w) = Value None ->
  WorkerService.handleGroupChatMessage re st w = (Returns tt, w, []).
Proof.
  intros H. unfold WorkerService.handleGroupChatMessage. rewrite run_bind.
  cbn [getState fst snd]. rewrite H. reflexivity.
Qed.

Lemma run_handleGroupChatMessage_throws re st w :
  MessageProcessor.validateMessage st (sm w) = TypeError ->
  WorkerService.handleGroupChatMessage re st w = (Throws, w, []).
Proof.
  intros H. unfold WorkerService.handleGroupChatMessage. rewrite run_bind.
  cbn [getState fst snd]. rewrite H. reflexivity.
Qed.

Lemma run_andThen {A B} (c : M (Outcome A)) (f : A -> M (Outcome B)) w :
  andThen c f w
  = match resultOf c w with
    | Returns x =>
        (resultOf (f x) (stateOf c w), stateOf (f x) (stateOf c w),
         (actionsOf c w ++ actionsOf (f x) (stateOf c w))%list)
    | Throws => (Throws, stateOf c w, actionsOf c w)
    | Awaits call => (Awaits call, stateOf c w, actionsOf c w)
    end.
Proof.
  unfold andThen, resultOf, stateOf, actionsOf. rewrite run_bind.
  destruct (c w) as [[o w1] t1]. cbn [fst snd].
  destruct o as [x| |call]; cbn [fst snd mret M_ret]; try rewrite app_nil_r; reflexivity.
Qed.

Lemma run_processModeration re content r a mid rc w :
  Moderation.processModeration re content r a mid rc w
  = match resultOf (Moderation.checkBannedWords re content r a mid) w with
    | Returns false =>
        let w1 := stateOf (Moderation.checkBannedWords re content r a mid) w in
        let t1 := actionsOf (Moderation.checkBannedWords re content r a mid) w in
        let B := Moderation.enforceReadOnlyMode rc r a mid in
        (resultOf B w1, stateOf B w1, (t1 ++ actionsOf B w1)%list)
    | _ => Moderation.checkBannedWords re content r a mid w
    end.
Proof.
  unfold Moderation.processModeration. rewrite run_andThen.
  set (A := Moderation.checkBannedWords re content r a mid).
  assert (HA : A w = (resultOf A w, stateOf A w, actionsOf A w)).
  { unfold resultOf, stateOf, actionsOf. destruct (A w) as [[? ?] ?]. reflexivity. }
  destruct (resultOf A w) as [[|]| |call] eqn:Hres; try (symmetry; exact HA).
  - exfalso. unfold resultOf in Hres. subst A. rewrite run_checkBannedWords in Hres.
    destruct (managerAnswer re content r a w) as [[|]|]; discriminate Hres.
  - cbv beta iota zeta. unfold resultOf at 1, stateOf at 1, actionsOf at 2.
    rewrite run_andThen.
    unfold Moderation.enforceReadOnlyMode, resultOf, stateOf, actionsOf.
    destruct (read_only rc); cbn [fst snd mret M_ret]; rewrite ?app_nil_r; reflexivity.
Qed.

(** C1, as amended.  A message whose author is the bot's own guid never
    passes validation and the pipeline does nothing for it.  For an
    author who is the bot or a manager of the room, the banned-word stage
    does nothing, and both stages together do nothing when the room is
    not read-only.  The read-only stage does not look at the author: in
    a read-only room it waits, asks for the retraction when its sleep
    has ended and for a mute of 10 seconds when the retraction has been
    answered, whoever wrote. *)
Theorem exempt_authors (re : RegExpEngine) (w : Worker) :
  (forall st md,
      MessageProcessor.validateMessage st (sm w) = Value (Some md) ->
      StateManager.botGuid (sm w) <> Some (messageAuthorGuid md)) /\
  (forall st,
      MessageProcessor.validateMessage st (sm w) = Value None ->
      WorkerService.handleGroupChatMessage re st w = (Returns tt, w, [])) /\
  (forall st,
      MessageProcessor.validateMessage st (sm w) = TypeError ->
      WorkerService.handleGroupChatMessage re st w = (Throws, w, [])) /\
  (forall content r a mid,
      StateManager.botGuid (sm w) = Some a \/ managerOf w r a ->
      Moderation.checkBannedWords re content r a mid w = (Returns false, w, [])) /\
  (forall content r a mid rc,
      StateManager.botGuid (sm w) = Some a \/ managerOf w r a ->
      read_only rc = false ->
      Moderation.processModeration re content r a mid rc w = (Returns false, w, [])) /\
  (forall content r a mid rc,
      StateManager.botGuid (sm w) = Some a \/ managerOf w r a ->
      read_only rc = true ->
      Moderation.processModeration re content r a mid rc w
      = (Awaits (readOnlyCall mid a r), w, []) /\
      (forall w1 token,
          StateManager.accessToken (sm w1) = Some token ->
          Moderation.resumeAfterSleep (readOnlyCall mid a r) w1
          = (true, w1, [retraction w1 mid a r token])) /\
      (forall w2 token,
          StateManager.accessToken (sm w2) = Some token ->
          Moderation.resumeAfterRetraction (readOnlyCall mid a r) w2
          = (tt, w2, [MuteMember (muteClub w2 r) a readOnlyMuteDuration token]))).
Proof.
  assert (HA : forall content r a mid,
             StateManager.botGuid (sm w) = Some a \/ managerOf w r a ->
             Moderation.checkBannedWords re content r a mid w = (Returns false, w, [])).
  { intros content r a mid Hex. rewrite run_checkBannedWords.
    destruct (afterCheck_exempt re content r a w Hex) as [-> ->]. reflexivity. }
  split; [intros st md; apply validateMessage_not_bot|].
  split; [intros st; apply run_handleGroupChatMessage_invalid|].
  split; [intros st; apply run_handleGroupChatMessage_throws|].
  split; [exact HA|]. split.
  - intros content r a mid rc Hex Hro.
    rewrite run_processModeration. unfold resultOf, stateOf, actionsOf.
    rewrite (HA content r a mid Hex). cbn [fst snd].
    rewrite run_enforceReadOnlyMode_off by exact Hro. reflexivity.
  - intros content r a mid rc Hex Hro. split; [|split].
    + rewrite run_processModeration. unfold resultOf, stateOf, actionsOf.
      rewrite (HA content r a mid Hex). cbn [fst snd].
      rewrite run_enforceReadOnlyMode_on by exact Hro. reflexivity.
    + intros w1 token Ht. exact (run_resumeAfterSleep (readOnlyCall mid a r) token w1 Ht).
    + intros w2 token Ht. unfold Moderation.resumeAfterRetraction.
      rewrite run_afterDelete_readOnly.
      apply run_muteUser; [reflexivity|exact Ht].
Qed.

(** Scenario 2, second half: the violation, sent by manager m1, leaves
    the moderated room E1 as it is. *)
Lemma exempt_authors_witness :
  let w := stateOf (WorkerService.run Sample.regexp false (moderatedE1 false)) initWorker in
  managerOf w guidE1 "m1" /\
  Moderation.processModeration Sample.regexp violationText guidE1 "m1" (Some "m1")
    (roomE1 false) w = (Returns false, w, []).
Proof.
  cbn zeta.
  assert (Hm : managerOf
                 (stateOf (WorkerService.run Sample.regexp false (moderatedE1 false))
                    initWorker) guidE1 "m1").
  { eexists. split; [vm_compute; reflexivity|]. cbn. apply list_elem_of_here. }
  split; [exact Hm|].
  destruct (exempt_authors Sample.regexp
              (stateOf (WorkerService.run Sample.regexp false (moderatedE1 false))
                 initWorker)) as (_ & _ & _ & _ & H & _).
  apply H; [right; exact Hm | reflexivity].
Defined.

(** C1 as stated fails: room E1 is read-only, m1 is one of its managers,
    and the message of m1 is retracted and m1 muted for 10 seconds. *)
Lemma read_only_moderates_manager :
  let w := stateOf (WorkerService.run Sample.regexp false (moderatedE1 true)) initWorker in
  let call := readOnlyCall (Some "m1") "m1" guidE1 in
  (exists cfg, entityConfigs (bannedWords w) !! guidE1 = Some cfg /\
               managerGuids cfg = ["m1"]) /\
  BannedWordsManager.isAuthorExempt (StateManager.botGuid (sm w)) guidE1 "m1"
    (bannedWords w) = true /\
  resultOf (WorkerService.handleGroupChatMessage Sample.regexp (violation "m1")) w
  = Awaits call /\
  actionsOf (WorkerService.run Sample.regexp false
               [ WorkerService.Stanza (violation "m1");
                 WorkerService.SleepElapsed call;
                 WorkerService.RetractionAnswered call ]) w
  = [ RetractMessage (Some "m1") "m1@chat.faceit.com"
        ("club-" +:+ guidE1 +:+ "-general@muclight.chat.faceit.com") "access-token";
      MuteMember guidE1 "m1" 10 "access-token" ].
Proof.
  split; [eexists; split; vm_compute; reflexivity|].
  repeat split; vm_compute; reflexivity.
Qed.

Lemma run_detached {A} (c : M (Outcome A)) w :
  detached c w
  = (tt, stateOf c w,
     (actionsOf c w ++ match resultOf c w with
                       | Throws => [UnhandledRejection]
                       | _ => []
                       end)%list).
Proof.
  unfold detached, resultOf, stateOf, actionsOf. rewrite run_bind.
  destruct (c w) as [[o w1] t1]. cbn [fst snd]. destruct o; reflexivity.
Qed.

Lemma resume_keeps_sm call w :
  sm (stateOf (Moderation.resumeAfterSleep call) w) = sm w /\
  sm (stateOf (Moderation.resumeAfterRetraction call) w) = sm w.
Proof.
  assert (Hmute : forall a r d w', stateOf (Moderation.muteUser a r d) w' = w').
  { intros a r d w'. unfold stateOf, Moderation.muteUser.
    destruct (d <=? 0)%Z; [reflexivity|]. rewrite run_bind. cbn [getState fst snd].
    destruct (StateManager.accessToken (sm w')); reflexivity. }
  assert (Hafter : forall w', stateOf (Moderation.afterDelete call) w' = w').
  { intros w'. destruct call as [[] mid a r].
    - change (stateOf (Moderation.afterDelete (bannedWordCall mid a r)) w' = w').
      unfold stateOf. rewrite run_afterDelete_banned. apply Hmute.
    - apply Hmute. }
  split; [|unfold Moderation.resumeAfterRetraction; rewrite Hafter; reflexivity].
  unfold stateOf, Moderation.resumeAfterSleep. rewrite run_bind.
  destruct (StateManager.accessToken (sm w)) as [token|] eqn:Ht.
  - rewrite (run_deleteMessage _ _ _ token) by exact Ht. reflexivity.
  - rewrite run_deleteMessage_no_token by exact Ht. cbn [fst snd].
    rewrite run_bind. fold (stateOf (Moderation.afterDelete call) w).
    rewrite Hafter. reflexivity.
Qed.

(** The pipeline for a valid message of a configured room. *)
Lemma run_handleGroupChatMessage_valid re st w md r rc :
  MessageProcessor.validateMessage st (sm w) = Value (Some md) ->
  MessageProcessor.isValidEntity (roomId md) (sm w) = true ->
  roomId md = Some r ->
  MessageProcessor.getRoomConfig (Some r) (sm w) = Some rc ->
  WorkerService.handleGroupChatMessage re st w
  = andThen
      (Moderation.processModeration re (messageContent md) r (messageAuthorGuid md)
         (messageId md) rc)
      (fun moderated : bool =>
         if moderated then mret (Returns tt)
         else TimedMessages.processTimedMessages r rc;;
              Commands.processCommands (messageContent md) r rc;;
              mret (Returns tt)) w.
Proof.
  intros Hv He Hr Hrc. unfold WorkerService.handleGroupChatMessage.
  rewrite run_bind. cbn [getState fst snd app]. rewrite Hv, He. cbn [negb].
  rewrite Hr, Hrc.
  destruct (andThen _ _ w) as [[? ?] ?]. reflexivity.
Qed.

(** Every other message ends the pipeline at once. *)
Lemma handleGroupChatMessage_cases re st w :
  WorkerService.handleGroupChatMessage re st w = (Returns tt, w, []) \/
  WorkerService.handleGroupChatMessage re st w = (Throws, w, []) \/
  exists md r rc,
    MessageProcessor.validateMessage st (sm w) = Value (Some md) /\
    MessageProcessor.isValidEntity (roomId md) (sm w) = true /\
    roomId md = Some r /\
    MessageProcessor.getRoomConfig (Some r) (sm w) = Some rc.
Proof.
  destruct (MessageProcessor.validateMessage st (sm w)) as [[md|]|] eqn:Hmd.
  - destruct (roomId md) as [r|] eqn:Hr.
    + destruct (MessageProcessor.isValidEntity (Some r) (sm w)) eqn:He.
      * destruct (MessageProcessor.getRoomConfig (Some r) (sm w)) as [rc|] eqn:Hrc.
        -- right. right. exists md, r, rc. rewrite Hr. repeat split; assumption.
        -- left. unfold WorkerService.handleGroupChatMessage. rewrite run_bind.
           cbn [getState fst snd]. rewrite Hmd, Hr, He, Hrc. reflexivity.
      * left. unfold WorkerService.handleGroupChatMessage. rewrite run_bind.
        cbn [getState fst snd]. rewrite Hmd, Hr, He. reflexivity.
    + left. unfold WorkerService.handleGroupChatMessage. rewrite run_bind.
      cbn [getState fst snd]. rewrite Hmd, Hr.
      destruct (negb (MessageProcessor.isValidEntity None (sm w))); reflexivity.
  - left. apply run_handleGroupChatMessage_invalid, Hmd.
  - right. left. apply run_handleGroupChatMessage_throws, Hmd.
Qed.

(** What the pipeline does at once for a valid message of a configured
    room. *)
Lemma pipeline_outcome re st w md r rc :
  MessageProcessor.validateMessage st (sm w) = Value (Some md) ->
  MessageProcessor.isValidEntity (roomId md) (sm w) = true ->
  roomId md = Some r ->
  MessageProcessor.getRoomConfig (Some r) (sm w) = Some rc ->
  let pipeline := WorkerService.handleGroupChatMessage re st in
  (resultOf pipeline w = Throws /\ actionsOf pipeline w = []) \/
  (resultOf pipeline w = Returns tt /\ actionsOf pipeline w = []) \/
  (resultOf pipeline w = Awaits (readOnlyCall (messageId md) (messageAuthorGuid md) r) /\
   actionsOf pipeline w = []) \/
  (resultOf pipeline w = Awaits (bannedWordCall (messageId md) (messageAuthorGuid md) r) /\
   actionsOf pipeline w = webhookCall w r (messageContent md) (messageAuthorGuid md)).
Proof.
  intros Hv He Hr Hrc pipeline. subst pipeline. unfold resultOf, actionsOf.
  rewrite (run_handleGroupChatMessage_valid re st w md r rc Hv He Hr Hrc).
  rewrite run_andThen. unfold resultOf, stateOf, actionsOf.
  rewrite run_processModeration. unfold resultOf, stateOf, actionsOf.
  rewrite run_checkBannedWords.
  destruct (managerAnswer re (messageContent md) r (messageAuthorGuid md) w) as [[|]|];
    cbn [fst snd].
  - right. right. right. split; reflexivity.
  - unfold Moderation.enforceReadOnlyMode.
    destruct (read_only rc); cbn [fst snd app mret M_ret].
    + right. right. left. split; reflexivity.
    + right. left. rewrite !run_bind. cbn [fst snd mret M_ret app].
      split; [reflexivity|].
      assert (HC : forall w', (TimedMessages.processTimedMessages r rc w').2 = []).
      { intros w'. unfold TimedMessages.processTimedMessages.
        rewrite run_bind, run_liftSm. cbn [fst snd app].
        destruct (_ && _); [|reflexivity].
        rewrite run_bind, run_liftSm. cbn [fst snd app].
        destruct (TimedMessages.at_ _ _); [|reflexivity].
        rewrite !run_bind. cbn [getState fst snd app modifySm].
        unfold queueStanza. rewrite run_bind. cbn [getState fst snd app].
        destruct (isShuttingDown _); reflexivity. }
      assert (HD : forall w', (Commands.processCommands (messageContent md) r rc w').2 = []).
      { intros w'. unfold Commands.processCommands.
        destruct (negb _); [reflexivity|].
        destruct (commands rc) as [cmds|]; [|reflexivity].
        destruct (cmds !! _); [|reflexivity].
        rewrite !run_bind. cbn [getState fst snd app].
        unfold queueStanza. rewrite run_bind. cbn [getState fst snd app].
        destruct (isShuttingDown _); reflexivity. }
      rewrite HC, HD. reflexivity.
  - left. split; reflexivity.
Qed.

(** C3, as amended.  For a valid message of a configured room: when the
    banned-word stage acts the read-only stage does not run; when either
    of them acts the pipeline waits for the retraction and the mute and
    ends with them, and neither the timer stage nor the command stage
    runs, then or later; when neither acts, the timer stage runs and
    after it, whether or not it queued a timed message, the command
    stage runs on the same message.  When the word filter throws, the
    pipeline ends there as well, with a rejected promise that nothing
    handles, and no later stage runs. *)
Theorem pipeline_early_return (re : RegExpEngine) (w : Worker) (st : Node)
    (md : MessageData) (r : string) (rc : Entity) :
  MessageProcessor.validateMessage st (sm w) = Value (Some md) ->
  MessageProcessor.isValidEntity (roomId md) (sm w) = true ->
  roomId md = Some r ->
  MessageProcessor.getRoomConfig (Some r) (sm w) = Some rc ->
  let A := Moderation.checkBannedWords re (messageContent md) r (messageAuthorGuid md)
             (messageId md) in
  let AB := Moderation.processModeration re (messageContent md) r (messageAuthorGuid md)
              (messageId md) rc in
  let C := TimedMessages.processTimedMessages r rc in
  let D := Commands.processCommands (messageContent md) r rc in
  let pipeline := WorkerService.handleGroupChatMessage re st in
  (forall call, resultOf A w = Awaits call -> AB w = A w) /\
  (forall call, resultOf AB w = Awaits call ->
     pipeline w = (Awaits call, stateOf AB w, actionsOf AB w) /\
     forall w1,
       sm (stateOf (Moderation.resumeAfterSleep call) w1) = sm w1 /\
       sm (stateOf (Moderation.resumeAfterRetraction call) w1) = sm w1) /\
  (resultOf AB w = Returns false ->
   let w1 := stateOf AB w in
   let w2 := stateOf C w1 in
   pipeline w
   = (Returns tt, stateOf D w2, (actionsOf AB w ++ actionsOf C w1 ++ actionsOf D w2)%list)) /\
  (resultOf A w = Throws ->
   pipeline w = (Throws, stateOf A w, actionsOf A w) /\
   detached pipeline w = (tt, stateOf A w, (actionsOf A w ++ [UnhandledRejection])%list)) /\
  resultOf AB w <> Returns true.
Proof.
  intros Hv He Hr Hrc A AB C D pipeline.
  assert (Hpipe : pipeline w
                  = andThen AB (fun moderated : bool =>
                      if moderated then mret (Returns tt)
                      else C;; D;; mret (Returns tt)) w)
    by (apply run_handleGroupChatMessage_valid; assumption).
  assert (HAB : AB w = match resultOf A w with
                       | Returns false =>
                           let w1 := stateOf A w in
                           let B := Moderation.enforceReadOnlyMode rc r
                                      (messageAuthorGuid md) (messageId md) in
                           (resultOf B w1, stateOf B w1, (actionsOf A w ++ actionsOf B w1)%list)
                       | _ => A w
                       end).
  { subst AB A. apply run_processModeration. }
  assert (HthrowAB : resultOf A w = Throws ->
                     AB w = (Throws, stateOf A w, actionsOf A w)).
  { intros HA. rewrite HAB, HA. unfold resultOf in HA. unfold stateOf, actionsOf.
    destruct (A w) as [[o w1] t1]. cbn [fst snd] in *. subst o. reflexivity. }
  split; [|split; [|split; [|split]]].
  - intros call HA. rewrite HAB, HA. reflexivity.
  - intros call Hres. split; [|intros w1; apply resume_keeps_sm].
    rewrite Hpipe, run_andThen, Hres. reflexivity.
  - intros Hres w1 w2. rewrite Hpipe, run_andThen, Hres.
    unfold resultOf, stateOf, actionsOf. rewrite !run_bind.
    cbn [fst snd mret M_ret]. rewrite !app_nil_r. reflexivity.
  - intros HA. pose proof (HthrowAB HA) as Hthrow.
    assert (Hp : pipeline w = (Throws, stateOf A w, actionsOf A w)).
    { rewrite Hpipe, run_andThen. unfold resultOf, stateOf, actionsOf.
      rewrite Hthrow. reflexivity. }
    split; [exact Hp|].
    rewrite run_detached. unfold resultOf, stateOf, actionsOf. rewrite Hp. reflexivity.
  - intros Hres. unfold resultOf in Hres. rewrite HAB in Hres.
    destruct (resultOf A w) as [[|]| |call] eqn:HA.
    + unfold resultOf in HA. subst A. rewrite run_checkBannedWords in HA.
      destruct (managerAnswer re (messageContent md) r (messageAuthorGuid md) w)
        as [[|]|]; discriminate HA.
    + cbn zeta in Hres. cbn [fst snd] in Hres.
      unfold resultOf, Moderation.enforceReadOnlyMode in Hres.
      destruct (read_only rc); discriminate Hres.
    + unfold resultOf in HA. rewrite HA in Hres. discriminate Hres.
    + unfold resultOf in HA. rewrite HA in Hres. discriminate Hres.
Qed.

(** The command [!help] as third message in room E1: no stage of the
    moderation acts, and timer stage and command stage both run.  And a
    plain message in a room that bans the words [bad] and [evasion_bad]:
    the filter throws, and nothing runs after it. *)
Lemma pipeline_early_return_witness :
  (let w := stateOf (WorkerService.run Sample.regexp false twoCounted) initWorker in
   let AB := Moderation.processModeration Sample.regexp "!help" guidE1 "u1" (Some "m3")
               (roomE1 false) in
   let C := TimedMessages.processTimedMessages guidE1 (roomE1 false) in
   let D := Commands.processCommands "!help" guidE1 (roomE1 false) in
   MessageProcessor.validateMessage helpMessage (sm w) = Value (Some helpData) /\
   resultOf AB w = Returns false /\
   WorkerService.handleGroupChatMessage Sample.regexp helpMessage w
   = (Returns tt, stateOf D (stateOf C (stateOf AB w)),
      (actionsOf AB w ++ actionsOf C (stateOf AB w)
       ++ actionsOf D (stateOf C (stateOf AB w)))%list)) /\
  (let w := stateOf (WorkerService.run Sample.regexp false collidingE1) initWorker in
   let A := Moderation.checkBannedWords Sample.regexp "hello" guidE1 "u1" (Some "m1") in
   resultOf A w = Throws /\
   detached (WorkerService.handleGroupChatMessage Sample.regexp
               (groupchat "u1" "hello" "m1")) w
   = (tt, stateOf A w, (actionsOf A w ++ [UnhandledRejection])%list)).
Proof.
  cbn zeta. split.
  - assert (Hv : MessageProcessor.validateMessage helpMessage
                   (sm (stateOf (WorkerService.run Sample.regexp false twoCounted) initWorker))
                 = Value (Some helpData)) by (vm_compute; reflexivity).
    split; [exact Hv|].
    assert (HAB : resultOf (Moderation.processModeration Sample.regexp "!help" guidE1 "u1"
                              (Some "m3") (roomE1 false))
                    (stateOf (WorkerService.run Sample.regexp false twoCounted) initWorker)
                  = Returns false) by (vm_compute; reflexivity).
    split; [exact HAB|].
    destruct (pipeline_early_return Sample.regexp
                (stateOf (WorkerService.run Sample.regexp false twoCounted) initWorker)
                helpMessage helpData guidE1 (roomE1 false)) as (_ & _ & H & _).
    + exact Hv.
    + vm_compute. reflexivity.
    + reflexivity.
    + vm_compute. reflexivity.
    + exact (H HAB).
  - assert (HA : resultOf (Moderation.checkBannedWords Sample.regexp "hello" guidE1 "u1"
                             (Some "m1"))
                   (stateOf (WorkerService.run Sample.regexp false collidingE1) initWorker)
                 = Throws) by (vm_compute; reflexivity).
    split; [exact HA|].
    destruct (pipeline_early_return Sample.regexp
                (stateOf (WorkerService.run Sample.regexp false collidingE1) initWorker)
                (groupchat "u1" "hello" "m1")
                {| messageContent := "hello";
                   roomJid := "club-" +:+ guidE1 +:+ "-general@muclight.chat.faceit.com";
                   roomId := Some guidE1;
                   messageAuthorGuid := "u1";
                   messageId := Some "m1" |}
                guidE1 (roomE1 false)) as (_ & _ & _ & H & _).
    + vm_compute. reflexivity.
    + vm_compute. reflexivity.
    + reflexivity.
    + vm_compute. reflexivity.
    + exact (proj2 (H HA)).
Defined.

(** C3 as stated fails: the third message in room E1 is the command
    [!help]; the timer stage queues timer T1 and the command stage
    queues the command's answer for the same message. *)
Lemma timer_does_not_stop_commands :
  let w := stateOf (WorkerService.run Sample.regexp false twoCounted) initWorker in
  let w' := stateOf (WorkerService.handle Sample.regexp false
                       (WorkerService.Stanza helpMessage)) w in
  outgoingStanzaQueue (sm w) = [] /\
  outgoingStanzaQueue (sm w')
  = [ timedStanzaIn (entities (sm w)) guidE1 T1;
      xmppActions.sendMessage (inl (roomE1 false)) "ask a manager" None ].
Proof. split; vm_compute; reflexivity. Qed.

(** ** Word lists *)

Lemma isAcceptedWord_safeShape word :
  BannedWordsManager.isAcceptedWord word = true -> safeShape word.
Proof.
  unfold BannedWordsManager.isAcceptedWord, Validation.isSafeWordString,
    Validation.isValidString.
  destruct ((1 <=? String.length word)%nat && (String.length word <=? 100)%nat) eqn:Hlen;
    cbn [negb]; [|discriminate].
  destruct (negb (String.eqb word "") && Validation.allChars Validation.isSafeWordChar word)
    eqn:Hchars; cbn [negb]; [|discriminate].
  destruct (BannedWordsManager.containsDangerousRegexPatterns word) eqn:Hd; [discriminate|].
  intros _. apply andb_true_iff in Hlen as [H1 H2], Hchars as [_ H3].
  apply Nat.leb_le in H1, H2. repeat split; assumption.
Qed.

Lemma validateAndSanitizeWords_safe ws :
  Forall safeShape (BannedWordsManager.validateAndSanitizeWords ws).
Proof.
  unfold BannedWordsManager.validateAndSanitizeWords, Validation.sanitizeStringArray.
  destruct (negb (Validation.isValidArray ws 0 1000)); [constructor|].
  apply Forall_forall. intros word Hin. apply list_elem_of_In, filter_In in Hin as [_ Hin].
  apply isAcceptedWord_safeShape, Hin.
Qed.

Lemma initializePreset_safe p fetched st :
  wordsSafe st -> wordsSafe (BannedWordsManager.initializePreset p fetched st).
Proof.
  intros [Hp Hc]. unfold BannedWordsManager.initializePreset.
  case_bool_decide; [split; assumption|].
  destruct fetched as [raw|]; [|split; assumption].
  split; [|exact Hc]. intros q ws. cbn. rewrite lookup_insert_Some.
  intros [[_ <-]|[_ Hl]]; [apply validateAndSanitizeWords_safe | eapply Hp, Hl].
Qed.

Lemma configureEntity_safe e pc fetched st :
  wordsSafe st -> wordsSafe (BannedWordsManager.configureEntity e pc fetched st).
Proof.
  intros Hs. unfold BannedWordsManager.configureEntity.
  assert (Hdel : wordsSafe {| presetWords := presetWords st;
                              entityConfigs := delete e (entityConfigs st);
                              usedPresetIds := usedPresetIds st;
                              compiledPatterns := compiledPatterns st |}).
  { destruct Hs as [Hp Hc]. split; [exact Hp|]. intros e' c. cbn.
    rewrite lookup_delete_Some. intros [_ Hl]. eapply Hc, Hl. }
  destruct pc as [pc|]; [|exact Hdel].
  destruct (is_active pc); cbn [negb]; [|exact Hdel].
  set (st1 := match BannedWordsManager.truthyId _ with Some _ => _ | None => _ end).
  assert (Hs1 : wordsSafe st1).
  { subst st1. destruct (BannedWordsManager.truthyId _) as [p|]; [|exact Hs].
    destruct (initializePreset_safe p fetched st Hs) as [Hp Hc]. split; assumption. }
  destruct Hs1 as [Hp Hc]. split; [exact Hp|]. intros e' c. cbn.
  rewrite lookup_insert_Some. intros [[_ <-]|[_ Hl]]; [|eapply Hc, Hl].
  cbn. apply validateAndSanitizeWords_safe.
Qed.

Lemma cleanupEntity_safe e st :
  wordsSafe st -> wordsSafe (BannedWordsManager.cleanupEntity e st).
Proof.
  intros [Hp Hc]. unfold BannedWordsManager.cleanupEntity.
  destruct (entityConfigs st !! e) as [cfg|]; [|split; assumption].
  assert (Hc' : forall e' c, delete e (entityConfigs st) !! e' = Some c ->
                             Forall safeShape (customWords c)).
  { intros e' c. rewrite lookup_delete_Some. intros [_ Hl]. eapply Hc, Hl. }
  destruct (BannedWordsManager.truthyId (presetId cfg)) as [p|]; [|split; assumption].
  destruct (BannedWordsManager.stillUsed p _); split; try assumption.
  intros q ws. cbn. rewrite lookup_delete_Some. intros [_ Hl]. eapply Hp, Hl.
Qed.

(** Configure and clean-up keep every held word in the safe shape. *)
Lemma configure_cleanup_keep_words_safe ops : forall st,
  forallb (fun op => negb (isRefresh op)) ops = true ->
  wordsSafe st -> wordsSafe (runOps ops st).
Proof.
  induction ops as [|op ops IH]; intros st Hops Hs; [exact Hs|].
  cbn in Hops. apply andb_true_iff in Hops as [Hop Hops].
  cbn [runOps fold_left]. apply IH; [exact Hops|].
  destruct op; cbn [applyOp].
  - apply configureEntity_safe, Hs.
  - apply cleanupEntity_safe, Hs.
  - discriminate.
Qed.

(** C4.  The invariant fails after a refresh: room E1 is configured with
    preset 1, whose words pass the filter; [refreshPreset(1)] then stores
    what the data-plane answers as it is, here a word with an unbounded
    repetition, which is outside the character class and matches one of
    the nine dangerous patterns. *)
Theorem refresh_stores_unfiltered_words :
  let ops := [ ConfigureOp guidE1 (Some (usesPreset 1)) (Some ["badword"]);
               RefreshOp 1 (Some ["(a+){2,}"]) ] in
  let st := runOps ops BannedWordsManager.init in
  presetWords st !! 1 = Some ["(a+){2,}"] /\
  referenced st 1 /\
  Validation.isSafeWordString "(a+){2,}" = false /\
  BannedWordsManager.containsDangerousRegexPatterns "(a+){2,}" = true /\
  ~ wordsSafe st /\
  BannedWordsManager.validateAndSanitizeWords ["(a+){2,}"] = [].
Proof.
  cbn zeta.
  assert (Hl : presetWords
                 (runOps [ ConfigureOp guidE1 (Some (usesPreset 1)) (Some ["badword"]);
                           RefreshOp 1 (Some ["(a+){2,}"]) ] BannedWordsManager.init) !! 1
               = Some ["(a+){2,}"]) by (vm_compute; reflexivity).
  split; [exact Hl|].
  split; [exists guidE1; eexists; split; vm_compute; reflexivity|].
  split; [vm_compute; reflexivity|].
  split; [vm_compute; reflexivity|].
  split; [|vm_compute; reflexivity].
  intros [Hp _]. specialize (Hp 1 _ Hl).
  apply Forall_inv in Hp. destruct Hp as (_ & _ & Hd). vm_compute in Hd. discriminate.
Qed.

(** ** The preset cache *)

Lemma stillUsed_spec p cfgs :
  BannedWordsManager.stillUsed p cfgs = true <->
  exists e c, cfgs !! e = Some c /\ presetId c = Some p.
Proof.
  unfold BannedWordsManager.stillUsed. rewrite existsb_exists. split.
  - intros ([e c] & Hin & Hp). apply list_elem_of_In, elem_of_map_to_list in Hin.
    apply bool_decide_eq_true in Hp. exists e, c. split; assumption.
  - intros (e & c & Hl & Hp). exists (e, c). split.
    + apply list_elem_of_In, elem_of_map_to_list. exact Hl.
    + apply bool_decide_eq_true. exact Hp.
Qed.

(** The clean-up of an entity evicts its preset when no other entity
    references it. *)
Lemma cleanupEntity_evicts e cfg p st :
  entityConfigs st !! e = Some cfg ->
  presetId cfg = Some p -> p <> 0 ->
  ~ referenced (BannedWordsManager.cleanupEntity e st) p ->
  presetWords (BannedWordsManager.cleanupEntity e st) !! p = None.
Proof.
  intros Hcfg Hp Hnz. unfold BannedWordsManager.cleanupEntity. rewrite Hcfg, Hp.
  cbn [BannedWordsManager.truthyId]. destruct (Z.eqb_spec p 0); [contradiction|].
  destruct (BannedWordsManager.stillUsed p _) eqn:Hused.
  - intros Hnot. exfalso. apply Hnot. apply stillUsed_spec in Hused. exact Hused.
  - intros _. cbn. apply lookup_delete_eq.
Qed.

Lemma configureEntity_configs e pc fetched st :
  is_active pc = true ->
  entityConfigs (BannedWordsManager.configureEntity e (Some pc) fetched st)
  = <[e := {| presetId := banned_words_preset_id pc;
              customWords := BannedWordsManager.validateAndSanitizeWords (custom_words pc);
              managerGuids := manager_guids pc; enabled := true |}]> (entityConfigs st).
Proof.
  intros Ha. unfold BannedWordsManager.configureEntity. rewrite Ha. cbn [negb].
  destruct (BannedWordsManager.truthyId _) as [p|]; [|reflexivity].
  cbn. unfold BannedWordsManager.initializePreset.
  case_bool_decide; [reflexivity|]. destruct fetched; reflexivity.
Qed.

(** C5.  The invariant fails after a reconfiguration: room E1 is
    configured with preset 1 and then with preset 2; preset 1 stays in
    the cache although no entity references it any more. *)
Theorem reconfigure_keeps_old_preset :
  let ops := [ ConfigureOp guidE1 (Some (usesPreset 1)) (Some ["badword"]);
               ConfigureOp guidE1 (Some (usesPreset 2)) (Some ["otherword"]) ] in
  let st := runOps ops BannedWordsManager.init in
  presetWords st !! 1 = Some ["badword"] /\
  presetWords st !! 2 = Some ["otherword"] /\
  (forall e c, entityConfigs st !! e = Some c -> e = guidE1 /\ presetId c = Some 2) /\
  ~ referenced st 1.
Proof.
  cbn zeta.
  assert (Hcfgs : entityConfigs
                    (runOps [ ConfigureOp guidE1 (Some (usesPreset 1)) (Some ["badword"]);
                              ConfigureOp guidE1 (Some (usesPreset 2)) (Some ["otherword"]) ]
                       BannedWordsManager.init)
                  = {[ guidE1 := {| presetId := Some 2; customWords := [];
                                    managerGuids := []; enabled := true |} ]}).
  { unfold runOps. cbn [fold_left applyOp].
    rewrite !configureEntity_configs by reflexivity.
    cbn [entityConfigs BannedWordsManager.init]. rewrite insert_insert_eq.
    reflexivity. }
  assert (Hall : forall e c,
             entityConfigs
               (runOps [ ConfigureOp guidE1 (Some (usesPreset 1)) (Some ["badword"]);
                         ConfigureOp guidE1 (Some (usesPreset 2)) (Some ["otherword"]) ]
                  BannedWordsManager.init) !! e = Some c ->
             e = guidE1 /\ presetId c = Some 2).
  { intros e c. rewrite Hcfgs. rewrite lookup_singleton_Some. intros [<- <-].
    split; reflexivity. }
  split; [vm_compute; reflexivity|]. split; [vm_compute; reflexivity|].
  split; [exact Hall|].
  intros (e & c & Hl & Hp). destruct (Hall e c Hl) as [_ H2]. congruence.
Qed.

(** ** The token refresh throttle *)

Lemma refreshNeeded_spec auth botId force now st :
  DbApi.refreshNeeded auth botId force now st = true <->
  (if force then forceRefreshMinIntervalMs auth else tokenRefreshIntervalMs auth)
  <= now - default 0 (lastTokenRefreshAt st !! botId).
Proof.
  unfold DbApi.refreshNeeded.
  destruct (Z.ltb_spec (now - default 0 (lastTokenRefreshAt st !! botId))
              (if force then forceRefreshMinIntervalMs auth else tokenRefreshIntervalMs auth));
    split; intros; try lia; try discriminate; reflexivity.
Qed.

Lemma call_result auth botId force now outcome done_ st n st' :
  DbApi.refreshBotAccessTokenIfNeeded auth botId force now outcome done_ st = (n, st') ->
  (n <= 1)%nat /\
  (n = 1%nat ->
   DbApi.refreshNeeded auth botId force now st = true /\
   lastTokenRefreshAt st' !! botId = Some done_).
Proof.
  unfold DbApi.refreshBotAccessTokenIfNeeded, DbApi.endCall, DbApi.beginCall.
  destruct (DbApi.refreshNeeded auth botId force now st) eqn:Hn.
  - cbn [refreshing]. rewrite bool_decide_eq_true_2 by (apply list_elem_of_here).
    destruct outcome; intros [= <- <-]; cbn; split; try lia; intros; try lia.
    split; [reflexivity|apply lookup_insert_eq].
  - intros [= <- <-]. split; [lia|intros; lia].
Qed.

Lemma call_skipped_or_stamped auth botId force now outcome done_ st n st' :
  DbApi.refreshBotAccessTokenIfNeeded auth botId force now outcome done_ st = (n, st') ->
  n = 0%nat \/ lastTokenRefreshAt st' !! botId = Some done_.
Proof.
  intros H. destruct (call_result _ _ _ _ _ _ _ _ _ H) as [Hle Hone].
  destruct n as [|[|n]]; [left; reflexivity | right; apply Hone; reflexivity | lia].
Qed.

(** C9, as amended.  With the default intervals, a call of
    [refreshBotAccessTokenIfNeeded] reaches the OAuth endpoint only if at
    least 30 minutes (60 seconds when forced) lie between its start and
    the refresh time recorded for the bot (0 when none is recorded); and
    of two calls of the same kind for one bot, the second starting after
    the first has ended and less than that interval after the first
    started, at most one reaches the OAuth endpoint. *)
Theorem refresh_throttle (st : DbApiState) (botId : string) (force : bool)
    (now1 done1 now2 done2 : Z) (o1 o2 : RefreshOutcome) :
  let auth := authConstants None None in
  let minInterval := if force then 60 * 1000 else 30 * 60 * 1000 in
  let r1 := DbApi.refreshBotAccessTokenIfNeeded auth botId force now1 o1 done1 st in
  let r2 := DbApi.refreshBotAccessTokenIfNeeded auth botId force now2 o2 done2 r1.2 in
  now1 <= done1 ->
  done1 <= now2 ->
  now2 - now1 < minInterval ->
  (r1.1 = 1%nat -> minInterval <= now1 - default 0 (lastTokenRefreshAt st !! botId)) /\
  (r2.1 = 1%nat -> minInterval <= now2 - default 0 (lastTokenRefreshAt r1.2 !! botId)) /\
  (r1.1 + r2.1 <= 1)%nat.
Proof.
  intros auth minInterval r1 r2 H1 H2 H3.
  destruct r1 as [n1 st1] eqn:E1. destruct r2 as [n2 st2] eqn:E2.
  subst r1 r2. cbn [fst snd] in *.
  destruct (call_result _ _ _ _ _ _ _ _ _ E1) as [Hle1 Hone1].
  destruct (call_result _ _ _ _ _ _ _ _ _ E2) as [Hle2 Hone2].
  assert (Hint : (if force then forceRefreshMinIntervalMs auth
                  else tokenRefreshIntervalMs auth) = minInterval)
    by (destruct force; reflexivity).
  split; [|split].
  - intros ->. destruct (Hone1 eq_refl) as [Hn _].
    apply refreshNeeded_spec in Hn. rewrite Hint in Hn. exact Hn.
  - intros ->. destruct (Hone2 eq_refl) as [Hn _].
    apply refreshNeeded_spec in Hn. rewrite Hint in Hn. exact Hn.
  - destruct n1 as [|[|n1]]; [lia| |lia].
    destruct n2 as [|[|n2]]; [lia| |lia].
    exfalso. destruct (Hone1 eq_refl) as [_ Hl]. destruct (Hone2 eq_refl) as [Hn _].
    apply refreshNeeded_spec in Hn. rewrite Hint, Hl in Hn. cbn in Hn. lia.
Qed.

Lemma refresh_throttle_witness :
  let st := DbApi.init in
  let r1 := DbApi.refreshBotAccessTokenIfNeeded (authConstants None None)
              "7" false 1700000000000 UpstreamCalled 1700000000400 st in
  let r2 := DbApi.refreshBotAccessTokenIfNeeded (authConstants None None)
              "7" false 1700000600000 UpstreamCalled 1700000600400 r1.2 in
  r1.1 = 1%nat /\ (r1.1 + r2.1 <= 1)%nat.
Proof.
  split; [reflexivity|].
  apply (refresh_throttle DbApi.init "7" false 1700000000000 1700000000400
           1700000600000 1700000600400 UpstreamCalled UpstreamCalled); lia.
Defined.

(** C9 as stated fails: two non-forced calls for bot 7 that start one
    millisecond apart, the second while the first is suspended in
    [updateBotAccessToken], both reach the OAuth endpoint. *)
Lemma overlapping_calls_refresh_twice :
  let schedule :=
    [DbApi.Begin "7" false 1700000000000;
     DbApi.Begin "7" false 1700000000001;
     DbApi.End_ "7" UpstreamCalled 1700000000400;
     DbApi.End_ "7" UpstreamCalled 1700000000401] in
  1700000000001 - 1700000000000 < 30 * 60 * 1000 /\
  (DbApi.dbRun (authConstants None None) schedule DbApi.init).1 = 2%nat.
Proof. split; [lia | vm_compute; reflexivity]. Qed.

(** ** A small program logic for worker computations *)

Section ProgramLogic.

Context {I : StateManagerState -> Prop} {T : Action -> Prop}.

Lemma stateOf_bind {A B} (c : M A) (f : A -> M B) w :
  stateOf (c ≫= f) w = stateOf (f (resultOf c w)) (stateOf c w).
Proof.
  unfold stateOf, resultOf, mbind, M_bind.
  destruct (c w) as [[x w1] t1]. cbn [fst snd].
  destruct (f x w1) as [[y w2] t2]. reflexivity.
Qed.

Lemma actionsOf_bind {A B} (c : M A) (f : A -> M B) w :
  actionsOf (c ≫= f) w
  = (actionsOf c w ++ actionsOf (f (resultOf c w)) (stateOf c w))%list.
Proof.
  unfold actionsOf, stateOf, resultOf, mbind, M_bind.
  destruct (c w) as [[x w1] t1]. cbn [fst snd].
  destruct (f x w1) as [[y w2] t2]. reflexivity.
Qed.

Lemma spec_ret {A} (x : A) : spec I T (mret x).
Proof. intros w Hw. split; [exact Hw | constructor]. Qed.

Lemma spec_skip : spec I T skip.
Proof. apply spec_ret. Qed.

Lemma spec_bind {A B} (c : M A) (f : A -> M B) :
  spec I T c -> (forall x, spec I T (f x)) -> spec I T (c ≫= f).
Proof.
  intros Hc Hf w Hw. rewrite stateOf_bind, actionsOf_bind.
  destruct (Hc w Hw) as [H1 H2].
  destruct (Hf (resultOf c w) (stateOf c w) H1) as [H3 H4].
  split; [exact H3 | apply Forall_app; split; assumption].
Qed.

Lemma spec_get : spec I T getState.
Proof. intros w Hw. split; [exact Hw | constructor]. Qed.

(** Reading the state gives the state: the continuation may be verified
    for the state it runs in. *)
Lemma spec_get_bind {B} (f : Worker -> M B) :
  (forall w, specAt I T (f w) w) -> spec I T (getState ≫= f).
Proof.
  intros Hf w Hw. rewrite stateOf_bind, actionsOf_bind.
  change (stateOf getState w) with w. change (resultOf getState w) with w.
  change (actionsOf getState w) with (@nil Action).
  apply Hf. exact Hw.
Qed.

Lemma spec_modify (f : StateManagerState -> StateManagerState) :
  (forall s, I s -> I (f s)) -> spec I T (modifySm f).
Proof. intros Hf w Hw. split; [apply Hf, Hw | constructor]. Qed.

Lemma spec_emit (a : Action) : T a -> spec I T (emit a).
Proof. intros Ha w Hw. split; [exact Hw | repeat constructor; exact Ha]. Qed.

(** A computation that leaves the state manager alone and does nothing
    to the outside. *)
Lemma spec_moderation_only {A} (c : M A) :
  (forall w, sm (stateOf c w) = sm w /\ actionsOf c w = []) -> spec I T c.
Proof.
  intros Hc w Hw. destruct (Hc w) as [-> ->]. split; [exact Hw | constructor].
Qed.

Lemma spec_forEach {A} (l : list A) (f : A -> M unit) :
  (forall a, spec I T (f a)) -> spec I T (WorkerService.forEach l f).
Proof.
  intros Hf. induction l as [|a l IH]; cbn [WorkerService.forEach].
  - apply spec_skip.
  - apply spec_bind; [apply Hf | intros _; exact IH].
Qed.

Lemma spec_forEachTry {A} (l : list A) (f : A -> M (Result unit)) :
  (forall a, spec I T (f a)) -> spec I T (WorkerService.forEachTry l f).
Proof.
  intros Hf. induction l as [|a l IH]; cbn [WorkerService.forEachTry].
  - apply spec_ret.
  - apply spec_bind; [apply Hf|]. intros [[]|]; [exact IH | apply spec_ret].
Qed.

End ProgramLogic.

Lemma specAt_bind {A B} (I : StateManagerState -> Prop) (T : Action -> Prop)
    (c : M A) (f : A -> M B) w :
  specAt I T c w -> (forall x, spec I T (f x)) -> specAt I T (c ≫= f) w.
Proof.
  intros Hc Hf Hw. rewrite stateOf_bind, actionsOf_bind.
  destruct (Hc Hw) as [H1 H2].
  destruct (Hf (resultOf c w) (stateOf c w) H1) as [H3 H4].
  split; [exact H3 | apply Forall_app; split; assumption].
Qed.

Lemma spec_weaken {A} (I : StateManagerState -> Prop) (T T' : Action -> Prop) (c : M A) :
  (forall a, T a -> T' a) -> spec I T c -> spec I T' c.
Proof.
  intros HT Hc w Hw. destruct (Hc w Hw) as [H1 H2].
  split; [exact H1 | eapply Forall_impl; eauto].
Qed.

Lemma spec_liftSm {A} (I : StateManagerState -> Prop) (T : Action -> Prop)
    (f : StateManagerState -> A * StateManagerState) :
  (forall s, I s -> I (f s).2) -> spec I T (liftSm f).
Proof.
  intros Hf w Hw. unfold stateOf, actionsOf, liftSm.
  specialize (Hf (sm w) Hw). destruct (f (sm w)) as [x s].
  split; [exact Hf | constructor].
Qed.

(** ** The worker's invariant under the state manager's methods *)

Lemma cursorsOk_delete r s m :
  cursorsOk s -> m = delete r (autoMessageTurn s) ->
  forall r' v, m !! r' = Some v -> 0 <= v.
Proof.
  intros HC -> r' v Hl. apply lookup_delete_Some in Hl as [_ Hl]. eapply HC, Hl.
Qed.

Lemma rem_cursor_nonneg cur n : 0 <= cur -> 0 <= Js.rem (cur + 1) n.
Proof.
  intros H. unfold Js.rem. destruct (Z.eq_dec n 0) as [->|Hn].
  - rewrite Z.rem_0_r_ext by reflexivity. lia.
  - apply Z.rem_nonneg; lia.
Qed.

Lemma getAutoMessageTurn_nonneg r s : cursorsOk s -> 0 <= StateManager.getAutoMessageTurn r s.
Proof.
  intros HC. unfold StateManager.getAutoMessageTurn.
  destruct (autoMessageTurn s !! r) as [v|] eqn:E; cbn; [eapply HC, E | lia].
Qed.

Section Stable.

Variables (R : Z * Z * Z -> Prop) (N X : gset string) (ck : bool).

Ltac stable :=
  intros s (HR & HN & HX & HC); split; [|split; [|split]];
  [ exact HR | cbn; try exact HN; set_solver | cbn; try exact HX; set_solver
  | try exact HC ].

Lemma inv_addToOutgoingStanzaQueue st s :
  workerInv R N X ck s -> workerInv R N X ck (StateManager.addToOutgoingStanzaQueue st s).
Proof. revert s. stable. Qed.

Lemma inv_withQueue q s : workerInv R N X ck s -> workerInv R N X ck (StateManager.withQueue q s).
Proof. revert s. stable. Qed.

Lemma inv_setEntity e d s : workerInv R N X ck s -> workerInv R N X ck (StateManager.setEntity e d s).
Proof. revert s. stable. Qed.

Lemma inv_setMessageCount r c s :
  workerInv R N X ck s -> workerInv R N X ck (StateManager.setMessageCount r c s).
Proof. revert s. stable. Qed.

Lemma inv_incrementMessageCount r s :
  workerInv R N X ck s -> workerInv R N X ck (StateManager.incrementMessageCount r s).2.
Proof. apply inv_setMessageCount. Qed.

Lemma inv_resetMessageCount r s :
  workerInv R N X ck s -> workerInv R N X ck (StateManager.resetMessageCount r s).
Proof. apply inv_setMessageCount. Qed.

Lemma inv_incrementAutoMessageTurn r n s :
  workerInv R N X ck s -> workerInv R N X ck (StateManager.incrementAutoMessageTurn r n s).2.
Proof.
  revert s. stable. intros Hc r' v. cbn.
  rewrite lookup_insert_Some. intros [[_ <-]|[_ Hl]]; [|eapply HC, Hl; exact Hc].
  apply rem_cursor_nonneg, getAutoMessageTurn_nonneg, HC, Hc.
Qed.

Lemma inv_addRecentlyUnassignedEntity e s :
  workerInv R N X ck s -> workerInv R N X ck (StateManager.addRecentlyUnassignedEntity e s).
Proof. revert s. stable. Qed.

Lemma inv_removeRecentlyUnassignedEntity e s :
  workerInv R N X ck s -> workerInv R N X ck (StateManager.removeRecentlyUnassignedEntity e s).
Proof. revert s. stable. Qed.

Lemma inv_removeNonExistentEntity e s :
  e ∉ N -> workerInv R N X ck s -> workerInv R N X ck (StateManager.removeNonExistentEntity e s).
Proof. intros He. revert s. stable. Qed.

Lemma inv_setSupergroupSubscription j p s :
  workerInv R N X ck s -> workerInv R N X ck (StateManager.setSupergroupSubscription j p s).
Proof. revert s. stable. Qed.

Lemma inv_removeSupergroupSubscription j s :
  workerInv R N X ck s -> workerInv R N X ck (StateManager.removeSupergroupSubscription j s).
Proof. revert s. stable. Qed.

Lemma inv_withFlags a b c s :
  workerInv R N X ck s -> workerInv R N X ck (StateManager.withFlags a b c s).
Proof. revert s. stable. Qed.

End Stable.

Create HintDb inv.
Create HintDb spec.

#[local] Hint Resolve inv_addToOutgoingStanzaQueue inv_withQueue inv_setEntity
  inv_setMessageCount inv_incrementMessageCount inv_resetMessageCount
  inv_incrementAutoMessageTurn
  inv_addRecentlyUnassignedEntity inv_removeRecentlyUnassignedEntity
  inv_setSupergroupSubscription inv_removeSupergroupSubscription
  inv_withFlags : inv.

(** ** The handlers keep the invariant *)

Ltac spec_step :=
  first
    [ apply spec_ret
    | apply spec_skip
    | apply spec_get
    | apply spec_bind; [|intros ?]
    | apply spec_modify; intros ? ?; eauto with inv
    | apply spec_liftSm; intros ? ?; eauto with inv
    | apply spec_emit; exact Logic.I
    | solve [eauto with spec]
    | match goal with
      | |- spec _ _ (if ?b then _ else _) => destruct b
      | |- spec _ _ (match ?x with _ => _ end) => destruct x
      | |- spec _ _ (let '(_, _) := ?x in _) => destruct x
      end ].

Ltac spec_auto := repeat spec_step.

Section Handlers.

Variables (R : Z * Z * Z -> Prop) (N X : gset string) (ck x : bool).

Local Abbreviation I := (workerInv R N X ck).
Local Abbreviation T := (actionOk x N).

Lemma spec_queueStanza st : spec I T (queueStanza st).
Proof. unfold queueStanza. spec_auto. Qed.
Hint Resolve spec_queueStanza : spec.

Lemma spec_sendBannedWordsNotification e m a r :
  spec I T (DiscordWebhookManager.sendBannedWordsNotification e m a r).
Proof. unfold DiscordWebhookManager.sendBannedWordsNotification. spec_auto. Qed.
Hint Resolve spec_sendBannedWordsNotification : spec.

Lemma spec_deleteMessage i a r : spec I T (Moderation.deleteMessage i a r).
Proof. unfold Moderation.deleteMessage. spec_auto. Qed.
Hint Resolve spec_deleteMessage : spec.

Lemma spec_muteUser u r d : spec I T (Moderation.muteUser u r d).
Proof. unfold Moderation.muteUser. spec_auto. Qed.
Hint Resolve spec_muteUser : spec.

Lemma spec_afterDelete call : spec I T (Moderation.afterDelete call).
Proof. unfold Moderation.afterDelete. spec_auto. Qed.
Hint Resolve spec_afterDelete : spec.

Lemma spec_resumeAfterSleep call : spec I T (Moderation.resumeAfterSleep call).
Proof. unfold Moderation.resumeAfterSleep. spec_auto. Qed.

Lemma spec_resumeAfterRetraction call : spec I T (Moderation.resumeAfterRetraction call).
Proof. unfold Moderation.resumeAfterRetraction. spec_auto. Qed.

Lemma spec_checkBannedWords re m r a i : spec I T (Moderation.checkBannedWords re m r a i).
Proof. unfold Moderation.checkBannedWords. spec_auto. Qed.
Hint Resolve spec_checkBannedWords : spec.

Lemma spec_enforceReadOnlyMode rc r a i : spec I T (Moderation.enforceReadOnlyMode rc r a i).
Proof. unfold Moderation.enforceReadOnlyMode. spec_auto. Qed.
Hint Resolve spec_enforceReadOnlyMode : spec.

Lemma spec_processModeration re m r a i rc :
  spec I T (Moderation.processModeration re m r a i rc).
Proof. unfold Moderation.processModeration. spec_auto. Qed.
Hint Resolve spec_processModeration : spec.

Lemma spec_processTimedMessages r rc : spec I T (TimedMessages.processTimedMessages r rc).
Proof. unfold TimedMessages.processTimedMessages. spec_auto. Qed.
Hint Resolve spec_processTimedMessages : spec.

Lemma spec_processCommands m r rc : spec I T (Commands.processCommands m r rc).
Proof. unfold Commands.processCommands. spec_auto. Qed.
Hint Resolve spec_processCommands : spec.

Lemma spec_handleGroupChatMessage re st : spec I T (WorkerService.handleGroupChatMessage re st).
Proof. unfold WorkerService.handleGroupChatMessage. spec_auto. Qed.
Hint Resolve spec_handleGroupChatMessage : spec.

Lemma spec_handle404Error st : spec I T (DebugHandler.handle404Error st).
Proof. unfold DebugHandler.handle404Error. spec_auto. Qed.
Hint Resolve spec_handle404Error : spec.

Lemma spec_handleVerboseError st : spec I T (DebugHandler.handleVerboseError st).
Proof. unfold DebugHandler.handleVerboseError. spec_auto. Qed.
Hint Resolve spec_handleVerboseError : spec.

Lemma spec_handleVerboseSuccess st : spec I T (DebugHandler.handleVerboseSuccess st).
Proof. unfold DebugHandler.handleVerboseSuccess. spec_auto. Qed.
Hint Resolve spec_handleVerboseSuccess : spec.

Lemma spec_handleVerboseSupergroupIQ st :
  spec I T (DebugHandler.handleVerboseSupergroupIQ st).
Proof. unfold DebugHandler.handleVerboseSupergroupIQ. spec_auto. Qed.
Hint Resolve spec_handleVerboseSupergroupIQ : spec.

Lemma spec_handleSupergroupIQ v st : spec I T (WorkerService.handleSupergroupIQ v st).
Proof. unfold WorkerService.handleSupergroupIQ. spec_auto. Qed.
Hint Resolve spec_handleSupergroupIQ : spec.

Lemma spec_handleIQGet st : spec I T (WorkerService.handleIQGet st).
Proof. unfold WorkerService.handleIQGet. spec_auto. Qed.
Hint Resolve spec_handleIQGet : spec.

Lemma spec_handleStanza re v st : spec I T (WorkerService.handleStanza re v st).
Proof. unfold WorkerService.handleStanza. spec_auto. Qed.
Hint Resolve spec_handleStanza : spec.

(** The outgoing queue: a stanza whose addressee is flagged is dropped. *)
Lemma spec_processStanzaQueue : spec I T WorkerService.processStanzaQueue.
Proof.
  unfold WorkerService.processStanzaQueue. apply spec_get_bind.
  intros w. unfold specAt. intros Hw.
  destruct (outgoingStanzaQueue (sm w)) as [|st rest]; [apply spec_skip, Hw|].
  destruct (online (sm w)); cbn [negb]; [|apply spec_skip, Hw].
  pose proof Hw as Hw0. revert Hw0. apply specAt_bind.
  - intros Hw'. split; [apply inv_withQueue, Hw' | constructor].
  - intros _.
    destruct (Js.truthy (Xml.attr "to" st) ≫= _) as [e|] eqn:Ha.
    + unfold StateManager.hasNonExistentEntity. case_bool_decide as He.
      * apply spec_skip.
      * intros w' Hw'. split; [exact Hw'|]. repeat constructor. cbn.
        unfold addressee. intros e' He'. rewrite Ha in He'. injection He' as <-.
        destruct Hw as (_ & HN & _). set_solver.
    + apply spec_emit. cbn. unfold addressee. intros e' He'. congruence.
Qed.
Hint Resolve spec_processStanzaQueue : spec.

Lemma spec_joinRoomForEntity e d : spec I T (joinRoomForEntity e d).
Proof. unfold joinRoomForEntity. spec_auto. Qed.
Hint Resolve spec_joinRoomForEntity : spec.

Lemma spec_leaveRoomForEntity e : spec I T (leaveRoomForEntity e).
Proof. unfold leaveRoomForEntity. spec_auto. Qed.
Hint Resolve spec_leaveRoomForEntity : spec.

Lemma spec_configureEntityProfanityFilter e env :
  spec I T (WorkerService.configureEntityProfanityFilter e env).
Proof.
  apply spec_moderation_only. intros w.
  unfold WorkerService.configureEntityProfanityFilter, stateOf, actionsOf.
  unfold WorkerService.configureFailed.
  destruct (profanityReply env) as [[pc|]|m]; cbn [fst snd]; try (split; reflexivity).
  - destruct (is_active pc); cbn [negb fst snd]; [|split; reflexivity].
    destruct (entityDataReply env) as [d|m]; cbn [fst snd]; [split; reflexivity|].
    destruct (negb (String.eqb m "") && Js.includes "404" m); split; reflexivity.
  - destruct (negb (String.eqb m "") && Js.includes "404" m); split; reflexivity.
Qed.
Hint Resolve spec_configureEntityProfanityFilter : spec.

Lemma spec_cleanupModeration e :
  spec I T (fun w => (tt, WorkerService.cleanupModeration e w, [])).
Proof. apply spec_moderation_only. intros w. split; reflexivity. Qed.
Hint Resolve spec_cleanupModeration : spec.

Lemma spec_handleEntityUnassignment e : spec I T (WorkerService.handleEntityUnassignment e).
Proof. unfold WorkerService.handleEntityUnassignment. spec_auto. Qed.

Lemma spec_handleEntityUpdate e r env : spec I T (WorkerService.handleEntityUpdate e r env).
Proof. unfold WorkerService.handleEntityUpdate. spec_auto. Qed.

Lemma spec_handlePresetRefresh p f : spec I T (WorkerService.handlePresetRefresh p f).
Proof. apply spec_moderation_only. intros w. split; reflexivity. Qed.

Lemma spec_cleanupEntityTracking e :
  e ∉ N -> spec I T (WorkerService.cleanupEntityTracking e).
Proof.
  intros He. unfold WorkerService.cleanupEntityTracking.
  spec_auto. apply inv_removeNonExistentEntity; assumption.
Qed.

Lemma spec_removeStale e : spec I T (WorkerService.removeStale e).
Proof. unfold WorkerService.removeStale. spec_auto. Qed.

Lemma spec_reconcileEntities u envOf order :
  spec I T (WorkerService.reconcileEntities u envOf order).
Proof.
  unfold WorkerService.reconcileEntities.
  apply spec_bind; [apply spec_get|intros w].
  destruct (isShuttingDown (sm w)); [apply spec_skip|].
  destruct u as [[updated|]|m]; try apply spec_skip.
  apply spec_bind; [|intros _; apply spec_bind; [apply spec_get|intros w2]].
  - apply spec_forEach. intros [e d]. apply spec_get_bind.
    intros w1. unfold specAt. intros Hw1.
    destruct (StateManager.hasEntity e (sm w1)); cbn [negb andb]; [apply spec_skip, Hw1|].
    unfold StateManager.hasNonExistentEntity. case_bool_decide as He; cbn [negb];
      [apply spec_skip, Hw1|].
    assert (e ∉ N) by (destruct Hw1 as (_ & HN & _); set_solver).
    revert Hw1. apply specAt_bind; [apply spec_cleanupEntityTracking; assumption|].
    intros _. spec_auto.
  - apply spec_bind; [|intros [[]|]; [|apply spec_skip]].
    + apply spec_forEachTry. intros e.
      destruct (negb (bool_decide (e ∈ updated.*1)));
        [apply spec_removeStale | apply spec_ret].
    + apply spec_forEach. intros [e d]. spec_auto.
Qed.

Lemma spec_handleXmppOffline : spec I T WorkerService.handleXmppOffline.
Proof. unfold WorkerService.handleXmppOffline. spec_auto. Qed.

Lemma spec_handleEntityAssignment e d r env :
  e ∉ N -> spec I T (WorkerService.handleEntityAssignment e d r env).
Proof.
  intros He. unfold WorkerService.handleEntityAssignment.
  spec_auto. apply inv_removeNonExistentEntity; assumption.
Qed.

(** Every event that is neither an assignment nor a reconnection step. *)
Lemma spec_ordinary re v ev :
  ordinary ev -> spec I T (WorkerService.handle re v ev).
Proof.
  destruct ev; cbn [ordinary WorkerService.handle]; intros Hev; try contradiction.
  - apply spec_handleStanza.
  - unfold WorkerService.handlePing. spec_auto.
  - apply spec_processStanzaQueue.
  - apply spec_bind; [apply spec_resumeAfterSleep | intros _; apply spec_skip].
  - apply spec_resumeAfterRetraction.
  - apply spec_handleEntityUnassignment.
  - apply spec_handleEntityUpdate.
  - apply spec_handlePresetRefresh.
  - apply spec_reconcileEntities.
  - apply spec_handleXmppOffline.
  - apply spec_queueStanza.
Qed.

End Handlers.

(** ** Reconnection *)

Lemma run_recordReconnectionAttempt now w :
  WorkerService.recordReconnectionAttempt now w
  = (tt,
     withSm (StateManager.withReconnection (reconnectionAttempts (sm w) + 1) now
               (Z.min (reconnectionBackoffMs (sm w) * 2) 300000) (sm w)) w,
     if (10 <=? reconnectionAttempts (sm w) + 1)%Z then [ProcessExit 1] else []).
Proof.
  unfold WorkerService.recordReconnectionAttempt.
  rewrite !run_bind. cbn [getState modifySm fst snd].
  destruct (10 <=? reconnectionAttempts (sm w) + 1)%Z; reflexivity.
Qed.

Lemma connectXmpp_attempt now fetched started w :
  WorkerService.performPreConnectionChecks now (sm w) = true ->
  reconnection (sm (stateOf (WorkerService.connectXmpp now fetched started) w))
  = (reconnectionAttempts (sm w) + 1, now,
     Z.min (reconnectionBackoffMs (sm w) * 2) 300000)
  /\ actionsOf (WorkerService.connectXmpp now fetched started) w
     = (if (10 <=? reconnectionAttempts (sm w) + 1)%Z then [ProcessExit 1] else [])
  /\ nonExistentEntities (sm (stateOf (WorkerService.connectXmpp now fetched started) w))
     = nonExistentEntities (sm w)
  /\ autoMessageTurn (sm (stateOf (WorkerService.connectXmpp now fetched started) w))
     = autoMessageTurn (sm w).
Proof.
  intros Hc. unfold stateOf, actionsOf, WorkerService.connectXmpp.
  rewrite run_bind. cbn [getState fst snd]. rewrite Hc. cbn [negb].
  rewrite !run_bind. cbn [modifySm fst snd]. rewrite run_recordReconnectionAttempt.
  cbn [fst snd sm withSm modifySm].
  destruct fetched, started; cbn; rewrite ?app_nil_r; repeat split; reflexivity.
Qed.

Lemma connectXmpp_refused now fetched started w :
  WorkerService.performPreConnectionChecks now (sm w) = false ->
  WorkerService.connectXmpp now fetched started w = (tt, w, []).
Proof.
  intros Hc. unfold WorkerService.connectXmpp.
  rewrite run_bind. cbn [getState fst snd]. rewrite Hc. reflexivity.
Qed.

Lemma checks_below_ten now s :
  WorkerService.performPreConnectionChecks now s = true -> reconnectionAttempts s < 10.
Proof.
  unfold WorkerService.performPreConnectionChecks, WorkerService.shouldAttemptReconnection.
  destruct (isConnecting s || isShuttingDown s); [discriminate|].
  destruct (Z.leb_spec 10 (reconnectionAttempts s)); [discriminate|]. intros _. lia.
Qed.

Lemma handleXmppOnline_resets w :
  reconnectionAttempts (sm (stateOf WorkerService.handleXmppOnline w)) = 0 /\
  reconnectionBackoffMs (sm (stateOf WorkerService.handleXmppOnline w)) = 5000 /\
  actionsOf WorkerService.handleXmppOnline w = [] /\
  nonExistentEntities (sm (stateOf WorkerService.handleXmppOnline w))
  = nonExistentEntities (sm w) /\
  autoMessageTurn (sm (stateOf WorkerService.handleXmppOnline w))
  = autoMessageTurn (sm w).
Proof.
  unfold stateOf, actionsOf, WorkerService.handleXmppOnline,
    WorkerService.resetReconnectionState.
  rewrite !run_bind. cbn [modifySm fst snd sm withSm].
  destruct (isShuttingDown (sm w)) eqn:Hsd.
  - rewrite run_queueStanza_down by reflexivity. cbn. repeat split; reflexivity.
  - rewrite run_queueStanza by reflexivity. cbn. repeat split; reflexivity.
Qed.

(** What one event does to the attempt counter. *)
Lemma handle_attempts re v ev w :
  let a := reconnectionAttempts (sm w) in
  let a' := reconnectionAttempts (sm (stateOf (WorkerService.handle re v ev) w)) in
  let t := actionsOf (WorkerService.handle re v ev) w in
  a' = a \/ a' = 0 \/ (a < 10 /\ a' = a + 1 /\ (a' = 10 -> ProcessExit 1 ∈ t)).
Proof.
  intros a a' t. subst a a' t.
  assert (Hinv : workerInv (eq (reconnection (sm w))) ∅ (nonExistentEntities (sm w))
                    false (sm w)).
  { split; [reflexivity|]. split; [set_solver|]. split; [set_solver|discriminate]. }
  assert (Hframe : forall c : M unit,
             spec (workerInv (eq (reconnection (sm w))) ∅ (nonExistentEntities (sm w))
                     false)
               (actionOk false ∅) c ->
             reconnectionAttempts (sm (stateOf c w)) = reconnectionAttempts (sm w)).
  { intros c Hc. destruct (Hc w Hinv) as [[HR _] _].
    unfold reconnection in HR. congruence. }
  destruct ev;
    try (left; apply Hframe; apply spec_ordinary; exact Logic.I).
  - left. apply Hframe. apply spec_handleEntityAssignment. set_solver.
  - cbn [WorkerService.handle].
    destruct (WorkerService.performPreConnectionChecks now (sm w)) eqn:Hc.
    + right. right. pose proof (checks_below_ten _ _ Hc) as Hlt.
      destruct (connectXmpp_attempt now fetched started w Hc) as (Hr & Ht & _).
      unfold reconnection in Hr. injection Hr as Ha _ _.
      split; [exact Hlt|]. split; [exact Ha|].
      intros H10. rewrite Ht.
      destruct (Z.leb_spec 10 (reconnectionAttempts (sm w) + 1)); [|lia].
      apply list_elem_of_here.
    + left. unfold stateOf. rewrite connectXmpp_refused by exact Hc. reflexivity.
  - right. left. apply handleXmppOnline_resets.
Qed.

(** The counter along a trace of events. *)
Lemma run_attempts re v evs : forall w,
  reconnectionAttempts (sm w) <= 10 ->
  let a' := reconnectionAttempts (sm (stateOf (WorkerService.run re v evs) w)) in
  let t := actionsOf (WorkerService.run re v evs) w in
  a' <= 10 /\ (a' = 10 -> reconnectionAttempts (sm w) = 10 \/ ProcessExit 1 ∈ t).
Proof.
  induction evs as [|ev evs IH]; intros w Hw; cbn zeta.
  - split; [exact Hw | intros H; left; exact H].
  - unfold WorkerService.run. cbn [WorkerService.forEach].
    rewrite stateOf_bind, actionsOf_bind.
    pose proof (handle_attempts re v ev w) as Hstep. cbn zeta in Hstep.
    set (w1 := stateOf (WorkerService.handle re v ev) w) in *.
    assert (Hw1 : reconnectionAttempts (sm w1) <= 10) by lia.
    destruct (IH w1 Hw1) as [Hle Hexit]. split; [exact Hle|].
    intros H10. destruct (Hexit H10) as [H1|H1].
    + destruct Hstep as [Hs|[Hs|(Hlt & Hs & He)]].
      * left. lia.
      * lia.
      * right. apply elem_of_app. left. apply He. exact H1.
    + right. apply elem_of_app. right. exact H1.
Qed.

(** C7.  Along every trace of events of a worker whose attempt counter
    starts below 10, the counter never exceeds 10, and whenever it is 10
    the worker has asked for [process.exit(1)].  The delay starts at
    5000 ms; every attempt that [connectXmpp] lets through adds 1 to the
    counter, stores the time and sets the delay to
    [min(previous * 2, 300000)]; the online transition resets the
    counter to 0 and the delay to 5000 ms. *)
Theorem reconnection_bounded (re : RegExpEngine) (verbose : bool) (w0 : Worker)
    (evs : list WorkerService.Event) :
  reconnectionAttempts (sm w0) < 10 ->
  let w := stateOf (WorkerService.run re verbose evs) w0 in
  let t := actionsOf (WorkerService.run re verbose evs) w0 in
  (reconnectionAttempts (sm w) <= 10 /\
   (reconnectionAttempts (sm w) = 10 -> ProcessExit 1 ∈ t)) /\
  reconnectionBackoffMs StateManager.init = 5000 /\
  (forall now fetched started,
      WorkerService.performPreConnectionChecks now (sm w) = true ->
      reconnection (sm (stateOf (WorkerService.connectXmpp now fetched started) w))
      = (reconnectionAttempts (sm w) + 1, now,
         Z.min (reconnectionBackoffMs (sm w) * 2) 300000)) /\
  (forall now fetched started,
      WorkerService.performPreConnectionChecks now (sm w) = false ->
      reconnection (sm (stateOf (WorkerService.connectXmpp now fetched started) w))
      = reconnection (sm w)) /\
  reconnectionAttempts (sm (stateOf WorkerService.handleXmppOnline w)) = 0 /\
  reconnectionBackoffMs (sm (stateOf WorkerService.handleXmppOnline w)) = 5000.
Proof.
  intros Hlt w t.
  destruct (run_attempts re verbose evs w0 ltac:(lia)) as [Hle Hexit].
  split; [|split; [|split; [|split]]].
  - split; [exact Hle|]. intros H10. destruct (Hexit H10) as [H|H]; [lia|exact H].
  - reflexivity.
  - intros now fetched started Hc. apply connectXmpp_attempt, Hc.
  - intros now fetched started Hc. unfold stateOf.
    rewrite connectXmpp_refused by exact Hc. reflexivity.
  - split; apply handleXmppOnline_resets.
Qed.

(** Scenario 6: after the tenth failed attempt the counter is 10 and the
    exit has been asked for. *)
Lemma reconnection_bounded_witness :
  let w := stateOf (WorkerService.run Sample.regexp false tenFailedConnects) initWorker in
  let t := actionsOf (WorkerService.run Sample.regexp false tenFailedConnects) initWorker in
  reconnectionAttempts (sm initWorker) < 10 /\
  reconnectionAttempts (sm w) = 10 /\
  reconnectionBackoffMs (sm w) = 300000 /\
  ProcessExit 1 ∈ t.
Proof.
  assert (H0 : reconnectionAttempts (sm initWorker) < 10) by (cbn; lia).
  split; [exact H0|].
  assert (H10 : reconnectionAttempts
                  (sm (stateOf (WorkerService.run Sample.regexp false tenFailedConnects)
                         initWorker)) = 10) by (vm_compute; reflexivity).
  split; [exact H10|]. split; [vm_compute; reflexivity|].
  apply (reconnection_bounded Sample.regexp false initWorker tenFailedConnects H0).
  exact H10.
Defined.

(** ** Invariants along traces *)

(** Every event but the assignment of an entity of [N] keeps the flags
    of [N] and the sign of the cursors, and sends nothing to [N]. *)
Lemma spec_handle_any re v ev (N X : gset string) (ck : bool) :
  (forall e d r env, ev = WorkerService.Assign e d r env -> e ∉ N) ->
  spec (workerInv (fun _ => True) N X ck) (actionOk true N) (WorkerService.handle re v ev).
Proof.
  intros Hassign.
  destruct ev; try (apply spec_ordinary; exact Logic.I).
  - apply spec_handleEntityAssignment. eapply Hassign. reflexivity.
  - intros w (_ & HN & HX & HC). cbn [WorkerService.handle].
    destruct (WorkerService.performPreConnectionChecks now (sm w)) eqn:Hc.
    + destruct (connectXmpp_attempt now fetched started w Hc) as (_ & Ht & Hn & Hm).
      split.
      * split; [exact Logic.I|]. split; [rewrite Hn; exact HN|].
        split; [rewrite Hn; exact HX|].
        intros Hck r x. rewrite Hm. apply HC, Hck.
      * rewrite Ht. destruct (10 <=? _)%Z; repeat constructor.
    + unfold stateOf, actionsOf. rewrite connectXmpp_refused by exact Hc.
      split; [|constructor]. split; [exact Logic.I|]. repeat split; assumption.
  - intros w (_ & HN & HX & HC). cbn [WorkerService.handle].
    destruct (handleXmppOnline_resets w) as (_ & _ & Ht & Hn & Hm).
    split.
    + split; [exact Logic.I|]. split; [rewrite Hn; exact HN|].
      split; [rewrite Hn; exact HX|].
      intros Hck r x. rewrite Hm. apply HC, Hck.
    + rewrite Ht. constructor.
Qed.

Lemma spec_run re v evs (N X : gset string) (ck : bool) :
  (forall e d r env, WorkerService.Assign e d r env ∈ evs -> e ∉ N) ->
  spec (workerInv (fun _ => True) N X ck) (actionOk true N) (WorkerService.run re v evs).
Proof.
  intros Hassign. unfold WorkerService.run. induction evs as [|ev evs IH].
  - apply spec_skip.
  - cbn [WorkerService.forEach]. apply spec_bind.
    + apply spec_handle_any. intros e d r env ->.
      eapply Hassign. apply list_elem_of_here.
    + intros _. apply IH. intros e d r env Hin.
      eapply Hassign. apply list_elem_of_further, Hin.
Qed.

(** No trace of events makes a cursor negative. *)
Lemma run_cursorsOk re v evs w :
  cursorsOk (sm w) -> cursorsOk (sm (stateOf (WorkerService.run re v evs) w)).
Proof.
  intros HC.
  destruct (spec_run re v evs ∅ (nonExistentEntities (sm w)) true ltac:(set_solver) w)
    as [(_ & _ & _ & H) _].
  - split; [exact Logic.I|]. split; [set_solver|]. split; [set_solver|].
    intros _. exact HC.
  - apply H. reflexivity.
Qed.

Lemma initWorker_cursorsOk : cursorsOk (sm initWorker).
Proof. intros r x Hl. cbn in Hl. rewrite lookup_empty in Hl. discriminate. Qed.

(** C10.  In every state that a worker reaches, for every room and every
    non-empty timers list handed to the timer stage, the cursor that
    [incrementAutoMessageTurn] returns lies in [0, length), so that
    [timers.at(cursor)] is a timer of the list, whatever list the cursor
    was computed against before; and when the stage triggers in a live
    worker that cursor is stored and that timer's stanza is queued. *)
Theorem cursor_in_range (re : RegExpEngine) (verbose : bool)
    (evs : list WorkerService.Event) (r : string) (rc : Entity) :
  let w := stateOf (WorkerService.run re verbose evs) initWorker in
  let n := Z.of_nat (List.length (timers rc)) in
  let nextTurn := (StateManager.incrementAutoMessageTurn r n (sm w)).1 in
  timers rc <> [] ->
  0 <= nextTurn < n /\
  exists t,
    TimedMessages.at_ (timers rc) nextTurn = Some t /\
    (isShuttingDown (sm w) = false ->
     timer_counter_max rc < StateManager.getMessageCount r (sm w) + 1 ->
     let s' := sm (stateOf (TimedMessages.processTimedMessages r rc) w) in
     StateManager.getAutoMessageTurn r s' = nextTurn /\
     outgoingStanzaQueue s'
     = (outgoingStanzaQueue (sm w) ++ [timedStanzaIn (entities (sm w)) r t])%list).
Proof.
  intros w n nextTurn Hne.
  assert (HC : cursorsOk (sm w)) by apply run_cursorsOk, initWorker_cursorsOk.
  assert (Hn : 0 < n) by (subst n; destruct (timers rc); [congruence | cbn; lia]).
  assert (Hrange : 0 <= nextTurn < n).
  { subst nextTurn. cbn [StateManager.incrementAutoMessageTurn fst]. unfold Js.rem.
    pose proof (getAutoMessageTurn_nonneg r (sm w) HC).
    apply Z.rem_bound_pos; lia. }
  split; [exact Hrange|].
  destruct (TimedMessages.at_ (timers rc) nextTurn) as [t|] eqn:Ht.
  - exists t. split; [reflexivity|]. intros Hsd Hk.
    destruct (timer_stage_fires w r rc t Hsd) as (_ & H1 & _ & H3 & _).
    + apply Z.ltb_lt. exact Hk.
    + exact Ht.
    + split; [exact H1 | exact H3].
  - exfalso. rewrite at_nonneg in Ht by lia. apply lookup_ge_None in Ht. subst n. lia.
Qed.

(** After one emission in room E1 the stored cursor is 1; against a list
    of one timer the next cursor is 0. *)
Lemma cursor_in_range_witness :
  let evs := (onlineWithE1 false ++ threeMessages)%list in
  let w := stateOf (WorkerService.run Sample.regexp false evs) initWorker in
  let n := Z.of_nat (List.length (timers roomE1Short)) in
  let nextTurn := (StateManager.incrementAutoMessageTurn guidE1 n (sm w)).1 in
  StateManager.getAutoMessageTurn guidE1 (sm w) = 1 /\
  timers roomE1Short <> [] /\
  0 <= nextTurn < n.
Proof.
  split; [vm_compute; reflexivity|].
  assert (Hne : timers roomE1Short <> []) by discriminate.
  split; [exact Hne|].
  exact (proj1 (cursor_in_range Sample.regexp false
                  (onlineWithE1 false ++ threeMessages)%list guidE1 roomE1Short Hne)).
Defined.

(** ** Non-existent entities *)



Lemma configureEntityProfanityFilter_sm e env w :
  sm (stateOf (WorkerService.configureEntityProfanityFilter e env) w) = sm w /\
  actionsOf (WorkerService.configureEntityProfanityFilter e env) w = [].
Proof.
  unfold WorkerService.configureEntityProfanityFilter, WorkerService.configureFailed,
    stateOf, actionsOf.
  destruct (profanityReply env) as [[pc|]|m]; cbn [fst snd]; try (split; reflexivity).
  - destruct (is_active pc); cbn [negb fst snd]; [|split; reflexivity].
    destruct (entityDataReply env) as [d|m]; cbn [fst snd]; [split; reflexivity|].
    destruct (negb (String.eqb m "") && Js.includes "404" m); split; reflexivity.
  - destruct (negb (String.eqb m "") && Js.includes "404" m); split; reflexivity.
Qed.







(** * Further properties of the modelled code *)

(** ** Strings *)

Lemma append_cons x (a b : string) : String x a +:+ b = String x (a +:+ b).
Proof. reflexivity. Qed.

Lemma append_nil_l (a : string) : "" +:+ a = a.
Proof. reflexivity. Qed.

Lemma append_assoc (a b c : string) : (a +:+ b) +:+ c = a +:+ (b +:+ c).
Proof.
  induction a as [|x a IH]; [reflexivity|]. rewrite !append_cons. f_equal. exact IH.
Qed.

Lemma append_nil_r (a : string) : a +:+ "" = a.
Proof. induction a as [|x a IH]; [reflexivity|]. rewrite append_cons. f_equal. exact IH. Qed.

Lemma length_append (a b : string) :
  String.length (a +:+ b) = (String.length a + String.length b)%nat.
Proof.
  induction a as [|x a IH]; [reflexivity|]. rewrite append_cons.
  cbn [String.length]. rewrite IH. reflexivity.
Qed.

Lemma allChars_append p a b :
  Validation.allChars p (a +:+ b) = Validation.allChars p a && Validation.allChars p b.
Proof.
  induction a as [|x a IH]; [reflexivity|]. rewrite append_cons.
  cbn [Validation.allChars]. rewrite IH. apply andb_assoc.
Qed.

Lemma allChars_impl (p q : ascii -> bool) s :
  (forall c, p c = true -> q c = true) ->
  Validation.allChars p s = true -> Validation.allChars q s = true.
Proof.
  intros Hpq. induction s as [|c s IH]; cbn; [reflexivity|].
  intros H. apply andb_true_iff in H as [H1 H2].
  rewrite (Hpq c H1), (IH H2). reflexivity.
Qed.

(** ** The id manager *)

Lemma takeHex_split n : forall s r,
  idManager.takeHex n s = Some r ->
  exists h, s = h +:+ r /\ String.length h = n /\ Validation.allChars idManager.isHex h = true.
Proof.
  induction n as [|n IH]; intros s r H; cbn in H.
  - injection H as <-. exists "". repeat split; reflexivity.
  - destruct s as [|c s]; [discriminate|].
    destruct (idManager.isHex c) eqn:Hc; [|discriminate].
    destruct (IH s r H) as (h & -> & Hl & Hh).
    exists (String c h). split; [reflexivity|]. split.
    + cbn [String.length]. rewrite Hl. reflexivity.
    + cbn [Validation.allChars]. rewrite Hc, Hh. reflexivity.
Qed.

Lemma takeHex_append n h r :
  String.length h = n ->
  Validation.allChars idManager.isHex h = true ->
  idManager.takeHex n (h +:+ r) = Some r.
Proof.
  intros <-. induction h as [|c h IH]; [reflexivity|].
  cbn [Validation.allChars String.length]. rewrite append_cons. cbn [idManager.takeHex].
  intros H. apply andb_true_iff in H as [-> H]. apply IH, H.
Qed.

Lemma takeDash_split s r : idManager.takeDash s = Some r -> s = "-" +:+ r.
Proof.
  unfold idManager.takeDash. destruct s as [|c s]; [discriminate|].
  destruct (Ascii.eqb c "-") eqn:E; [|discriminate].
  apply Ascii.eqb_eq in E. subst c. intros [= <-]. reflexivity.
Qed.

Lemma uuidAtHead_split s r :
  idManager.uuidAtHead s = Some r -> exists u, s = u +:+ r /\ uuidShape u.
Proof.
  unfold idManager.uuidAtHead. intros H.
  destruct (idManager.takeHex 8 s) as [s1|] eqn:E1; [|discriminate]. cbn [mbind option_bind] in H.
  destruct (idManager.takeDash s1) as [s2|] eqn:E2; [|discriminate]. cbn [mbind option_bind] in H.
  destruct (idManager.takeHex 4 s2) as [s3|] eqn:E3; [|discriminate]. cbn [mbind option_bind] in H.
  destruct (idManager.takeDash s3) as [s4|] eqn:E4; [|discriminate]. cbn [mbind option_bind] in H.
  destruct (idManager.takeHex 4 s4) as [s5|] eqn:E5; [|discriminate]. cbn [mbind option_bind] in H.
  destruct (idManager.takeDash s5) as [s6|] eqn:E6; [|discriminate]. cbn [mbind option_bind] in H.
  destruct (idManager.takeHex 4 s6) as [s7|] eqn:E7; [|discriminate]. cbn [mbind option_bind] in H.
  destruct (idManager.takeDash s7) as [s8|] eqn:E8; [|discriminate]. cbn [mbind option_bind] in H.
  apply takeHex_split in E1 as (h1 & -> & L1 & A1).
  apply takeDash_split in E2 as ->.
  apply takeHex_split in E3 as (h2 & -> & L2 & A2).
  apply takeDash_split in E4 as ->.
  apply takeHex_split in E5 as (h3 & -> & L3 & A3).
  apply takeDash_split in E6 as ->.
  apply takeHex_split in E7 as (h4 & -> & L4 & A4).
  apply takeDash_split in E8 as ->.
  apply takeHex_split in H as (h5 & -> & L5 & A5).
  exists (h1 +:+ "-" +:+ h2 +:+ "-" +:+ h3 +:+ "-" +:+ h4 +:+ "-" +:+ h5). split.
  - rewrite !append_assoc. reflexivity.
  - exists h1, h2, h3, h4, h5. repeat split; assumption.
Qed.

Lemma takeDash_dash r : idManager.takeDash ("-" +:+ r) = Some r.
Proof. reflexivity. Qed.

Lemma uuidShape_atHead u r : uuidShape u -> idManager.uuidAtHead (u +:+ r) = Some r.
Proof.
  intros (h1 & h2 & h3 & h4 & h5 & -> & L1 & L2 & L3 & L4 & L5 & A1 & A2 & A3 & A4 & A5).
  unfold idManager.uuidAtHead. rewrite !append_assoc.
  rewrite (takeHex_append 8 h1) by assumption. cbn [mbind option_bind].
  rewrite takeDash_dash. cbn [mbind option_bind].
  rewrite (takeHex_append 4 h2) by assumption. cbn [mbind option_bind].
  rewrite takeDash_dash. cbn [mbind option_bind].
  rewrite (takeHex_append 4 h3) by assumption. cbn [mbind option_bind].
  rewrite takeDash_dash. cbn [mbind option_bind].
  rewrite (takeHex_append 4 h4) by assumption. cbn [mbind option_bind].
  rewrite takeDash_dash. cbn [mbind option_bind].
  apply takeHex_append; assumption.
Qed.

Lemma uuidShape_length u : uuidShape u -> String.length u = 36%nat.
Proof.
  intros (h1 & h2 & h3 & h4 & h5 & -> & L1 & L2 & L3 & L4 & L5 & _).
  rewrite !length_append. cbn. lia.
Qed.

Lemma isUuid_shape u : idManager.isUuid u = true <-> uuidShape u.
Proof.
  unfold idManager.isUuid. split.
  - destruct (idManager.uuidAtHead u) as [[|? ?]|] eqn:E; try discriminate.
    intros _. apply uuidAtHead_split in E as (u' & -> & Hs).
    rewrite append_nil_r. exact Hs.
  - intros Hs. pose proof (uuidShape_atHead u "" Hs) as H.
    rewrite append_nil_r in H. rewrite H. reflexivity.
Qed.

Lemma take_append u r :
  idManager.take (String.length u) (u +:+ r) = u.
Proof.
  induction u as [|c u IH]; [destruct r; reflexivity|].
  rewrite append_cons. cbn [String.length idManager.take]. rewrite IH. reflexivity.
Qed.

Lemma take_uuid u r : uuidShape u -> idManager.take 36 (u +:+ r) = u.
Proof. intros Hs. rewrite <- (uuidShape_length u Hs). apply take_append. Qed.

Lemma lastUuid_skip : forall u k acc r,
  String.length u = k -> idManager.lastUuid k acc (u +:+ r) = idManager.lastUuid 0 acc r.
Proof.
  induction u as [|c u IH]; intros k acc r Hk; cbn [String.length] in Hk; subst k;
    [reflexivity|].
  rewrite append_cons. cbn [idManager.lastUuid]. apply IH. reflexivity.
Qed.

(** A match at the head becomes the last match seen. *)
Lemma lastUuid_at_uuid u acc r :
  uuidShape u ->
  idManager.lastUuid 0 acc (u +:+ r) = idManager.lastUuid 0 (Some u) r.
Proof.
  intros Hs. pose proof (uuidShape_length u Hs) as Hl.
  pose proof (uuidShape_atHead u r Hs) as Hh.
  destruct u as [|c u]; [discriminate|]. cbn [String.length] in Hl. injection Hl as Hl.
  rewrite append_cons in *. cbn [idManager.lastUuid]. rewrite Hh.
  rewrite <- (append_cons c u r), (take_uuid _ r Hs).
  apply lastUuid_skip. exact Hl.
Qed.

Lemma takeHex_nonHex n : forall s r m,
  (n <= m)%nat -> nonHexWithin n s = true -> idManager.takeHex m (s +:+ r) = None.
Proof.
  induction n as [|n IH]; intros s r m Hm H; [destruct s; discriminate|].
  destruct s as [|c s]; [discriminate|]. cbn [nonHexWithin] in H.
  destruct m as [|m]; [lia|]. rewrite append_cons. cbn [idManager.takeHex].
  destruct (idManager.isHex c); [|reflexivity]. cbn [negb orb] in H. apply IH; [lia|exact H].
Qed.

Lemma uuidAtHead_nonHex s r :
  nonHexWithin 8 s = true -> idManager.uuidAtHead (s +:+ r) = None.
Proof.
  intros H. unfold idManager.uuidAtHead.
  rewrite (takeHex_nonHex 8 s r 8) by (lia || exact H). reflexivity.
Qed.

Lemma lastUuid_skip_prefix p : forall acc r,
  noMatchStart p = true ->
  idManager.lastUuid 0 acc (p +:+ r) = idManager.lastUuid 0 acc r.
Proof.
  induction p as [|c p IH]; intros acc r H; [reflexivity|].
  cbn [noMatchStart] in H. apply andb_true_iff in H as [H1 H2].
  rewrite append_cons. cbn [idManager.lastUuid]. rewrite <- (append_cons c p r).
  rewrite (uuidAtHead_nonHex _ _ H1). apply IH, H2.
Qed.

Lemma lastUuid_result : forall s k acc u,
  idManager.lastUuid k acc s = Some u -> acc = Some u \/ uuidShape u.
Proof.
  induction s as [|c s IH]; intros k acc u H; cbn [idManager.lastUuid] in H; [left; exact H|].
  destruct k as [|k]; [|apply (IH _ _ _ H)].
  destruct (idManager.uuidAtHead (String c s)) as [r|] eqn:E.
  - apply uuidAtHead_split in E as (u' & Eq & Hs).
    rewrite Eq, (take_uuid u' r Hs) in H.
    apply IH in H as [[= <-]|H]; right; assumption.
  - apply (IH _ _ _ H).
Qed.

Lemma uuidShape_nonempty u : uuidShape u -> u <> "".
Proof. intros Hs ->. apply uuidShape_length in Hs. discriminate. Qed.

Lemma truthy_Some s : s <> "" -> Js.truthy (Some s) = Some s.
Proof.
  intros H. cbn. destruct (String.eqb_spec s ""); [contradiction|reflexivity].
Qed.

Lemma normalizeId_uuid u : uuidShape u -> idManager.normalizeId (Some u) = Some u.
Proof.
  intros Hs. unfold idManager.normalizeId.
  rewrite truthy_Some by (apply uuidShape_nonempty, Hs).
  rewrite (proj2 (isUuid_shape u) Hs). reflexivity.
Qed.

(** What [normalizeId] answers: nothing for a falsy id, otherwise a
    UUID that occurs in the id or, when there is none, the id itself. *)
Lemma normalizeId_cases id :
  (Js.truthy id = None /\ idManager.normalizeId id = None) \/
  (exists u, idManager.normalizeId id = Some u /\ uuidShape u) \/
  (exists s, Js.truthy id = Some s /\ idManager.normalizeId id = Some s /\
             idManager.isUuid s = false /\ idManager.lastUuid 0 None s = None).
Proof.
  unfold idManager.normalizeId.
  destruct (Js.truthy id) as [s|] eqn:Ht; [|left; split; reflexivity].
  right. destruct (idManager.isUuid s) eqn:Hu.
  - left. exists s. split; [reflexivity|]. apply isUuid_shape, Hu.
  - destruct (idManager.lastUuid 0 None s) as [u|] eqn:Hl.
    + left. exists u. split; [reflexivity|].
      apply lastUuid_result in Hl as [Hl|Hl]; [discriminate|exact Hl].
    + right. exists s. repeat split; try reflexivity; assumption.
Qed.

Lemma truthy_idem o : Js.truthy (Js.truthy o) = Js.truthy o.
Proof.
  destruct o as [s|]; [|reflexivity]. cbn.
  destruct (String.eqb s "") eqn:E; [reflexivity|]. cbn. rewrite E. reflexivity.
Qed.

(** X1.  [normalizeId] is idempotent: a normalised id is normalised to
    itself, and it is a UUID whenever the id holds one. *)
Theorem normalizeId_idempotent (id : option string) :
  idManager.normalizeId (idManager.normalizeId id) = idManager.normalizeId id /\
  (forall u, idManager.normalizeId id = Some u ->
             idManager.isUuid u = true \/ id = Some u).
Proof.
  destruct (normalizeId_cases id) as [[Ht Hn]|[(u & Hn & Hs)|(s & Ht & Hn & Hu & Hl)]].
  - rewrite Hn. split; [reflexivity|discriminate].
  - rewrite Hn. split; [apply normalizeId_uuid, Hs|].
    intros u' [= <-]. left. apply isUuid_shape, Hs.
  - rewrite Hn. split.
    + unfold idManager.normalizeId.
      assert (Hs : Js.truthy (Some s) = Some s) by (rewrite <- Ht; apply truthy_idem).
      rewrite Hs, Hu, Hl. reflexivity.
    + intros u [= <-]. right.
      destruct id as [s'|]; [|discriminate]. cbn in Ht.
      destruct (String.eqb s' ""); [discriminate|]. congruence.
Qed.

Lemma lastUuid_at_uuid_end u acc :
  uuidShape u -> idManager.lastUuid 0 acc u = Some u.
Proof.
  intros Hs. rewrite <- (append_nil_r u) at 1.
  rewrite lastUuid_at_uuid by exact Hs. reflexivity.
Qed.

Lemma normalizeId_club x g :
  idManager.lastUuid 0 None ("club-" +:+ x) = Some g ->
  idManager.normalizeId (Some ("club-" +:+ x)) = Some g.
Proof.
  intros H. unfold idManager.normalizeId.
  rewrite truthy_Some by discriminate.
  unfold idManager.isUuid. rewrite (uuidAtHead_nonHex "club-" x) by reflexivity.
  rewrite H. reflexivity.
Qed.

Ltac scan_jid :=
  repeat first [ rewrite lastUuid_skip_prefix by reflexivity
               | rewrite lastUuid_at_uuid by assumption
               | rewrite lastUuid_at_uuid_end by assumption ].

Lemma fromJid_mucLight e :
  uuidShape (guid e) ->
  (forall p, idManager.parentGuid e = Some p -> uuidShape p) ->
  idManager.fromJid (Some (idManager.toMucLightJidForEntity e xmppConfig)) = Some (guid e).
Proof.
  intros Hg Hp. unfold idManager.fromJid, idManager.toMucLightJidForEntity, idManager.entityGuid.
  cbn [mucDomain xmppConfig].
  assert (Hgen : idManager.normalizeId
                   (Some ("club-" +:+ guid e +:+ "-general@" +:+ "muclight.chat.faceit.com"))
                 = Some (guid e)).
  { apply normalizeId_club. scan_jid. reflexivity. }
  destruct (String.eqb (idManager.entityType e) "community"); [exact Hgen|].
  destruct (idManager.parentGuid e) as [p|] eqn:Ep; [|exact Hgen].
  destruct (_ || _); [|exact Hgen].
  specialize (Hp p eq_refl).
  apply normalizeId_club. scan_jid. reflexivity.
Qed.

Lemma fromJid_presenceGroup e :
  uuidShape (guid e) ->
  (forall p, idManager.parentGuid e = Some p -> uuidShape p) ->
  idManager.fromJid (Some (idManager.toSupergroupPresenceGroupForEntity e xmppConfig))
  = Some (guid e).
Proof.
  intros Hg Hp.
  unfold idManager.fromJid, idManager.toSupergroupPresenceGroupForEntity,
    idManager.toSupergroupBaseJidForEntity, idManager.entityGuid.
  cbn [supergroupDomain xmppConfig].
  destruct (String.eqb (idManager.entityType e) "community").
  - rewrite !append_assoc. apply normalizeId_club. scan_jid. reflexivity.
  - destruct (idManager.parentGuid e) as [p|] eqn:Ep.
    + specialize (Hp p eq_refl). rewrite !append_assoc.
      apply normalizeId_club. scan_jid. reflexivity.
    + rewrite !append_assoc. apply normalizeId_club. scan_jid. reflexivity.
Qed.

Lemma addressee_to name attrs1 to attrs2 children :
  Xml.assoc "to" attrs1 = None -> to <> "" ->
  addressee (Elem name (attrs1 ++ ("to", to) :: attrs2)%list children)
  = idManager.fromJid (Some to).
Proof.
  intros H1 Hne. unfold addressee. cbn [Xml.attr].
  assert (Ha : Xml.assoc "to" (attrs1 ++ ("to", to) :: attrs2)%list = Some to).
  { induction attrs1 as [|[k v] l IH]; [reflexivity|].
    cbn [Xml.assoc app] in *. destruct (String.eqb "to" k); [discriminate|]. apply IH, H1. }
  rewrite Ha, truthy_Some by exact Hne. reflexivity.
Qed.

Lemma mucLightJid_nonempty e cfg : idManager.toMucLightJidForEntity e cfg <> "".
Proof.
  unfold idManager.toMucLightJidForEntity.
  destruct (String.eqb _ _); [discriminate|].
  destruct (idManager.parentGuid e); [|discriminate].
  destruct (_ || _); discriminate.
Qed.

Lemma presenceGroup_nonempty e cfg : idManager.toSupergroupPresenceGroupForEntity e cfg <> "".
Proof.
  unfold idManager.toSupergroupPresenceGroupForEntity, idManager.toSupergroupBaseJidForEntity.
  destruct (String.eqb _ _); discriminate.
Qed.

(** X2.  Round trip between the JID builders and [fromJid]: for an
    entity whose guid (and parent guid, when it has one) is a UUID, the
    MUC-Light room JID and the supergroup presence group both resolve to
    the entity's guid, so the outgoing queue reads the entity itself off
    every message, join and leave stanza built for it. *)
Theorem jid_round_trip (e : Entity) :
  idManager.isUuid (guid e) = true ->
  (forall p, idManager.parentGuid e = Some p -> idManager.isUuid p = true) ->
  idManager.fromJid (Some (idManager.toMucLightJidForEntity e xmppConfig)) = Some (guid e) /\
  idManager.fromJid (Some (idManager.toSupergroupPresenceGroupForEntity e xmppConfig))
  = Some (guid e) /\
  (forall m u, addressee (xmppActions.sendMessage (inl e) m u) = Some (guid e)) /\
  (forall m u, addressee (xmppActions.sendMessage (inr (guid e)) m u) = Some (guid e)) /\
  addressee (xmppActions.joinRoomEntity e) = Some (guid e) /\
  addressee (xmppActions.leaveRoomSimpleEntity e) = Some (guid e).
Proof.
  intros Hg Hp. apply isUuid_shape in Hg.
  assert (Hp' : forall p, idManager.parentGuid e = Some p -> uuidShape p)
    by (intros p Hpe; apply isUuid_shape, Hp, Hpe).
  pose proof (fromJid_mucLight e Hg Hp') as Hm.
  pose proof (fromJid_presenceGroup e Hg Hp') as Hs.
  split; [exact Hm|]. split; [exact Hs|]. split; [|split; [|split]].
  - intros m u. unfold xmppActions.sendMessage. etransitivity; [|exact Hm].
    apply (addressee_to "message" [("xmlns", "jabber:client")] _ [("type", "groupchat")]);
      [reflexivity | apply mucLightJid_nonempty].
  - intros m u. unfold xmppActions.sendMessage.
    etransitivity;
      [apply (addressee_to "message" [("xmlns", "jabber:client")] _ [("type", "groupchat")]);
         [reflexivity | apply mucLightJid_nonempty]|].
    apply (fromJid_mucLight (bareCommunity (guid e))); [exact Hg|].
    intros p Hpe. discriminate.
  - unfold xmppActions.joinRoomEntity. etransitivity; [|exact Hm].
    apply (addressee_to "iq" [("xmlns", "jabber:client"); ("type", "get")] _ []);
      [reflexivity | apply mucLightJid_nonempty].
  - unfold xmppActions.leaveRoomSimpleEntity. etransitivity; [|exact Hs].
    apply (addressee_to "iq" [("xmlns", "jabber:client"); ("type", "set")] _ []);
      [reflexivity | apply presenceGroup_nonempty].
Qed.

Lemma jid_round_trip_witness :
  idManager.fromJid (Some (idManager.toMucLightJidForEntity (roomE1 false) xmppConfig))
  = Some guidE1.
Proof.
  apply (jid_round_trip (roomE1 false)).
  - vm_compute. reflexivity.
  - intros p Hp. vm_compute in Hp. discriminate.
Defined.

(** ** Validation of guids and webhook urls *)

Lemma isHex_simple c : idManager.isHex c = true -> Guid.isSimpleIdChar c = true.
Proof.
  destruct c as [[] [] [] [] [] [] [] []]; vm_compute; intros H;
    first [reflexivity | discriminate H].
Qed.

Lemma uuidShape_simple u : uuidShape u -> Validation.allChars Guid.isSimpleIdChar u = true.
Proof.
  intros (h1 & h2 & h3 & h4 & h5 & -> & _ & _ & _ & _ & _ & H1 & H2 & H3 & H4 & H5).
  rewrite !allChars_append.
  rewrite (allChars_impl _ _ _ isHex_simple H1), (allChars_impl _ _ _ isHex_simple H2),
    (allChars_impl _ _ _ isHex_simple H3), (allChars_impl _ _ _ isHex_simple H4),
    (allChars_impl _ _ _ isHex_simple H5).
  reflexivity.
Qed.

(** X3. [isValidGuid] accepts exactly the strings of 1 to 50 characters
    from [[a-zA-Z0-9_-]]: every string the UUID pattern accepts is one
    of them, so the first alternative adds nothing, and a string of
    more than 50 characters is never a valid guid. *)
Theorem isValidGuid_simple (id : string) :
  Guid.isValidGuid id = Guid.isSimpleId id /\
  (idManager.isUuid id = true -> Guid.isValidGuid id = true) /\
  ((50 < String.length id)%nat -> Guid.isValidGuid id = false).
Proof.
  assert (Huuid : idManager.isUuid id = true -> Guid.isSimpleId id = true).
  { intros H. apply isUuid_shape in H.
    unfold Guid.isSimpleId. rewrite (uuidShape_length _ H), (uuidShape_simple _ H).
    reflexivity. }
  assert (Heq : Guid.isValidGuid id = Guid.isSimpleId id).
  { unfold Guid.isValidGuid, Validation.isValidString.
    destruct ((1 <=? String.length id)%nat && (String.length id <=? 1000)%nat) eqn:Hv;
      cbn [negb].
    - destruct (idManager.isUuid id) eqn:Hu; [|reflexivity].
      rewrite (Huuid eq_refl). reflexivity.
    - unfold Guid.isSimpleId.
      destruct (1 <=? String.length id)%nat eqn:H1; [|reflexivity].
      destruct (String.length id <=? 50)%nat eqn:H2; [|reflexivity].
      apply Nat.leb_le in H2. cbn [andb] in Hv. apply Nat.leb_gt in Hv. lia. }
  split; [exact Heq|]. split.
  - intros H. rewrite Heq. exact (Huuid H).
  - intros H. rewrite Heq. unfold Guid.isSimpleId.
    destruct (String.length id <=? 50)%nat eqn:H2.
    + apply Nat.leb_le in H2. lia.
    + rewrite andb_false_r. reflexivity.
Qed.

Lemma substring_full s : String.substring 0 (String.length s) s = s.
Proof. induction s as [|c s IH]; [reflexivity|]. cbn. rewrite IH. reflexivity. Qed.

Lemma stripPrefix_spec p : forall s r,
  WebhookUrl.stripPrefix p s = Some r <-> s = p +:+ r.
Proof.
  unfold WebhookUrl.stripPrefix.
  induction p as [|c p IH]; intros s r.
  - assert (Hp : String.prefix "" s = true) by (destruct s; reflexivity).
    rewrite Hp. cbn [String.length]. rewrite Nat.sub_0_r, substring_full, append_nil_l.
    split; [intros [= <-]; reflexivity | intros ->; reflexivity].
  - destruct s as [|c' s]; cbn [String.prefix].
    + split; [discriminate|]. rewrite append_cons. discriminate.
    + rewrite append_cons. destruct (ascii_dec c c') as [<-|Hne].
      * cbn [String.length String.substring Nat.sub]. rewrite IH.
        split; [intros ->; reflexivity | intros [= ->]; reflexivity].
      * split; [discriminate|]. intros [= <- _]. contradiction.
Qed.

Lemma stripPrefix_append p r : WebhookUrl.stripPrefix p (p +:+ r) = Some r.
Proof. apply stripPrefix_spec. reflexivity. Qed.

Lemma dropDigits_split s :
  exists ds, s = ds +:+ WebhookUrl.dropDigits s /\
             Validation.allChars WebhookUrl.isDigit ds = true.
Proof.
  induction s as [|c s (ds & IH1 & IH2)].
  - exists "". split; reflexivity.
  - cbn [WebhookUrl.dropDigits]. destruct (WebhookUrl.isDigit c) eqn:Hc.
    + exists (String c ds). rewrite append_cons, <- IH1. split; [reflexivity|].
      cbn [Validation.allChars]. rewrite Hc, IH2. reflexivity.
    + exists "". split; reflexivity.
Qed.

Lemma dropDigits_append ds r :
  Validation.allChars WebhookUrl.isDigit ds = true ->
  WebhookUrl.dropDigits (ds +:+ "/" +:+ r) = "/" +:+ r.
Proof.
  induction ds as [|c ds IH]; [reflexivity|].
  cbn [Validation.allChars]. intros H. apply andb_true_iff in H as [Hc Hds].
  rewrite append_cons. cbn [WebhookUrl.dropDigits]. rewrite Hc. exact (IH Hds).
Qed.

(** X4. [isValidDiscordWebhookUrl] accepts exactly the urls of at most
    1000 characters that read [https://], then [discord.com] or
    [discordapp.com], then [/api/webhooks/], a non-empty run of digits,
    a slash and a non-empty token of word characters and dashes. *)
Theorem isValidDiscordWebhookUrl_spec (u : string) :
  WebhookUrl.isValidDiscordWebhookUrl u = true <->
  (String.length u <= 1000)%nat /\
  exists host id token,
    (host = "discord.com" \/ host = "discordapp.com") /\
    id <> "" /\ Validation.allChars WebhookUrl.isDigit id = true /\
    token <> "" /\ Validation.allChars WebhookUrl.isTokenChar token = true /\
    u = "https://" +:+ host +:+ "/api/webhooks/" +:+ id +:+ "/" +:+ token.
Proof.
  unfold WebhookUrl.isValidDiscordWebhookUrl, Validation.isValidString. split.
  - intros H. apply andb_true_iff in H as [Hlen H].
    apply andb_true_iff in Hlen as [_ Hlen]. apply Nat.leb_le in Hlen.
    split; [exact Hlen|].
    destruct (WebhookUrl.stripPrefix "https://discord" u) as [r0|] eqn:H0; [|discriminate].
    apply stripPrefix_spec in H0.
    assert (Hhost : exists host r1,
               (host = "discord.com" \/ host = "discordapp.com") /\
               u = "https://" +:+ host +:+ "/api/webhooks/" +:+ r1 /\
               WebhookUrl.stripPrefix ".com/api/webhooks/"
                 (default r0 (WebhookUrl.stripPrefix "app" r0)) = Some r1 \/
               WebhookUrl.stripPrefix ".com/api/webhooks/"
                 (default r0 (WebhookUrl.stripPrefix "app" r0)) = None).
    { destruct (WebhookUrl.stripPrefix ".com/api/webhooks/"
                  (default r0 (WebhookUrl.stripPrefix "app" r0))) as [r2|] eqn:H2.
      - apply stripPrefix_spec in H2.
        destruct (WebhookUrl.stripPrefix "app" r0) as [r1|] eqn:H1;
          unfold default, from_option, id in H2.
        + apply stripPrefix_spec in H1. rewrite H0, H1, H2.
          exists "discordapp.com", r2. left. split; [right; reflexivity | split; reflexivity].
        + rewrite H0, H2.
          exists "discord.com", r2. left. split; [left; reflexivity | split; reflexivity].
      - exists "", "". right. reflexivity. }
    destruct Hhost as (host & r2 & [(Hh & Hu & H2)|H2]); rewrite H2 in H; [|discriminate].
    destruct r2 as [|d r2']; [discriminate|].
    apply andb_true_iff in H as [Hd H].
    destruct (WebhookUrl.stripPrefix "/" (WebhookUrl.dropDigits (String d r2')))
      as [tok|] eqn:H3; [|discriminate].
    apply stripPrefix_spec in H3. apply andb_true_iff in H as [Hne Htok].
    destruct (dropDigits_split (String d r2')) as (ds & Hsplit & Hds).
    exists host, ds, tok. split; [exact Hh|]. split.
    { intros ->. rewrite append_nil_l in Hsplit. rewrite H3 in Hsplit.
      injection Hsplit as -> _. discriminate Hd. }
    split; [exact Hds|]. split.
    { intros ->. discriminate Hne. }
    split; [exact Htok|].
    rewrite Hu, Hsplit, H3. reflexivity.
  - intros (Hlen & host & id & tok & Hh & Hid & Hds & Htok & Htc & ->).
    apply andb_true_iff. split.
    { apply andb_true_iff. split; [|apply Nat.leb_le; exact Hlen].
      destruct Hh as [-> | ->]; reflexivity. }
    assert (Htail : match id +:+ "/" +:+ tok with
                    | String d _ =>
                        WebhookUrl.isDigit d &&
                        match WebhookUrl.stripPrefix "/"
                                (WebhookUrl.dropDigits (id +:+ "/" +:+ tok)) with
                        | Some tok => negb (String.eqb tok "") &&
                                      Validation.allChars WebhookUrl.isTokenChar tok
                        | None => false
                        end
                    | EmptyString => false
                    end = true).
    { rewrite (dropDigits_append _ _ Hds), stripPrefix_append.
      destruct id as [|d id']; [contradiction|]. rewrite append_cons.
      cbn [Validation.allChars] in Hds. apply andb_true_iff in Hds as [Hd _].
      rewrite Hd, Htc. destruct tok; [contradiction|]. reflexivity. }
    destruct Hh as [-> | ->].
    + change ("https://" +:+ "discord.com" +:+ "/api/webhooks/" +:+ id +:+ "/" +:+ tok)
        with ("https://discord" +:+ ".com/api/webhooks/" +:+ id +:+ "/" +:+ tok).
      rewrite stripPrefix_append.
      change (WebhookUrl.stripPrefix "app" (".com/api/webhooks/" +:+ id +:+ "/" +:+ tok))
        with (@None string).
      unfold default; cbn [from_option].
      match goal with
      | |- context [WebhookUrl.stripPrefix ?a ?b] =>
          change b with (a +:+ id +:+ "/" +:+ tok);
          rewrite (stripPrefix_append a (id +:+ "/" +:+ tok))
      end.
      exact Htail.
    + change ("https://" +:+ "discordapp.com" +:+ "/api/webhooks/" +:+ id +:+ "/" +:+ tok)
        with ("https://discord" +:+ "app" +:+ ".com/api/webhooks/" +:+ id +:+ "/" +:+ tok).
      rewrite !stripPrefix_append. unfold default; cbn [from_option].
      match goal with
      | |- context [WebhookUrl.stripPrefix ?a ?b] =>
          change b with (a +:+ id +:+ "/" +:+ tok);
          rewrite (stripPrefix_append a (id +:+ "/" +:+ tok))
      end.
      exact Htail.
Qed.

(** ** Word lists: sanitising and combining *)

Lemma lowerChar_idem c : Js.lowerChar (Js.lowerChar c) = Js.lowerChar c.
Proof. destruct c as [[] [] [] [] [] [] [] []]; vm_compute; reflexivity. Qed.

Lemma toLowerCase_idem s : Js.toLowerCase (Js.toLowerCase s) = Js.toLowerCase s.
Proof.
  induction s as [|c s IH]; [reflexivity|].
  cbn [Js.toLowerCase]. rewrite lowerChar_idem, IH. reflexivity.
Qed.

Lemma toLowerCase_nonempty s : s <> "" -> Js.toLowerCase s <> "".
Proof. destruct s; [contradiction|discriminate]. Qed.

Lemma length_pos_nonempty s : (0 <? String.length s)%nat = true <-> s <> "".
Proof.
  destruct s; cbn; split; try discriminate; try contradiction; reflexivity.
Qed.

Lemma safeChar_includes c p' s :
  Validation.isSafeWordChar c = false ->
  Validation.allChars Validation.isSafeWordChar s = true ->
  Js.includes (String c p') s = false.
Proof.
  intros Hc. induction s as [|x s IH]; [reflexivity|].
  cbn [Validation.allChars Js.includes String.prefix].
  intros H. apply andb_true_iff in H as [Hx Hs].
  destruct (ascii_dec c x) as [->|_]; [congruence|].
  rewrite (IH Hs). reflexivity.
Qed.

Lemma safeChar_unbounded s :
  Validation.allChars Validation.isSafeWordChar s = true ->
  BannedWordsManager.anySuffix BannedWordsManager.unboundedAtHead s = false.
Proof.
  induction s as [|x s IH]; [reflexivity|].
  cbn [Validation.allChars BannedWordsManager.anySuffix]. intros H.
  apply andb_true_iff in H as [Hx Hs]. rewrite (IH Hs), orb_false_r.
  unfold BannedWordsManager.unboundedAtHead. destruct s as [|d rest]; [reflexivity|].
  destruct (Ascii.eqb x "{") eqn:E; [|reflexivity].
  apply Ascii.eqb_eq in E. subst x. discriminate Hx.
Qed.

Lemma safe_not_dangerous w :
  Validation.allChars Validation.isSafeWordChar w = true ->
  BannedWordsManager.containsDangerousRegexPatterns w = false.
Proof.
  intros H. unfold BannedWordsManager.containsDangerousRegexPatterns.
  cbn [existsb].
  rewrite !(safeChar_includes "(") by (reflexivity || exact H).
  rewrite (safeChar_includes "+"), (safeChar_includes "*") by (reflexivity || exact H).
  rewrite (safeChar_unbounded _ H).
  change ("(." +:+ "*" +:+ ")") with (String "(" (String "." (String "*" ")"))).
  rewrite (safeChar_includes "(") by (reflexivity || exact H).
  reflexivity.
Qed.

Lemma isAcceptedWord_safe w :
  BannedWordsManager.isAcceptedWord w = Validation.isSafeWordString w.
Proof.
  unfold BannedWordsManager.isAcceptedWord.
  destruct (Validation.isSafeWordString w) eqn:Hs; cbn [negb]; [|reflexivity].
  unfold Validation.isSafeWordString in Hs.
  destruct (negb (Validation.isValidString w 1 100)); [discriminate|].
  apply andb_true_iff in Hs as [_ Hs]. rewrite (safe_not_dangerous _ Hs). reflexivity.
Qed.

Lemma filter_ext_eq {A} (f g : A -> bool) l :
  (forall x, f x = g x) -> List.filter f l = List.filter g l.
Proof. intros H. induction l as [|x l IH]; cbn; [reflexivity|]. rewrite H, IH. reflexivity. Qed.

Lemma filter_idem {A} (f : A -> bool) l : List.filter f (List.filter f l) = List.filter f l.
Proof.
  induction l as [|x l IH]; cbn; [reflexivity|].
  destruct (f x) eqn:E; cbn; [rewrite E, IH; reflexivity | exact IH].
Qed.

Lemma filter_length_le {A} (f : A -> bool) l :
  (List.length (List.filter f l) <= List.length l)%nat.
Proof. induction l as [|x l IH]; cbn; [lia|]. destruct (f x); cbn; lia. Qed.

(** X5. [validateAndSanitizeWords] keeps, in order, exactly the words of
    1 to 100 characters from the safe character class, and nothing at
    all of a list of more than 1000 words.  The screen for dangerous
    patterns rejects no word that the character class accepts, and
    sanitising twice is sanitising once. *)
Theorem validateAndSanitizeWords_spec (words : list string) :
  (forall w, BannedWordsManager.isAcceptedWord w = Validation.isSafeWordString w) /\
  BannedWordsManager.validateAndSanitizeWords words =
    (if (List.length words <=? 1000)%nat
     then List.filter Validation.isSafeWordString words else []) /\
  BannedWordsManager.validateAndSanitizeWords
    (BannedWordsManager.validateAndSanitizeWords words) =
  BannedWordsManager.validateAndSanitizeWords words.
Proof.
  assert (Heq : forall ws, BannedWordsManager.validateAndSanitizeWords ws =
      (if (List.length ws <=? 1000)%nat
       then List.filter Validation.isSafeWordString ws else [])).
  { intros ws.
    unfold BannedWordsManager.validateAndSanitizeWords, Validation.sanitizeStringArray,
      Validation.isValidArray.
    cbn [Nat.leb andb].
    destruct (List.length ws <=? 1000)%nat; cbn [negb]; [|reflexivity].
    apply filter_ext_eq, isAcceptedWord_safe. }
  split; [exact isAcceptedWord_safe|]. split; [apply Heq|].
  rewrite !Heq. destruct (List.length words <=? 1000)%nat eqn:Hl; [|reflexivity].
  apply Nat.leb_le in Hl.
  pose proof (filter_length_le Validation.isSafeWordString words) as Hf.
  destruct (List.length (List.filter Validation.isSafeWordString words) <=? 1000)%nat eqn:Hl2.
  - apply filter_idem.
  - apply Nat.leb_gt in Hl2. lia.
Qed.

Lemma setAdd_elem x acc w :
  w ∈ SmartWordFilter.setAdd x acc <-> w ∈ acc \/ w = x.
Proof.
  unfold SmartWordFilter.setAdd. case_bool_decide as Hx.
  - split; [intros H; left; exact H|]. intros [H| ->]; [exact H|exact Hx].
  - rewrite elem_of_app, list_elem_of_singleton. reflexivity.
Qed.

Lemma setAdd_NoDup x acc : NoDup acc -> NoDup (SmartWordFilter.setAdd x acc).
Proof.
  intros H. unfold SmartWordFilter.setAdd. case_bool_decide as Hx; [exact H|].
  apply NoDup_app. split; [exact H|]. split.
  - intros y Hy Hy'. apply list_elem_of_singleton in Hy'. subst. contradiction.
  - apply NoDup_singleton.
Qed.

Lemma addWords_elem ws : forall acc w,
  w ∈ SmartWordFilter.addWords ws acc <->
  w ∈ acc \/ exists x, x ∈ ws /\ x <> "" /\ Js.toLowerCase x = w.
Proof.
  unfold SmartWordFilter.addWords.
  induction ws as [|y ws IH]; intros acc w; cbn [fold_left].
  - split; [intros H; left; exact H|].
    intros [H|(x & Hx & _)]; [exact H|]. apply elem_of_nil in Hx. contradiction.
  - rewrite IH. destruct (0 <? String.length y)%nat eqn:Hy.
    + apply length_pos_nonempty in Hy. rewrite setAdd_elem. split.
      * intros [[H|H]|(x & Hx & Hne & Hl)].
        -- left; exact H.
        -- right. exists y. split; [apply list_elem_of_here|]. split; [exact Hy|].
           symmetry; exact H.
        -- right. exists x. split; [apply list_elem_of_further; exact Hx|]. split; assumption.
      * intros [H|(x & Hx & Hne & Hl)]; [left; left; exact H|].
        apply elem_of_cons in Hx as [->|Hx].
        -- left; right. symmetry; exact Hl.
        -- right. exists x. repeat split; assumption.
    + assert (Hy' : y = "") by (destruct y; [reflexivity|discriminate Hy]).
      split.
      * intros [H|(x & Hx & Hne & Hl)]; [left; exact H|].
        right. exists x. split; [apply list_elem_of_further; exact Hx|]. split; assumption.
      * intros [H|(x & Hx & Hne & Hl)]; [left; exact H|].
        apply elem_of_cons in Hx as [->|Hx]; [contradiction|].
        right. exists x. repeat split; assumption.
Qed.

Lemma addWords_NoDup ws : forall acc, NoDup acc -> NoDup (SmartWordFilter.addWords ws acc).
Proof.
  unfold SmartWordFilter.addWords.
  induction ws as [|y ws IH]; intros acc H; cbn [fold_left]; [exact H|].
  apply IH. destruct (0 <? String.length y)%nat; [apply setAdd_NoDup|]; exact H.
Qed.

(** X6. [combineWordLists] returns, without duplicates, exactly the
    lower-cased forms of the non-empty preset and custom words; every
    word of the result is non-empty and in lower case. *)
Theorem combineWordLists_spec (presetWords customWords : list string) :
  let combined := SmartWordFilter.combineWordLists presetWords customWords in
  NoDup combined /\
  (forall w, w ∈ combined <->
     exists x, (x ∈ presetWords \/ x ∈ customWords) /\ x <> "" /\ Js.toLowerCase x = w) /\
  (forall w, w ∈ combined -> w <> "" /\ Js.toLowerCase w = w).
Proof.
  cbn zeta. unfold SmartWordFilter.combineWordLists.
  assert (Hel : forall w,
    w ∈ SmartWordFilter.addWords customWords (SmartWordFilter.addWords presetWords []) <->
    exists x, (x ∈ presetWords \/ x ∈ customWords) /\ x <> "" /\ Js.toLowerCase x = w).
  { intros w. rewrite !addWords_elem. split.
    - intros [[H|(x & Hx & Hne & Hl)]|(x & Hx & Hne & Hl)].
      + apply elem_of_nil in H. contradiction.
      + exists x. split; [left; exact Hx|]. split; assumption.
      + exists x. split; [right; exact Hx|]. split; assumption.
    - intros (x & [Hx|Hx] & Hne & Hl).
      + left; right. exists x. repeat split; assumption.
      + right. exists x. repeat split; assumption. }
  split; [apply addWords_NoDup, addWords_NoDup, NoDup_nil_2|].
  split; [exact Hel|].
  intros w Hw. apply Hel in Hw as (x & _ & Hne & <-).
  split; [apply toLowerCase_nonempty, Hne|apply toLowerCase_idem].
Qed.

(** ** The filter and its map of compiled patterns *)

Lemma prefix_append p r : String.prefix p (p +:+ r) = true.
Proof.
  induction p as [|c p IH]; [destruct r; reflexivity|].
  rewrite append_cons. cbn [String.prefix].
  destruct (ascii_dec c c); [exact IH|contradiction].
Qed.

Lemma append_inj_l p a b : p +:+ a = p +:+ b -> a = b.
Proof.
  induction p as [|c p IH]; [rewrite !append_nil_l; trivial|].
  rewrite !append_cons. intros [= H]. exact (IH H).
Qed.

Lemma toLowerCase_append a b :
  Js.toLowerCase (a +:+ b) = Js.toLowerCase a +:+ Js.toLowerCase b.
Proof.
  induction a as [|c a IH]; [reflexivity|].
  rewrite append_cons. cbn [Js.toLowerCase]. rewrite IH, append_cons. reflexivity.
Qed.

Lemma cacheOk_empty re : cacheOk re ∅.
Proof. intros k v H. rewrite lookup_empty in H. discriminate H. Qed.

Lemma cacheOk_insert_pattern re c w :
  cacheOk re c ->
  String.prefix "evasion_" w = false ->
  compiles re (SmartWordFilter.boundarySource w) = true ->
  cacheOk re (<[w := Pattern (SmartWordFilter.boundarySource w)]> c).
Proof.
  intros Hc Hw Hp k v Hk. destruct (decide (k = w)) as [->|Hne].
  - rewrite lookup_insert_eq in Hk. injection Hk as <-. left. repeat split; assumption.
  - rewrite lookup_insert_ne in Hk by congruence. exact (Hc k v Hk).
Qed.

Lemma cacheOk_insert_patterns re c w :
  cacheOk re c ->
  cacheOk re
    (<["evasion_" +:+ w := Patterns (SmartWordFilter.createEvasionPatterns re w)]> c).
Proof.
  intros Hc k v Hk. destruct (decide (k = "evasion_" +:+ w)) as [->|Hne].
  - rewrite lookup_insert_eq in Hk. injection Hk as <-. right. exists w. split; reflexivity.
  - rewrite lookup_insert_ne in Hk by congruence. exact (Hc k v Hk).
Qed.

Section Transparency.

Variable re : RegExpEngine.

Lemma existsb_compiled m ps :
  existsb (fun p => test re p m) (List.filter (compiles re) ps) =
  existsb (fun p => WithoutMap.testPattern re p m) ps.
Proof.
  induction ps as [|p ps IH]; [reflexivity|].
  cbn [List.filter existsb]. unfold WithoutMap.testPattern at 1.
  destruct (compiles re p); cbn [existsb andb orb]; rewrite IH; reflexivity.
Qed.

Lemma hasWordBoundaryMatch_cached m w c :
  cacheOk re c ->
  String.prefix "evasion_" w = false ->
  exists c',
    SmartWordFilter.hasWordBoundaryMatch re m w c =
      (Value (WithoutMap.hasWordBoundaryMatch re m w), c') /\
    cacheOk re c'.
Proof.
  intros Hc Hw.
  unfold SmartWordFilter.hasWordBoundaryMatch, WithoutMap.hasWordBoundaryMatch,
    WithoutMap.testPattern.
  destruct (c !! w) as [v|] eqn:Hl.
  - destruct (Hc w v Hl) as [(_ & -> & Hp)|(w' & -> & _)].
    + rewrite Hp. exists c. split; [reflexivity|exact Hc].
    + rewrite prefix_append in Hw. discriminate Hw.
  - cbv zeta. destruct (compiles re (SmartWordFilter.boundarySource w)) eqn:Hp.
    + eexists. split; [reflexivity|]. apply cacheOk_insert_pattern; assumption.
    + exists c. split; [reflexivity|exact Hc].
Qed.

Lemma hasEvasionPattern_cached m w c :
  cacheOk re c ->
  exists c',
    SmartWordFilter.hasEvasionPattern re m w c =
      (Value (WithoutMap.hasEvasionPattern re m w), c') /\
    cacheOk re c'.
Proof.
  intros Hc.
  unfold SmartWordFilter.hasEvasionPattern, WithoutMap.hasEvasionPattern.
  rewrite <- existsb_compiled. cbv zeta.
  destruct (c !! ("evasion_" +:+ w)) as [v|] eqn:Hl.
  - destruct (Hc _ v Hl) as [(Hp & _)|(w' & Hk & ->)].
    + rewrite prefix_append in Hp. discriminate Hp.
    + apply append_inj_l in Hk. subst w'. exists c. split; [reflexivity|exact Hc].
  - eexists. split; [reflexivity|]. apply cacheOk_insert_patterns. exact Hc.
Qed.

Lemma isWordPresent_cached m w c :
  cacheOk re c ->
  String.prefix "evasion_" w = false ->
  exists c',
    SmartWordFilter.isWordPresent re m w c =
      (Value (WithoutMap.isWordPresent re m w), c') /\
    cacheOk re c'.
Proof.
  intros Hc Hw. unfold SmartWordFilter.isWordPresent, WithoutMap.isWordPresent.
  destruct (hasWordBoundaryMatch_cached m w c Hc Hw) as (c1 & -> & Hc1).
  destruct (WithoutMap.hasWordBoundaryMatch re m w).
  - exists c1. split; [reflexivity|exact Hc1].
  - destruct (hasEvasionPattern_cached m w c1 Hc1) as (c2 & -> & Hc2).
    exists c2. split; [|exact Hc2].
    destruct (WithoutMap.hasEvasionPattern re m w); reflexivity.
Qed.

Lemma scan_cached m words : forall c,
  cacheOk re c ->
  Forall (fun w => String.prefix "evasion_" (Js.toLowerCase w) = false) words ->
  exists c',
    SmartWordFilter.scan re m words c =
      (Value (existsb
                (fun bannedWord =>
                   Validation.isValidString bannedWord 1 1000 &&
                   WithoutMap.isWordPresent re m (Js.toLowerCase bannedWord))
                words), c') /\
    cacheOk re c'.
Proof.
  induction words as [|w words IH]; intros c Hc Hws; cbn [SmartWordFilter.scan existsb].
  - exists c. split; [reflexivity|exact Hc].
  - apply Forall_cons in Hws as [Hw Hws].
    destruct (Validation.isValidString w 1 1000); cbn [negb andb orb].
    + destruct (isWordPresent_cached m (Js.toLowerCase w) c Hc Hw) as (c1 & -> & Hc1).
      destruct (WithoutMap.isWordPresent re m (Js.toLowerCase w)); cbn [orb].
      * exists c1. split; [reflexivity|exact Hc1].
      * exact (IH c1 Hc1 Hws).
    + exact (IH c Hc Hws).
Qed.

Lemma checkBannedWords_cached message bannedWords c :
  cacheOk re c ->
  Forall (fun w => String.prefix "evasion_" (Js.toLowerCase w) = false) bannedWords ->
  exists c',
    SmartWordFilter.checkBannedWords re message bannedWords c =
      (Value (WithoutMap.checkBannedWords re message bannedWords), c') /\
    cacheOk re c'.
Proof.
  intros Hc Hws.
  unfold SmartWordFilter.checkBannedWords, WithoutMap.checkBannedWords.
  destruct (negb (Validation.isValidString message 1 1000)).
  { exists c. split; [reflexivity|exact Hc]. }
  destruct (negb (Validation.isValidArray bannedWords 1 1000)).
  { exists c. split; [reflexivity|exact Hc]. }
  apply scan_cached; assumption.
Qed.

End Transparency.

(** X7. The map of compiled patterns never changes an answer of the
    filter as long as no banned word, in lower case, starts with
    [evasion_]: from a map the filter has filled itself (or has just
    cleared) [checkBannedWords] throws nothing, answers as a filter
    that keeps no map would, and leaves such a map behind. *)
Theorem compiled_patterns_transparent (re : RegExpEngine)
    (message : string) (bannedWords : list string) (c : gmap string Compiled) :
  cacheOk re c ->
  Forall (fun w => String.prefix "evasion_" (Js.toLowerCase w) = false) bannedWords ->
  cacheOk re (SmartWordFilter.clearCompiledPatterns c) /\
  exists c',
    SmartWordFilter.checkBannedWords re message bannedWords c =
      (Value (WithoutMap.checkBannedWords re message bannedWords), c') /\
    cacheOk re c'.
Proof.
  intros Hc Hws. split; [apply cacheOk_empty|].
  apply checkBannedWords_cached; assumption.
Qed.

Lemma compiled_patterns_transparent_witness :
  cacheOk Sample.regexp (SmartWordFilter.clearCompiledPatterns ∅) /\
  exists c',
    SmartWordFilter.checkBannedWords Sample.regexp "a badword" ["badword"] ∅ =
      (Value (WithoutMap.checkBannedWords Sample.regexp "a badword" ["badword"]), c') /\
    cacheOk Sample.regexp c'.
Proof.
  apply (compiled_patterns_transparent Sample.regexp "a badword" ["badword"] ∅).
  - apply cacheOk_empty.
  - repeat constructor.
Defined.

Lemma append_length_ne p w : p <> "" -> w <> p +:+ w.
Proof.
  intros Hp H. apply (f_equal String.length) in H. rewrite length_append in H.
  destruct p; [contradiction|]. cbn [String.length] in H. lia.
Qed.

Lemma evasion_word_is_safe w :
  Validation.isSafeWordString w = true ->
  (String.length w <= 92)%nat ->
  Validation.isSafeWordString ("evasion_" +:+ w) = true.
Proof.
  unfold Validation.isSafeWordString, Validation.isValidString. intros Hs Hl.
  destruct (negb ((1 <=? String.length w)%nat && (String.length w <=? 100)%nat));
    [discriminate|].
  apply andb_true_iff in Hs as [_ Hs].
  rewrite length_append, allChars_append, Hs. cbn [String.length].
  replace (8 + String.length w <=? 100)%nat with true
    by (symmetry; apply Nat.leb_le; lia).
  reflexivity.
Qed.

(** X8. Two banned words of which one is [evasion_] followed by the
    other share a key of the map of compiled patterns: when the message
    does not match the shorter word, [checkBannedWords] throws a
    [TypeError] at the longer one, from an empty map and whatever the
    regular-expression engine answers.  Such a pair passes
    [validateAndSanitizeWords]. *)
Theorem evasion_key_collision (re : RegExpEngine) (message w : string) :
  Validation.isValidString message 1 1000 = true ->
  (1 <= String.length w <= 992)%nat ->
  WithoutMap.isWordPresent re (Js.toLowerCase message) (Js.toLowerCase w) = false ->
  (SmartWordFilter.checkBannedWords re message [w; "evasion_" +:+ w] ∅).1 = TypeError /\
  (Validation.isSafeWordString w = true -> (String.length w <= 92)%nat ->
   BannedWordsManager.validateAndSanitizeWords [w; "evasion_" +:+ w]
   = [w; "evasion_" +:+ w]).
Proof.
  intros Hm Hw Hnot. split; cycle 1.
  { intros Hs Hl.
    unfold BannedWordsManager.validateAndSanitizeWords, Validation.sanitizeStringArray.
    change (Validation.isValidArray [w; "evasion_" +:+ w] 0 1000) with true.
    cbn [negb List.filter]. rewrite !isAcceptedWord_safe, Hs.
    rewrite (evasion_word_is_safe w Hs Hl). reflexivity. }
  unfold SmartWordFilter.checkBannedWords. rewrite Hm. cbn [negb].
  change (Validation.isValidArray [w; "evasion_" +:+ w] 1 1000) with true. cbn [negb].
  cbn [SmartWordFilter.scan].
  assert (Hv1 : Validation.isValidString w 1 1000 = true).
  { unfold Validation.isValidString. apply andb_true_iff.
    split; apply Nat.leb_le; lia. }
  assert (Hv2 : Validation.isValidString ("evasion_" +:+ w) 1 1000 = true).
  { unfold Validation.isValidString. rewrite length_append. apply andb_true_iff.
    split; apply Nat.leb_le; cbn [String.length]; lia. }
  rewrite Hv1, Hv2. cbn [negb].
  rewrite toLowerCase_append.
  change (Js.toLowerCase "evasion_") with "evasion_".
  set (m := Js.toLowerCase message) in *. set (wl := Js.toLowerCase w) in *.
  unfold WithoutMap.isWordPresent in Hnot.
  destruct (WithoutMap.hasWordBoundaryMatch re m wl) eqn:Hb; [discriminate|].
  destruct (WithoutMap.hasEvasionPattern re m wl) eqn:He; [discriminate|].
  unfold WithoutMap.hasWordBoundaryMatch, WithoutMap.testPattern in Hb.
  unfold WithoutMap.hasEvasionPattern in He. rewrite <- existsb_compiled in He.
  assert (Hne : wl <> "evasion_" +:+ wl) by (apply append_length_ne; discriminate).
  assert (Hstep : forall c1,
    c1 !! ("evasion_" +:+ wl) = None ->
    (match SmartWordFilter.hasEvasionPattern re m wl c1 with
     | (Value true, c2) => (Value true, c2)
     | (Value false, c2) =>
         match SmartWordFilter.isWordPresent re m ("evasion_" +:+ wl) c2 with
         | (Value true, c3) => (Value true, c3)
         | (Value false, c3) => (Value false, c3)
         | (TypeError, c3) => (TypeError, c3)
         end
     | (TypeError, c2) => (TypeError, c2)
     end).1 = TypeError).
  { intros c1 Hc1. unfold SmartWordFilter.hasEvasionPattern. rewrite Hc1.
    unfold SmartWordFilter.createEvasionPatterns. rewrite He.
    unfold SmartWordFilter.isWordPresent, SmartWordFilter.hasWordBoundaryMatch.
    rewrite lookup_insert_eq. reflexivity. }
  unfold SmartWordFilter.isWordPresent at 1. unfold SmartWordFilter.hasWordBoundaryMatch at 1.
  rewrite lookup_empty.
  destruct (compiles re (SmartWordFilter.boundarySource wl)) eqn:Hp.
  - cbn [andb] in Hb. rewrite Hb.
    apply Hstep. rewrite lookup_insert_ne by exact Hne. apply lookup_empty.
  - apply Hstep. apply lookup_empty.
Qed.

Lemma evasion_key_collision_witness :
  (SmartWordFilter.checkBannedWords Sample.regexp "some words"
     ["bad"; "evasion_" +:+ "bad"] ∅).1 = TypeError /\
  (Validation.isSafeWordString "bad" = true -> (String.length "bad" <= 92)%nat ->
   BannedWordsManager.validateAndSanitizeWords ["bad"; "evasion_" +:+ "bad"]
   = ["bad"; "evasion_" +:+ "bad"]).
Proof.
  apply (evasion_key_collision Sample.regexp "some words" "bad").
  - reflexivity.
  - cbn; lia.
  - reflexivity.
Defined.

(** ** The outgoing queue *)

Lemma withQueue_same s : StateManager.withQueue (outgoingStanzaQueue s) s = s.
Proof. destruct s; reflexivity. Qed.

Lemma withSm_same w : withSm (sm w) w = w.
Proof. destruct w; reflexivity. Qed.

Lemma run_tick_empty w :
  outgoingStanzaQueue (sm w) = [] -> WorkerService.processStanzaQueue w = (tt, w, []).
Proof.
  intros H. unfold WorkerService.processStanzaQueue.
  rewrite run_bind. cbn [getState fst snd]. rewrite H. reflexivity.
Qed.

Lemma run_tick_offline w :
  online (sm w) = false -> WorkerService.processStanzaQueue w = (tt, w, []).
Proof.
  intros H. unfold WorkerService.processStanzaQueue.
  rewrite run_bind. cbn [getState fst snd]. rewrite H.
  destruct (outgoingStanzaQueue (sm w)); reflexivity.
Qed.

Lemma run_tick_online w stanza rest :
  online (sm w) = true ->
  outgoingStanzaQueue (sm w) = stanza :: rest ->
  WorkerService.processStanzaQueue w
  = (tt, withSm (StateManager.withQueue rest (sm w)) w,
     if deliverable (sm w) stanza then [XmppSend stanza] else []).
Proof.
  intros Hon Hq. unfold WorkerService.processStanzaQueue.
  rewrite run_bind. cbn [getState fst snd]. rewrite Hq, Hon. cbn [negb].
  rewrite run_bind. cbn [modifySm fst snd]. unfold deliverable, addressee.
  destruct (Js.truthy (Xml.attr "to" stanza) ≫= _) as [e|]; [|reflexivity].
  destruct (StateManager.hasNonExistentEntity e (sm w)); reflexivity.
Qed.

Lemma run_cons re v ev evs w :
  WorkerService.run re v (ev :: evs) w
  = (tt,
     stateOf (WorkerService.run re v evs) (stateOf (WorkerService.handle re v ev) w),
     (actionsOf (WorkerService.handle re v ev) w ++
      actionsOf (WorkerService.run re v evs) (stateOf (WorkerService.handle re v ev) w))%list).
Proof.
  unfold WorkerService.run. cbn [WorkerService.forEach].
  rewrite run_bind. unfold stateOf, actionsOf.
  destruct (WorkerService.forEach evs _ _) as [[[] w2] t2]. reflexivity.
Qed.

Lemma drain re v k : forall w q,
  online (sm w) = true ->
  outgoingStanzaQueue (sm w) = q ->
  WorkerService.run re v (ticks k) w
  = (tt, withSm (StateManager.withQueue (drop k q) (sm w)) w,
     List.map XmppSend (List.filter (deliverable (sm w)) (take k q))).
Proof.
  induction k as [|k IH]; intros w q Hon Hq.
  - subst q. rewrite drop_0, take_0, withQueue_same, withSm_same. reflexivity.
  - unfold ticks. cbn [repeat]. rewrite run_cons. fold (ticks k).
    unfold stateOf, actionsOf. cbn [WorkerService.handle].
    destruct q as [|stanza rest].
    + rewrite (run_tick_empty w Hq). cbn [fst snd].
      rewrite (IH w [] Hon Hq). cbn [fst snd]. rewrite drop_nil, take_nil. reflexivity.
    + rewrite (run_tick_online w stanza rest Hon Hq). cbn [fst snd].
      rewrite (IH _ rest) by (destruct w as [[] ? ? ?]; cbn in *; first [exact Hon | reflexivity]).
      cbn [fst snd drop take List.filter List.map].
      replace (deliverable (sm (withSm (StateManager.withQueue rest (sm w)) w)))
        with (deliverable (sm w)) by (destruct w as [[] ? ? ?]; reflexivity).
      replace (withSm (StateManager.withQueue (drop k rest)
                         (sm (withSm (StateManager.withQueue rest (sm w)) w)))
                 (withSm (StateManager.withQueue rest (sm w)) w))
        with (withSm (StateManager.withQueue (drop k rest) (sm w)) w)
        by (destruct w as [[] ? ? ?]; reflexivity).
      destruct (deliverable (sm w) stanza); reflexivity.
Qed.

(** X9. The outgoing queue is first in, first out: [k] ticks of an
    online worker send the first [k] queued stanzas in their order,
    each once, but for the stanzas addressed to an entity flagged
    non-existent, which are dropped; the rest of the queue stays, and
    nothing else of the state changes.  While the client is offline a
    tick changes and sends nothing. *)
Theorem queue_is_fifo (re : RegExpEngine) (verbose : bool) (w : Worker) (k : nat) :
  (online (sm w) = true ->
   WorkerService.run re verbose (ticks k) w
   = (tt,
      withSm (StateManager.withQueue (drop k (outgoingStanzaQueue (sm w))) (sm w)) w,
      List.map XmppSend
        (List.filter (deliverable (sm w)) (take k (outgoingStanzaQueue (sm w)))))) /\
  (online (sm w) = false ->
   WorkerService.run re verbose (ticks k) w = (tt, w, [])).
Proof.
  split.
  - intros Hon. apply drain; [exact Hon|reflexivity].
  - intros Hoff. induction k as [|k IH]; [reflexivity|].
    unfold ticks. cbn [repeat]. rewrite run_cons. fold (ticks k).
    unfold stateOf, actionsOf. cbn [WorkerService.handle].
    rewrite (run_tick_offline w Hoff). cbn [fst snd]. rewrite IH. reflexivity.
Qed.

(** ** Stanzas leave through the queue only *)

Ltac quiet_step :=
  first
    [ apply spec_ret
    | apply spec_skip
    | apply spec_get
    | apply spec_bind; [|intros ?]
    | apply spec_modify; intros ? ?; exact Logic.I
    | apply spec_liftSm; intros ? ?; exact Logic.I
    | apply spec_emit; reflexivity
    | apply spec_moderation_only; intros ?; split; reflexivity
    | apply spec_moderation_only; intros ?; apply configureEntityProfanityFilter_sm
    | match goal with
      | |- spec _ _ (if ?b then _ else _) => destruct b
      | |- spec _ _ (match ?x with _ => _ end) => destruct x
      | |- spec _ _ (let '(_, _) := ?x in _) => destruct x
      end
    | progress unfold queueStanza, joinRoomForEntity, leaveRoomForEntity,
        DiscordWebhookManager.sendBannedWordsNotification,
        Moderation.deleteMessage, Moderation.muteUser, Moderation.checkBannedWords,
        Moderation.enforceReadOnlyMode, Moderation.processModeration,
        TimedMessages.processTimedMessages, Commands.processCommands,
        DebugHandler.handle404Error, DebugHandler.handleVerboseError,
        DebugHandler.handleVerboseSuccess, DebugHandler.handleVerboseSupergroupIQ,
        WorkerService.handleSupergroupIQ, WorkerService.handleIQGet,
        WorkerService.handleGroupChatMessage, WorkerService.handleStanza,
        WorkerService.handleEntityAssignment, WorkerService.handleEntityUnassignment,
        WorkerService.handleEntityUpdate, WorkerService.removeStale,
        Moderation.afterDelete, Moderation.resumeAfterSleep,
        Moderation.resumeAfterRetraction, andThen, detached,
        WorkerService.handlePresetRefresh, WorkerService.cleanupEntityTracking,
        WorkerService.recordReconnectionAttempt, WorkerService.resetReconnectionState,
        WorkerService.connectXmpp, WorkerService.handleXmppOnline,
        WorkerService.handleXmppOffline ].

Ltac quiet := repeat quiet_step.

(** No event but a tick of the queue and a call of the ping handler
    puts a stanza on the connection. *)
Lemma spec_no_direct_send re v ev :
  ev <> WorkerService.Tick ->
  (forall request, ev <> WorkerService.ServerPing request) ->
  spec (fun _ => True) (fun a => goesOut a = false) (WorkerService.handle re v ev).
Proof.
  intros Hev Hping.
  destruct ev; cbn [WorkerService.handle]; try contradiction; try solve [quiet].
  - exfalso. eapply Hping. reflexivity.
  - unfold WorkerService.reconcileEntities.
    apply spec_bind; [apply spec_get|intros w].
    destruct (isShuttingDown (sm w)); [apply spec_skip|].
    destruct updated as [[updated|]|m]; try apply spec_skip.
    apply spec_bind; [|intros _; apply spec_bind; [apply spec_get|intros w2]].
    + apply spec_forEach. intros [e d]. quiet.
    + apply spec_bind; [|intros [[]|]; [|apply spec_skip]].
      * apply spec_forEachTry. intros e. quiet.
      * apply spec_forEach. intros [e d]. quiet.
Qed.

(** X10. The worker's code puts a stanza on the XMPP connection in two
    places only.  A tick of the outgoing queue sends the stanza at the
    head of the queue, and only while the client is online.  The ping
    handler returns the answer to a ping, with the id and the sender of
    the request, for the client library to send at once, past the
    queue.  No other handler sends. *)
Theorem only_the_queue_sends (re : RegExpEngine) (verbose : bool)
    (ev : WorkerService.Event) (w : Worker) (a : Action) :
  a ∈ actionsOf (WorkerService.handle re verbose ev) w ->
  goesOut a = true ->
  (ev = WorkerService.Tick /\
   online (sm w) = true /\
   exists stanza rest,
     a = XmppSend stanza /\ outgoingStanzaQueue (sm w) = stanza :: rest) \/
  (exists request,
     ev = WorkerService.ServerPing request /\
     actionsOf (WorkerService.handle re verbose ev) w
     = [PingResult (Xml.attr "id" request) (Xml.attr "from" request)]).
Proof.
  intros Hin Hout.
  assert (Hev : ev = WorkerService.Tick \/
                (exists request, ev = WorkerService.ServerPing request) \/
                (ev <> WorkerService.Tick /\
                 forall request, ev <> WorkerService.ServerPing request)).
  { destruct ev;
      first [ left; reflexivity
            | right; left; eexists; reflexivity
            | right; right; split; [discriminate | intros ?; discriminate] ]. }
  destruct Hev as [->|[(request & ->)|[Hne Hping]]].
  - left. split; [reflexivity|]. unfold actionsOf in Hin. cbn [WorkerService.handle] in Hin.
    destruct (online (sm w)) eqn:Hon.
    + destruct (outgoingStanzaQueue (sm w)) as [|st rest] eqn:Hq.
      * rewrite (run_tick_empty w Hq) in Hin. apply elem_of_nil in Hin. contradiction.
      * rewrite (run_tick_online w st rest Hon Hq) in Hin. cbn [snd] in Hin.
        destruct (deliverable (sm w) st).
        -- apply list_elem_of_singleton in Hin. subst a.
           split; [reflexivity|]. exists st, rest. split; reflexivity.
        -- apply elem_of_nil in Hin. contradiction.
    + rewrite (run_tick_offline w Hon) in Hin. apply elem_of_nil in Hin. contradiction.
  - right. exists request. split; reflexivity.
  - exfalso.
    destruct (spec_no_direct_send re verbose ev Hne Hping w Logic.I) as [_ Hall].
    rewrite Forall_forall in Hall. specialize (Hall _ Hin). congruence.
Qed.

(** The presence that the online worker queued goes out at the next
    tick; the answer to a ping goes out at once, also while the worker
    is shutting down. *)
Lemma only_the_queue_sends_witness :
  let w := stateOf (WorkerService.run Sample.regexp false (onlineWithE1 false)) initWorker in
  ((WorkerService.Tick = WorkerService.Tick /\
    online (sm w) = true /\
    exists stanza rest,
      XmppSend (Elem "presence" [] []) = XmppSend stanza /\
      outgoingStanzaQueue (sm w) = stanza :: rest) \/
   (exists request,
      WorkerService.Tick = WorkerService.ServerPing request /\
      actionsOf (WorkerService.handle Sample.regexp false WorkerService.Tick) w
      = [PingResult (Xml.attr "id" request) (Xml.attr "from" request)])) /\
  actionsOf (WorkerService.handle Sample.regexp false (WorkerService.ServerPing serverPing)) w
  = [PingResult (Some "ping-1") (Some "chat.faceit.com")].
Proof.
  cbn zeta. split; [|reflexivity].
  apply (only_the_queue_sends Sample.regexp false WorkerService.Tick
           (stateOf (WorkerService.run Sample.regexp false (onlineWithE1 false)) initWorker)
           (XmppSend (Elem "presence" [] []))).
  - vm_compute. apply list_elem_of_here.
  - reflexivity.
Defined.

(** ** The reconnection delay *)

(** What one event does to the reconnection fields. *)
Lemma handle_reconnection re v ev w :
  let r := reconnection (sm w) in
  let r' := reconnection (sm (stateOf (WorkerService.handle re v ev) w)) in
  r' = r \/
  (reconnectionAttempts (sm w) < 10 /\
   exists now, r' = (reconnectionAttempts (sm w) + 1, now,
                     Z.min (reconnectionBackoffMs (sm w) * 2) 300000)) \/
  r' = (0, lastReconnectionTime (sm w), 5000).
Proof.
  intros r r'. subst r r'.
  assert (Hinv : workerInv (eq (reconnection (sm w))) ∅ (nonExistentEntities (sm w))
                    false (sm w)).
  { split; [reflexivity|]. split; [set_solver|]. split; [set_solver|discriminate]. }
  assert (Hframe : forall c : M unit,
             spec (workerInv (eq (reconnection (sm w))) ∅ (nonExistentEntities (sm w))
                     false)
               (actionOk false ∅) c ->
             reconnection (sm (stateOf c w)) = reconnection (sm w)).
  { intros c Hc. destruct (Hc w Hinv) as [[HR _] _]. symmetry. exact HR. }
  destruct ev;
    try (left; apply Hframe; apply spec_ordinary; exact Logic.I).
  - left. apply Hframe. apply spec_handleEntityAssignment. set_solver.
  - cbn [WorkerService.handle].
    destruct (WorkerService.performPreConnectionChecks now (sm w)) eqn:Hc.
    + right. left. split; [exact (checks_below_ten _ _ Hc)|]. exists now.
      apply (connectXmpp_attempt now fetched started w Hc).
    + left. unfold stateOf. rewrite connectXmpp_refused by exact Hc. reflexivity.
  - right. right. cbn [WorkerService.handle].
    unfold stateOf, WorkerService.handleXmppOnline, WorkerService.resetReconnectionState.
    rewrite !run_bind. cbn [modifySm fst snd sm withSm].
    destruct (isShuttingDown (sm w)) eqn:Hsd.
    + rewrite run_queueStanza_down by reflexivity. reflexivity.
    + rewrite run_queueStanza by reflexivity. reflexivity.
Qed.

Lemma backoff_step a b :
  0 <= a -> b = Z.min (5000 * 2 ^ a) 300000 ->
  Z.min (b * 2) 300000 = Z.min (5000 * 2 ^ (a + 1)) 300000.
Proof.
  intros Ha ->. rewrite Z.pow_add_r by lia. change (2 ^ 1) with 2.
  pose proof (Z.pow_pos_nonneg 2 a ltac:(lia) Ha). lia.
Qed.

Lemma run_backoff re v evs : forall w,
  0 <= reconnectionAttempts (sm w) <= 10 ->
  reconnectionBackoffMs (sm w) = Z.min (5000 * 2 ^ reconnectionAttempts (sm w)) 300000 ->
  let w' := stateOf (WorkerService.run re v evs) w in
  0 <= reconnectionAttempts (sm w') <= 10 /\
  reconnectionBackoffMs (sm w') = Z.min (5000 * 2 ^ reconnectionAttempts (sm w')) 300000.
Proof.
  induction evs as [|ev evs IH]; intros w Ha Hb; cbn zeta.
  - split; assumption.
  - unfold stateOf. rewrite run_cons. cbn [fst snd].
    pose proof (handle_reconnection re v ev w) as Hstep. cbn zeta in Hstep.
    set (w1 := stateOf (WorkerService.handle re v ev) w) in *.
    unfold reconnection in Hstep.
    apply IH.
    + destruct Hstep as [[= H1 _ _]|[(Hlt & now & [= H1 _ _])|[= H1 _ _]]]; lia.
    + destruct Hstep as [[= H1 _ H3]|[(Hlt & now & [= H1 _ H3])|[= H1 _ H3]]].
      * rewrite H1, H3. exact Hb.
      * rewrite H1, H3. apply backoff_step; [lia|exact Hb].
      * rewrite H1, H3. reflexivity.
Qed.

(** X11. In every state that a worker reaches the reconnection delay is
    a function of the attempt counter:
    [min(5000 * 2 ^ attempts, 300000)] milliseconds, with the counter
    between 0 and 10; so the delay lies between 5 s and 5 min and is
    5 min from the sixth attempt on. *)
Theorem backoff_closed_form (re : RegExpEngine) (verbose : bool)
    (evs : list WorkerService.Event) :
  let s := sm (stateOf (WorkerService.run re verbose evs) initWorker) in
  0 <= reconnectionAttempts s <= 10 /\
  reconnectionBackoffMs s = Z.min (5000 * 2 ^ reconnectionAttempts s) 300000 /\
  5000 <= reconnectionBackoffMs s <= 300000 /\
  (6 <= reconnectionAttempts s -> reconnectionBackoffMs s = 300000).
Proof.
  cbn zeta.
  destruct (run_backoff re verbose evs initWorker) as [Ha Hb];
    [cbn; lia | reflexivity |].
  set (s := sm (stateOf (WorkerService.run re verbose evs) initWorker)) in *.
  split; [exact Ha|]. split; [exact Hb|].
  assert (Hpow : 1 <= 2 ^ reconnectionAttempts s)
    by (pose proof (Z.pow_pos_nonneg 2 (reconnectionAttempts s) ltac:(lia) ltac:(lia)); lia).
  split; [lia|].
  intros H6.
  assert (2 ^ 6 <= 2 ^ reconnectionAttempts s) by (apply Z.pow_le_mono_r; lia).
  change (2 ^ 6) with 64 in *. lia.
Qed.

(** ** Verbose logging *)

Lemma run_skip_then {A} (c : M A) w : (skip ;; c) w = c w.
Proof.
  rewrite run_bind. cbn [skip mret M_ret fst snd app].
  destruct (c w) as [[x w1] t1]. reflexivity.
Qed.

Lemma handleVerboseError_quiet st w :
  (forall err, Xml.getChild "error" None st = Some err -> Xml.attr "code" err <> Some "404") ->
  DebugHandler.handleVerboseError st w = (tt, w, []).
Proof.
  intros H. unfold DebugHandler.handleVerboseError.
  destruct (Xml.getChild "error" None st) as [err|]; [|reflexivity].
  case_bool_decide as Hc; [|reflexivity]. exfalso. exact (H err eq_refl Hc).
Qed.

Lemma handleSupergroupIQ_verbose st w :
  (forall err, Xml.getChild "error" None st = Some err -> Xml.attr "code" err <> Some "404") ->
  WorkerService.handleSupergroupIQ true st w = WorkerService.handleSupergroupIQ false st w.
Proof.
  intros H. unfold WorkerService.handleSupergroupIQ.
  case_bool_decide as Hq; [reflexivity|].
  case_bool_decide as Herr.
  - rewrite !run_bind. rewrite (handleVerboseError_quiet st w H). cbn [fst snd].
    unfold DebugHandler.handleVerboseSupergroupIQ.
    rewrite bool_decide_eq_true_2 by exact Herr.
    rewrite (handleVerboseError_quiet st w H). reflexivity.
  - rewrite !run_skip_then.
    unfold DebugHandler.handleVerboseSupergroupIQ, DebugHandler.handleVerboseSuccess.
    rewrite bool_decide_eq_false_2 by exact Herr.
    destruct (Xml.getChild "query" None st) as [q|]; [|reflexivity].
    cbn [mbind option_bind] in Hq.
    rewrite bool_decide_eq_false_2 by exact Hq. reflexivity.
Qed.

(** X12. Verbose logging changes nothing but the log: on every event
    that is not an answer with error code 404 a worker with
    [isVerboseLoggingEnabled] ends in the same state, with the same
    actions, as one without. *)
Theorem verbose_logging_is_silent (re : RegExpEngine) (ev : WorkerService.Event) (w : Worker) :
  (forall st err, ev = WorkerService.Stanza st ->
                  Xml.getChild "error" None st = Some err ->
                  Xml.attr "code" err <> Some "404") ->
  WorkerService.handle re true ev w = WorkerService.handle re false ev w.
Proof.
  intros H. destruct ev; try reflexivity.
  cbn [WorkerService.handle]. unfold WorkerService.handleStanza.
  rewrite !run_bind. cbn [getState fst snd].
  destruct (isShuttingDown (sm w)); [reflexivity|].
  destruct (Xml.isName "iq" stanza && _ && _); [reflexivity|].
  destruct (Xml.isName "iq" stanza && _); [|reflexivity].
  rewrite (handleSupergroupIQ_verbose stanza w); [reflexivity|].
  intros err. apply H. reflexivity.
Qed.

(** Room E1 answers the configuration query: with and without verbose
    logging the worker stores the presence group and queues the
    subscription to it. *)
Lemma verbose_logging_is_silent_witness :
  let w := stateOf (WorkerService.run Sample.regexp false joinedE1) initWorker in
  WorkerService.handle Sample.regexp true (WorkerService.Stanza configurationResult) w
  = WorkerService.handle Sample.regexp false (WorkerService.Stanza configurationResult) w /\
  outgoingStanzaQueue
    (sm (stateOf (WorkerService.handle Sample.regexp true
                    (WorkerService.Stanza configurationResult)) w))
  = [xmppActions.createResubscribeStanza presenceGroupE1].
Proof.
  cbn zeta. split; [|vm_compute; reflexivity].
  apply (verbose_logging_is_silent Sample.regexp
           (WorkerService.Stanza configurationResult)
           (stateOf (WorkerService.run Sample.regexp false joinedE1) initWorker)).
  intros st err [= <-] Herr. vm_compute in Herr. discriminate Herr.
Defined.

(** ** Commands *)

Lemma lowerChar_bang c : Js.lowerChar c = "!"%char <-> c = "!"%char.
Proof.
  destruct c as [[] [] [] [] [] [] [] []]; vm_compute; split; intros H;
    first [reflexivity | discriminate H].
Qed.

Lemma startsWith_bang m :
  Js.startsWith "!" m = match m with String c _ => Ascii.eqb c "!" | EmptyString => false end.
Proof.
  unfold Js.startsWith. destruct m as [|c s]; [reflexivity|]. cbn [String.prefix].
  destruct (ascii_dec "!" c) as [<-|Hne].
  - destruct s; reflexivity.
  - symmetry. apply Ascii.eqb_neq. congruence.
Qed.

Lemma startsWith_bang_lower m m' :
  Js.toLowerCase m' = Js.toLowerCase m ->
  Js.startsWith "!" m' = Js.startsWith "!" m /\
  Js.toLowerCase (Js.substring1 m') = Js.toLowerCase (Js.substring1 m).
Proof.
  rewrite !startsWith_bang.
  destruct m as [|c s], m' as [|c' s']; cbn [Js.toLowerCase Js.substring1];
    try discriminate; [split; reflexivity|].
  intros [= Hc Hs]. split; [|exact Hs].
  destruct (Ascii.eqb_spec c "!") as [->|Hne].
  - apply Ascii.eqb_eq. apply lowerChar_bang. rewrite Hc. reflexivity.
  - apply Ascii.eqb_neq. intros ->. apply Hne. apply lowerChar_bang.
    rewrite <- Hc. reflexivity.
Qed.

(** X13. The command stage answers a message exactly when it starts
    with [!] and the rest, in lower case, is a key of the room's
    commands; it reads the message in lower case only, so a message and
    any re-capitalisation of it are answered alike, and a command
    stored under a key that is not in lower case is never answered.
    The answer carries the response and the upload id that
    [getCommandResponse] and [getCommandUploadId] report for the key.
    A message that is not answered changes nothing. *)
Theorem commands_ignore_case (m r : string) (rc : Entity) (w : Worker) :
  resultOf (Commands.processCommands m r rc) w
  = Js.startsWith "!" m && CommandQueries.hasCommand (Js.toLowerCase (Js.substring1 m)) rc /\
  (forall m', Js.toLowerCase m' = Js.toLowerCase m ->
              Commands.processCommands m' r rc w = Commands.processCommands m r rc w) /\
  (resultOf (Commands.processCommands m r rc) w = true ->
   exists cmds k c,
     commands rc = Some cmds /\ cmds !! k = Some c /\ Js.toLowerCase k = k /\
     CommandQueries.getCommandResponse k rc = Some (response c) /\
     CommandQueries.getCommandUploadId k rc = Js.truthy (cmd_upload_id c) /\
     Commands.processCommands m r rc w
     = (true,
        stateOf (queueStanza (xmppActions.sendMessage (entityOrRoom r (sm w)) (response c)
                                (Js.truthy (cmd_upload_id c)))) w,
        [])) /\
  (resultOf (Commands.processCommands m r rc) w = false ->
   Commands.processCommands m r rc w = (false, w, [])).
Proof.
  assert (Hform : forall m0,
    Commands.processCommands m0 r rc w
    = if Js.startsWith "!" m0 then
        match commands rc ≫= (fun cmds => cmds !! Js.toLowerCase (Js.substring1 m0)) with
        | Some c =>
            (true,
             stateOf (queueStanza (xmppActions.sendMessage (entityOrRoom r (sm w))
                                     (response c) (Js.truthy (cmd_upload_id c)))) w,
             [])
        | None => (false, w, [])
        end
      else (false, w, [])).
  { intros m0. unfold Commands.processCommands.
    destruct (Js.startsWith "!" m0); cbn [negb]; [|reflexivity].
    destruct (commands rc) as [cmds|]; cbn [mbind option_bind]; [|reflexivity].
    destruct (cmds !! Js.toLowerCase (Js.substring1 m0)) as [c|]; [|reflexivity].
    rewrite !run_bind. cbn [getState fst snd]. unfold stateOf.
    destruct (isShuttingDown (sm w)) eqn:Hsd.
    - rewrite run_queueStanza_down by exact Hsd. reflexivity.
    - rewrite run_queueStanza by exact Hsd. reflexivity. }
  split; [|split; [|split]].
  - unfold resultOf. rewrite Hform. unfold CommandQueries.hasCommand, CommandQueries._getCommand.
    destruct (Js.startsWith "!" m); [|reflexivity].
    destruct (commands rc) as [cmds|]; cbn [mbind option_bind andb]; [|reflexivity].
    destruct (cmds !! Js.toLowerCase (Js.substring1 m)) as [c|] eqn:Hc.
    + symmetry. apply bool_decide_eq_true_2. eexists; reflexivity.
    + symmetry. apply bool_decide_eq_false_2. intros [x Hx]. discriminate Hx.
  - intros m' Hm'. destruct (startsWith_bang_lower m m' Hm') as [H1 H2].
    rewrite !Hform, H1, H2. reflexivity.
  - unfold resultOf. rewrite Hform.
    destruct (Js.startsWith "!" m); [|discriminate].
    destruct (commands rc) as [cmds|] eqn:Hcmds; cbn [mbind option_bind]; [|discriminate].
    destruct (cmds !! Js.toLowerCase (Js.substring1 m)) as [c|] eqn:Hc; [|discriminate].
    intros _. exists cmds, (Js.toLowerCase (Js.substring1 m)), c.
    split; [reflexivity|]. split; [exact Hc|]. split; [apply toLowerCase_idem|].
    unfold CommandQueries.getCommandResponse, CommandQueries.getCommandUploadId,
      CommandQueries.hasCommand, CommandQueries._getCommand.
    rewrite Hcmds. cbn [mbind option_bind]. rewrite Hc.
    rewrite bool_decide_eq_true_2 by (eexists; reflexivity).
    repeat split; reflexivity.
  - unfold resultOf. rewrite Hform.
    destruct (Js.startsWith "!" m); [|reflexivity].
    destruct (commands rc ≫= _) as [c|]; [discriminate|reflexivity].
Qed.

(** ** Removing and disabling a filter *)

Lemma cleanupEntity_configs e st :
  entityConfigs (BannedWordsManager.cleanupEntity e st) = delete e (entityConfigs st).
Proof.
  unfold BannedWordsManager.cleanupEntity.
  destruct (entityConfigs st !! e) as [cfg|] eqn:He.
  - destruct (BannedWordsManager.truthyId (presetId cfg)) as [p|]; [|reflexivity].
    destruct (BannedWordsManager.stillUsed p _); reflexivity.
  - symmetry. apply delete_id. exact He.
Qed.

Lemma checkBannedWords_unconfigured re bot msg e a st :
  entityConfigs st !! e = None ->
  BannedWordsManager.checkBannedWords re bot msg e a st = (Value false, st).
Proof.
  intros H. unfold BannedWordsManager.checkBannedWords. rewrite H.
  destruct (String.eqb msg ""), (String.eqb e ""), (String.eqb a ""); reflexivity.
Qed.

Lemma cleanupModeration_removes e w :
  entityConfigs (bannedWords (WorkerService.cleanupModeration e w)) !! e = None /\
  webhookConfigs (WorkerService.cleanupModeration e w) !! e = None /\
  profanityFilterConfigs (WorkerService.cleanupModeration e w) !! e = None /\
  sm (WorkerService.cleanupModeration e w) = sm w.
Proof.
  unfold WorkerService.cleanupModeration, withModeration,
    DiscordWebhookManager.cleanupWebhook.
  cbn [bannedWords webhookConfigs profanityFilterConfigs sm].
  rewrite cleanupEntity_configs, !lookup_delete_eq. repeat split; reflexivity.
Qed.

Lemma prefix_append_l p s r : String.prefix p s = true -> String.prefix p (s +:+ r) = true.
Proof.
  revert s. induction p as [|c p IH]; intros s H.
  - destruct (s +:+ r); reflexivity.
  - destruct s as [|c' s]; [discriminate H|].
    rewrite append_cons. cbn [String.prefix] in *.
    destruct (ascii_dec c c'); [apply IH, H | discriminate H].
Qed.

Lemma includes_append_l p s r : Js.includes p s = true -> Js.includes p (s +:+ r) = true.
Proof.
  induction s as [|c s IH]; cbn [Js.includes]; intros H.
  - rewrite orb_false_r in H. rewrite append_nil_l.
    destruct p; [destruct r; reflexivity | discriminate H].
  - rewrite append_cons. cbn [Js.includes].
    apply orb_true_iff in H as [H|H].
    + change (String c s +:+ r) with (String c s +:+ r).
      rewrite <- append_cons, (prefix_append_l _ _ r H). reflexivity.
    + rewrite (IH H). apply orb_true_r.
Qed.

Lemma includes_append_r p q s : Js.includes p s = true -> Js.includes p (q +:+ s) = true.
Proof.
  intros H. induction q as [|c q IH]; [rewrite append_nil_l; exact H|].
  rewrite append_cons. cbn [Js.includes]. rewrite IH. apply orb_true_r.
Qed.

(** The message of a failed [getRequest] holds the url of the request. *)
Lemma getRequestError_includes p url detail :
  Js.includes p url = true -> Js.includes p (getRequestError url detail) = true.
Proof.
  intros H. unfold getRequestError.
  apply includes_append_r, includes_append_l, H.
Qed.

Lemma includes_not_empty m : Js.includes "404" m = true -> String.eqb m "" = false.
Proof. destruct m; [discriminate|reflexivity]. Qed.

Lemma configureFailed_404 e m w :
  Js.includes "404" m = true ->
  WorkerService.configureFailed e m w = WorkerService.cleanupModeration e w.
Proof.
  intros H. unfold WorkerService.configureFailed.
  rewrite (includes_not_empty m H), H. reflexivity.
Qed.

Lemma configureFailed_other e m w :
  Js.includes "404" m = false -> WorkerService.configureFailed e m w = w.
Proof.
  intros H. unfold WorkerService.configureFailed. rewrite H, andb_false_r. reflexivity.
Qed.

Lemma configure_cleans_up e env w :
  (profanityReply env = Ok None \/
   (exists pc, profanityReply env = Ok (Some pc) /\ is_active pc = false) \/
   (exists m, Js.includes "404" m = true /\
              (profanityReply env = Fails m \/
               exists pc, profanityReply env = Ok (Some pc) /\ is_active pc = true /\
                          entityDataReply env = Fails m))) ->
  exists w0,
    stateOf (WorkerService.configureEntityProfanityFilter e env) w
    = WorkerService.cleanupModeration e w0.
Proof.
  unfold stateOf, WorkerService.configureEntityProfanityFilter.
  intros [-> | [(pc & -> & Hact) | (m & Hm & [-> | (pc & -> & Hact & ->)])]].
  - exists w. reflexivity.
  - rewrite Hact. exists w. reflexivity.
  - cbn [fst snd]. rewrite (configureFailed_404 e m w Hm). exists w. reflexivity.
  - rewrite Hact. cbn [negb fst snd]. rewrite configureFailed_404 by exact Hm.
    eexists. reflexivity.
Qed.

(** X14. [configureEntityProfanityFilter] removes the entity's filter,
    so that no message of the room is flagged any more and its webhook
    and stored configuration are gone, when the data-plane answers
    [null] or an inactive configuration, and when one of its two
    requests fails with a message that holds [404].  That message
    starts with the url of the request, which ends in the entity's id:
    for an entity whose id holds [404], every failure of a request, a
    time-out as well, removes the filter.  A failure of the
    configuration request whose message does not hold [404] leaves the
    worker as it was. *)
Theorem absent_filter_is_removed (e : string) (env : ConfigureEnv) (w : Worker) :
  let w' := stateOf (WorkerService.configureEntityProfanityFilter e env) w in
  let removed :=
    (forall re bot msg a,
        BannedWordsManager.checkBannedWords re bot msg e a (bannedWords w')
        = (Value false, bannedWords w')) /\
    webhookConfigs w' !! e = None /\
    profanityFilterConfigs w' !! e = None in
  let failsWith message :=
    profanityReply env = Fails message \/
    exists pc, profanityReply env = Ok (Some pc) /\ is_active pc = true /\
               entityDataReply env = Fails message in
  ((profanityReply env = Ok None \/
    exists pc, profanityReply env = Ok (Some pc) /\ is_active pc = false) -> removed) /\
  (forall message, Js.includes "404" message = true -> failsWith message -> removed) /\
  (forall base detail,
      Js.includes "404" e = true ->
      failsWith (getRequestError (profanityConfigUrl base e) detail) \/
      failsWith (getRequestError (entityDataUrl base e) detail) ->
      removed) /\
  (forall message,
      Js.includes "404" message = false -> profanityReply env = Fails message -> w' = w).
Proof.
  cbn zeta.
  assert (Hremoved : forall w0,
            stateOf (WorkerService.configureEntityProfanityFilter e env) w
            = WorkerService.cleanupModeration e w0 ->
            (forall re bot msg a,
                BannedWordsManager.checkBannedWords re bot msg e a
                  (bannedWords (stateOf (WorkerService.configureEntityProfanityFilter e env) w))
                = (Value false,
                   bannedWords (stateOf (WorkerService.configureEntityProfanityFilter e env) w))) /\
            webhookConfigs (stateOf (WorkerService.configureEntityProfanityFilter e env) w)
              !! e = None /\
            profanityFilterConfigs
              (stateOf (WorkerService.configureEntityProfanityFilter e env) w) !! e = None).
  { intros w0 ->. destruct (cleanupModeration_removes e w0) as (H1 & H2 & H3 & _).
    split; [|split; assumption].
    intros re bot msg a. apply checkBannedWords_unconfigured, H1. }
  assert (H404 : forall message,
            Js.includes "404" message = true ->
            (profanityReply env = Fails message \/
             exists pc, profanityReply env = Ok (Some pc) /\ is_active pc = true /\
                        entityDataReply env = Fails message) ->
            exists w0,
              stateOf (WorkerService.configureEntityProfanityFilter e env) w
              = WorkerService.cleanupModeration e w0).
  { intros message Hm Hf. apply configure_cleans_up. right. right.
    exists message. split; assumption. }
  split; [|split; [|split]].
  - intros Hreply.
    destruct (configure_cleans_up e env w) as (w0 & Hw0); [|exact (Hremoved w0 Hw0)].
    destruct Hreply as [H|H]; [left; exact H | right; left; exact H].
  - intros message Hm Hf. destruct (H404 message Hm Hf) as (w0 & Hw0).
    exact (Hremoved w0 Hw0).
  - intros base detail He [Hf|Hf].
    + assert (Hurl : Js.includes "404" (profanityConfigUrl base e) = true).
      { unfold profanityConfigUrl. apply includes_append_r, includes_append_r, He. }
      destruct (H404 _ (getRequestError_includes "404" _ detail Hurl) Hf) as (w0 & Hw0).
      exact (Hremoved w0 Hw0).
    + assert (Hurl : Js.includes "404" (entityDataUrl base e) = true).
      { unfold entityDataUrl.
        apply includes_append_r, includes_append_r, includes_append_l, He. }
      destruct (H404 _ (getRequestError_includes "404" _ detail Hurl) Hf) as (w0 & Hw0).
      exact (Hremoved w0 Hw0).
  - intros message Hm. unfold stateOf, WorkerService.configureEntityProfanityFilter.
    intros ->. cbn [fst snd]. apply configureFailed_other, Hm.
Qed.

(** Room E1 is moderated.  The data-plane times out on the
    configuration request of an update: the filter stays.  For a room
    whose id holds [404] the same time-out removes the filter. *)
Lemma absent_filter_is_removed_witness :
  let w := stateOf (WorkerService.run Sample.regexp false (moderatedE1 false)) initWorker in
  let timeout e :=
    {| profanityReply :=
         Fails (getRequestError (profanityConfigUrl baseUrl e) "timeout of 10000ms exceeded");
       presetReply := None;
       entityDataReply := timedOut |} in
  let w404 := withModeration (bannedWords w) (webhookConfigs w)
                (<[guid404 := filterE1]> (profanityFilterConfigs w)) w in
  stateOf (WorkerService.configureEntityProfanityFilter guidE1 (timeout guidE1)) w = w /\
  profanityFilterConfigs w !! guidE1 = Some filterE1 /\
  profanityFilterConfigs w404 !! guid404 = Some filterE1 /\
  profanityFilterConfigs
    (stateOf (WorkerService.configureEntityProfanityFilter guid404 (timeout guid404)) w404)
  !! guid404 = None.
Proof.
  cbn zeta. split; [|split; [vm_compute; reflexivity|split; [vm_compute; reflexivity|]]].
  - destruct (absent_filter_is_removed guidE1
                {| profanityReply :=
                     Fails (getRequestError (profanityConfigUrl baseUrl guidE1)
                              "timeout of 10000ms exceeded");
                   presetReply := None;
                   entityDataReply := timedOut |}
                (stateOf (WorkerService.run Sample.regexp false (moderatedE1 false))
                   initWorker)) as (_ & _ & _ & H).
    apply (H (getRequestError (profanityConfigUrl baseUrl guidE1)
                "timeout of 10000ms exceeded")); [vm_compute; reflexivity | reflexivity].
  - match goal with
    | |- profanityFilterConfigs (stateOf (WorkerService.configureEntityProfanityFilter _ ?env) ?w0)
           !! _ = None =>
        destruct (absent_filter_is_removed guid404 env w0) as (_ & _ & H & _)
    end.
    apply (H baseUrl "timeout of 10000ms exceeded"); [vm_compute; reflexivity|].
    left. left. reflexivity.
Defined.

Lemma refreshPreset_failed pid st :
  is_Some (presetWords st !! pid) ->
  BannedWordsManager.refreshPreset pid None st
  = (true,
     {| presetWords := delete pid (presetWords st);
        entityConfigs := entityConfigs st;
        usedPresetIds := usedPresetIds st ∖ {[pid]};
        compiledPatterns := ∅ |}).
Proof.
  intros H. unfold BannedWordsManager.refreshPreset.
  rewrite bool_decide_eq_true_2 by exact H. reflexivity.
Qed.

Lemma checkBannedWords_no_words re msg c :
  SmartWordFilter.checkBannedWords re msg [] c = (Value false, c).
Proof.
  unfold SmartWordFilter.checkBannedWords.
  destruct (negb (Validation.isValidString msg 1 1000)); reflexivity.
Qed.

(** X15. A preset refresh whose fetch fails does not keep the old
    words: it drops the preset and the compiled patterns, so that for
    every entity that uses the preset only the entity's custom words
    are still checked, and an entity without custom words is not
    moderated at all. *)
Theorem failed_refresh_disables_preset (re : RegExpEngine) (bot : option string)
    (st : BannedWordsState) (pid : Z) (e : string) (cfg : EntityConfig) (msg a : string) :
  entityConfigs st !! e = Some cfg ->
  BannedWordsManager.truthyId (presetId cfg) = Some pid ->
  is_Some (presetWords st !! pid) ->
  let st' := (BannedWordsManager.refreshPreset pid None st).2 in
  (BannedWordsManager.refreshPreset pid None st).1 = true /\
  presetWords st' !! pid = None /\
  compiledPatterns st' = ∅ /\
  ((BannedWordsManager.checkBannedWords re bot msg e a st').1 = Value true ->
   (SmartWordFilter.checkBannedWords re msg
      (SmartWordFilter.combineWordLists [] (customWords cfg)) ∅).1 = Value true) /\
  (customWords cfg = [] ->
   BannedWordsManager.checkBannedWords re bot msg e a st' = (Value false, st')).
Proof.
  intros Hcfg Hpid Hcached. cbn zeta. rewrite (refreshPreset_failed pid st Hcached).
  cbn [fst snd]. split; [reflexivity|]. split; [apply lookup_delete_eq|].
  split; [reflexivity|].
  set (st' := {| presetWords := delete pid (presetWords st);
                 entityConfigs := entityConfigs st;
                 usedPresetIds := usedPresetIds st ∖ {[pid]};
                 compiledPatterns := ∅ |}).
  assert (Hwords : BannedWordsManager.allBannedWords cfg st'
                   = SmartWordFilter.combineWordLists [] (customWords cfg)).
  { unfold BannedWordsManager.allBannedWords. rewrite Hpid. subst st'.
    cbn [presetWords]. rewrite lookup_delete_eq. reflexivity. }
  assert (Hform :
    BannedWordsManager.checkBannedWords re bot msg e a st' = (Value false, st') \/
    BannedWordsManager.checkBannedWords re bot msg e a st'
    = ((SmartWordFilter.checkBannedWords re msg
          (SmartWordFilter.combineWordLists [] (customWords cfg)) ∅).1,
       BannedWordsManager.withPatterns
         (SmartWordFilter.checkBannedWords re msg
            (SmartWordFilter.combineWordLists [] (customWords cfg)) ∅).2 st')).
  { unfold BannedWordsManager.checkBannedWords.
    change (entityConfigs st' !! e) with (entityConfigs st !! e). rewrite Hcfg, Hwords.
    destruct (String.eqb msg ""); [left; reflexivity|].
    destruct (String.eqb e ""); [left; reflexivity|].
    destruct (String.eqb a ""); [left; reflexivity|].
    destruct (negb (enabled cfg)); [left; reflexivity|].
    destruct (BannedWordsManager.isAuthorExempt _ _ _ _); [left; reflexivity|].
    right. change (compiledPatterns st') with (∅ : gmap string Compiled).
    destruct (SmartWordFilter.checkBannedWords re msg _ ∅) as [answer c]. reflexivity. }
  split.
  - destruct Hform as [-> | ->]; cbn [fst]; [discriminate|trivial].
  - intros Hcustom. destruct Hform as [H|H]; [exact H|]. rewrite H, Hcustom.
    change (SmartWordFilter.combineWordLists [] []) with (@nil string).
    rewrite checkBannedWords_no_words. reflexivity.
Qed.

Lemma failed_refresh_disables_preset_witness :
  let st := BannedWordsManager.configureEntity guidE1 (Some (usesPreset 1))
              (Some ["badword"]) BannedWordsManager.init in
  let cfg := {| presetId := Some 1; customWords := []; managerGuids := [];
                enabled := true |} in
  let st' := (BannedWordsManager.refreshPreset 1 None st).2 in
  (BannedWordsManager.checkBannedWords Sample.regexp None "a badword" guidE1 "u1" st).1
  = Value true /\
  (BannedWordsManager.refreshPreset 1 None st).1 = true /\
  presetWords st' !! 1 = None /\
  BannedWordsManager.checkBannedWords Sample.regexp None "a badword" guidE1 "u1" st'
  = (Value false, st').
Proof.
  cbn zeta. split; [vm_compute; reflexivity|].
  destruct (failed_refresh_disables_preset Sample.regexp None
              (BannedWordsManager.configureEntity guidE1 (Some (usesPreset 1))
                 (Some ["badword"]) BannedWordsManager.init)
              1 guidE1
              {| presetId := Some 1; customWords := []; managerGuids := []; enabled := true |}
              "a badword" "u1") as (H1 & H2 & _ & _ & H4).
  - vm_compute. reflexivity.
  - reflexivity.
  - vm_compute. eexists. reflexivity.
  - split; [exact H1|]. split; [exact H2|]. apply H4. reflexivity.
Defined.

(** ** Oversized input *)

(** X16. The banned-word stage lets every message of more than 1000
    characters through, whatever it contains: it raises no webhook
    call, reply, retraction or mute and leaves the state alone.  The
    filter also flags nothing against a list of more than 1000 words. *)
Theorem oversized_input_is_never_flagged (re : RegExpEngine) :
  (forall m r a i w,
      (1000 < String.length m)%nat ->
      Moderation.checkBannedWords re m r a i w = (Returns false, w, [])) /\
  (forall m words c,
      (1000 < List.length words)%nat ->
      SmartWordFilter.checkBannedWords re m words c = (Value false, c)).
Proof.
  split.
  - intros m r a i w Hlen.
    assert (H : BannedWordsManager.checkBannedWords re (StateManager.botGuid (sm w)) m r a
                  (bannedWords w) = (Value false, bannedWords w)).
    { unfold BannedWordsManager.checkBannedWords.
      destruct (String.eqb m ""); [reflexivity|].
      destruct (String.eqb r ""); [reflexivity|].
      destruct (String.eqb a ""); [reflexivity|].
      destruct (entityConfigs (bannedWords w) !! r) as [cfg|]; [|reflexivity].
      destruct (negb (enabled cfg)); [reflexivity|].
      destruct (BannedWordsManager.isAuthorExempt _ _ _ _); [reflexivity|].
      unfold SmartWordFilter.checkBannedWords, Validation.isValidString.
      replace (String.length m <=? 1000)%nat with false
        by (symmetry; apply Nat.leb_gt; exact Hlen).
      rewrite andb_false_r. cbn [negb]. rewrite withPatterns_same. reflexivity. }
    rewrite run_checkBannedWords. unfold managerAnswer, afterCheck. rewrite H.
    cbn [fst snd]. rewrite withModeration_same. reflexivity.
  - intros m words c Hlen.
    unfold SmartWordFilter.checkBannedWords, Validation.isValidArray.
    replace (List.length words <=? 1000)%nat with false
      by (symmetry; apply Nat.leb_gt; exact Hlen).
    rewrite andb_false_r. cbn [negb].
    destruct (negb (Validation.isValidString m 1 1000)); reflexivity.
Qed.

(** ** The state manager's memory cleanup *)

Lemma filter_entities_lookup (es : gmap string Entity) (m : gmap string Z) r :
  filter (fun kv : string * Z => is_Some (es !! kv.1)) m !! r
  = if bool_decide (is_Some (es !! r)) then m !! r else None.
Proof.
  case_bool_decide as He.
  - destruct (m !! r) as [x|] eqn:Hm.
    + apply map_lookup_filter_Some. split; [exact Hm|exact He].
    + apply map_lookup_filter_None. left. exact Hm.
  - apply map_lookup_filter_None. right. intros x _ H. exact (He H).
Qed.

(** X17. [performMemoryCleanup] forgets the message counter and the
    rotation cursor of every room that is not in the entity map (they
    read 0 afterwards) and keeps those of every room that is; it
    touches nothing else, and a second cleanup changes nothing. *)
Theorem performMemoryCleanup_spec (s : StateManagerState) (r : string) :
  let s' := StateManager.performMemoryCleanup s in
  (StateManager.hasEntity r s = true ->
   StateManager.getMessageCount r s' = StateManager.getMessageCount r s /\
   StateManager.getAutoMessageTurn r s' = StateManager.getAutoMessageTurn r s) /\
  (StateManager.hasEntity r s = false ->
   messageCounts s' !! r = None /\ autoMessageTurn s' !! r = None /\
   StateManager.getMessageCount r s' = 0 /\ StateManager.getAutoMessageTurn r s' = 0) /\
  s' = StateManager.withCounters (messageCounts s') (autoMessageTurn s') s /\
  StateManager.performMemoryCleanup s' = s'.
Proof.
  cbn zeta. split; [|split; [|split]].
  - unfold StateManager.performMemoryCleanup, StateManager.hasEntity,
      StateManager.getMessageCount, StateManager.getAutoMessageTurn.
    cbn [StateManager.withCounters messageCounts autoMessageTurn entities].
    rewrite !filter_entities_lookup. intros ->. split; reflexivity.
  - unfold StateManager.performMemoryCleanup, StateManager.hasEntity,
      StateManager.getMessageCount, StateManager.getAutoMessageTurn.
    cbn [StateManager.withCounters messageCounts autoMessageTurn entities].
    rewrite !filter_entities_lookup. intros ->. repeat split; reflexivity.
  - reflexivity.
  - unfold StateManager.performMemoryCleanup at 1.
    assert (He : entities (StateManager.performMemoryCleanup s) = entities s) by reflexivity.
    rewrite He.
    assert (Hkeep : forall m : gmap string Z,
      filter (fun kv : string * Z => is_Some (entities s !! kv.1))
        (filter (fun kv : string * Z => is_Some (entities s !! kv.1)) m)
      = filter (fun kv : string * Z => is_Some (entities s !! kv.1)) m).
    { intros m. apply map_filter_id. intros i x Hx.
      apply map_lookup_filter_Some in Hx as [_ Hx]. exact Hx. }
    unfold StateManager.performMemoryCleanup.
    cbn [StateManager.withCounters messageCounts autoMessageTurn].
    rewrite !Hkeep. reflexivity.
Qed.

(** ** The token refresh throttle, bot by bot *)

Lemma removeOne_other b b' l :
  b <> b' -> (b ∈ DbApi.removeOne b' l <-> b ∈ l).
Proof.
  intros Hne. induction l as [|x l IH]; cbn [DbApi.removeOne]; [reflexivity|].
  destruct (String.eqb_spec x b') as [->|Hx].
  - rewrite elem_of_cons. split; [intros H; right; exact H|].
    intros [H|H]; [contradiction|exact H].
  - rewrite !elem_of_cons, IH. reflexivity.
Qed.

Lemma dbStep_other auth ev st b :
  dbEventBot ev <> b ->
  lastTokenRefreshAt (DbApi.dbStep auth ev st).2 !! b = lastTokenRefreshAt st !! b /\
  (b ∈ refreshing (DbApi.dbStep auth ev st).2 <-> b ∈ refreshing st).
Proof.
  destruct ev as [b' force now | b' outcome done_]; cbn [dbEventBot DbApi.dbStep snd]; intros Hne.
  - unfold DbApi.beginCall. destruct (DbApi.refreshNeeded auth b' force now st);
      cbn [lastTokenRefreshAt refreshing]; (split; [reflexivity|]); [|reflexivity].
    rewrite elem_of_cons. split; [intros [H|H]; [congruence|exact H]|intros H; right; exact H].
  - unfold DbApi.endCall. case_bool_decide as Hin; [|split; reflexivity].
    destruct outcome; cbn [snd lastTokenRefreshAt refreshing];
      rewrite ?lookup_insert_ne by exact Hne;
      (split; [reflexivity|apply removeOne_other; congruence]).
Qed.

(** X18. The throttle is kept bot by bot: whatever requests are made
    and answered for other bots, the recorded refresh time of a bot,
    whether one of its calls is in flight, and the decision of
    [refreshBotAccessTokenIfNeeded] for it stay the same. *)
Theorem throttle_is_per_bot (auth : AuthConstants) (evs : list DbApi.DbEvent)
    (st : DbApiState) (botId : string) :
  Forall (fun ev => dbEventBot ev <> botId) evs ->
  let st' := (DbApi.dbRun auth evs st).2 in
  lastTokenRefreshAt st' !! botId = lastTokenRefreshAt st !! botId /\
  (botId ∈ refreshing st' <-> botId ∈ refreshing st) /\
  (forall force now,
      DbApi.refreshNeeded auth botId force now st'
      = DbApi.refreshNeeded auth botId force now st).
Proof.
  intros Hevs. cbn zeta.
  assert (H : lastTokenRefreshAt (DbApi.dbRun auth evs st).2 !! botId
              = lastTokenRefreshAt st !! botId /\
              (botId ∈ refreshing (DbApi.dbRun auth evs st).2 <-> botId ∈ refreshing st)).
  { revert st. induction Hevs as [|ev evs Hev _ IH]; intros st; [split; reflexivity|].
    cbn [DbApi.dbRun].
    destruct (DbApi.dbStep auth ev st) as [n st1] eqn:Hstep.
    destruct (DbApi.dbRun auth evs st1) as [m st2] eqn:Hrun. cbn [snd].
    destruct (dbStep_other auth ev st botId Hev) as [H1 H2].
    rewrite Hstep in H1, H2. cbn [snd] in H1, H2.
    destruct (IH st1) as [H3 H4]. rewrite Hrun in H3, H4. cbn [snd] in H3, H4.
    split; [congruence|]. rewrite H4. exact H2. }
  destruct H as [H1 H2]. split; [exact H1|]. split; [exact H2|].
  intros force now. unfold DbApi.refreshNeeded. rewrite H1. reflexivity.
Qed.

Lemma throttle_is_per_bot_witness :
  let auth := authConstants None None in
  let evs := [DbApi.Begin "bot-a" false 1700000000000;
              DbApi.End_ "bot-a" UpstreamCalled 1700000000500] in
  let st' := (DbApi.dbRun auth evs (DbApi.init)).2 in
  lastTokenRefreshAt st' !! "bot-b" = lastTokenRefreshAt DbApi.init !! "bot-b" /\
  ("bot-b" ∈ refreshing st' <-> "bot-b" ∈ refreshing DbApi.init) /\
  (forall force now,
      DbApi.refreshNeeded auth "bot-b" force now st'
      = DbApi.refreshNeeded auth "bot-b" force now DbApi.init).
Proof.
  apply (throttle_is_per_bot (authConstants None None)
           [DbApi.Begin "bot-a" false 1700000000000;
            DbApi.End_ "bot-a" UpstreamCalled 1700000000500]
           DbApi.init "bot-b").
  repeat constructor; cbn; discriminate.
Defined.

(** ** Shutdown *)

Lemma foldl_cleanupEntity_None keys : forall b e,
  entityConfigs b !! e = None ->
  entityConfigs (foldl (fun b entityId => BannedWordsManager.cleanupEntity entityId b) b keys)
    !! e = None.
Proof.
  induction keys as [|k keys IH]; intros b e H; cbn [foldl]; [exact H|].
  apply IH. rewrite cleanupEntity_configs. apply lookup_delete_None. right. exact H.
Qed.

Lemma foldl_cleanupEntity_gone keys : forall b e,
  e ∈ keys ->
  entityConfigs (foldl (fun b entityId => BannedWordsManager.cleanupEntity entityId b) b keys)
    !! e = None.
Proof.
  induction keys as [|k keys IH]; intros b e H; cbn [foldl].
  - apply elem_of_nil in H. contradiction.
  - apply elem_of_cons in H as [->|H]; [|apply IH, H].
    apply foldl_cleanupEntity_None. rewrite cleanupEntity_configs. apply lookup_delete_eq.
Qed.

Lemma foldl_cleanupWebhook_None keys : forall (wh : gmap string WebhookConfig) e,
  wh !! e = None ->
  foldl (fun wh entityId => DiscordWebhookManager.cleanupWebhook entityId wh) wh keys
    !! e = None.
Proof.
  induction keys as [|k keys IH]; intros wh e H; cbn [foldl]; [exact H|].
  apply IH. apply lookup_delete_None. right. exact H.
Qed.

Lemma foldl_cleanupWebhook_gone keys : forall (wh : gmap string WebhookConfig) e,
  e ∈ keys ->
  foldl (fun wh entityId => DiscordWebhookManager.cleanupWebhook entityId wh) wh keys
    !! e = None.
Proof.
  induction keys as [|k keys IH]; intros wh e H; cbn [foldl].
  - apply elem_of_nil in H. contradiction.
  - apply elem_of_cons in H as [->|H]; [|apply IH, H].
    apply foldl_cleanupWebhook_None. apply lookup_delete_eq.
Qed.

Lemma entity_key_listed (es : gmap string Entity) e :
  is_Some (es !! e) -> e ∈ (map_to_list es).*1.
Proof.
  intros [x Hx]. apply list_elem_of_fmap. exists (e, x).
  split; [reflexivity|]. apply elem_of_map_to_list. exact Hx.
Qed.

Lemma run_shutdown w :
  isShuttingDown (sm w) = false ->
  shutdown w
  = (tt,
     withModeration
       (foldl (fun b entityId => BannedWordsManager.cleanupEntity entityId b)
          (bannedWords w) (map_to_list (entities (sm w))).*1)
       (foldl (fun wh entityId => DiscordWebhookManager.cleanupWebhook entityId wh)
          (webhookConfigs w) (map_to_list (entities (sm w))).*1)
       ∅
       (withSm (StateManager.withFlags (online (sm w)) (isConnecting (sm w)) true (sm w)) w),
     [ProcessExit 0]).
Proof.
  intros H. unfold shutdown. rewrite run_bind. cbn [getState fst snd]. rewrite H.
  rewrite !run_bind. reflexivity.
Qed.

(** X19. The first [shutdown] of a worker sets the shutting-down flag,
    removes the banned-word configuration and the webhook of every
    entity of the map, empties the stored profanity configurations and
    asks for [process.exit(0)], once.  From then on a second [shutdown],
    every inbound stanza and every request to queue a stanza change and
    do nothing. *)
Theorem shutdown_once (re : RegExpEngine) (verbose : bool) (w : Worker) :
  isShuttingDown (sm w) = false ->
  let w1 := stateOf shutdown w in
  actionsOf shutdown w = [ProcessExit 0] /\
  isShuttingDown (sm w1) = true /\
  (forall e, StateManager.hasEntity e (sm w) = true ->
             entityConfigs (bannedWords w1) !! e = None /\ webhookConfigs w1 !! e = None) /\
  profanityFilterConfigs w1 = ∅ /\
  shutdown w1 = (tt, w1, []) /\
  (forall stanza,
      WorkerService.handle re verbose (WorkerService.Stanza stanza) w1 = (tt, w1, []) /\
      WorkerService.handle re verbose (WorkerService.Queue stanza) w1 = (tt, w1, [])).
Proof.
  intros Hsd. cbn zeta. unfold stateOf, actionsOf. rewrite (run_shutdown w Hsd).
  cbn [fst snd].
  set (w1 := withModeration _ _ _ _).
  assert (Hdown : isShuttingDown (sm w1) = true) by reflexivity.
  split; [reflexivity|]. split; [exact Hdown|]. split; [|split; [reflexivity|split]].
  - intros e He. unfold StateManager.hasEntity in He. apply bool_decide_eq_true_1 in He.
    apply entity_key_listed in He. subst w1.
    cbn [withModeration bannedWords webhookConfigs].
    split; [apply foldl_cleanupEntity_gone | apply foldl_cleanupWebhook_gone]; exact He.
  - unfold shutdown. rewrite run_bind. cbn [getState fst snd]. rewrite Hdown. reflexivity.
  - intros stanza. cbn [WorkerService.handle]. split.
    + unfold WorkerService.handleStanza. rewrite run_bind. cbn [getState fst snd].
      rewrite Hdown. reflexivity.
    + apply run_queueStanza_down. exact Hdown.
Qed.

Lemma shutdown_once_witness :
  let w := stateOf (WorkerService.run Sample.regexp false (moderatedE1 false)) initWorker in
  let w1 := stateOf shutdown w in
  actionsOf shutdown w = [ProcessExit 0] /\
  isShuttingDown (sm w1) = true /\
  (forall e, StateManager.hasEntity e (sm w) = true ->
             entityConfigs (bannedWords w1) !! e = None /\ webhookConfigs w1 !! e = None) /\
  profanityFilterConfigs w1 = ∅ /\
  shutdown w1 = (tt, w1, []) /\
  (forall stanza,
      WorkerService.handle Sample.regexp false (WorkerService.Stanza stanza) w1 = (tt, w1, []) /\
      WorkerService.handle Sample.regexp false (WorkerService.Queue stanza) w1 = (tt, w1, [])).
Proof.
  apply (shutdown_once Sample.regexp false
           (stateOf (WorkerService.run Sample.regexp false (moderatedE1 false)) initWorker)).
  vm_compute. reflexivity.
Defined.

(** ** What a groupchat message can cause *)

Ltac silent_step :=
  first
    [ apply spec_ret
    | apply spec_skip
    | apply spec_get
    | apply spec_bind; [|intros ?]
    | apply spec_modify; intros ? ?; exact Logic.I
    | apply spec_liftSm; intros ? ?; exact Logic.I
    | match goal with
      | |- spec _ _ (if ?b then _ else _) => destruct b
      | |- spec _ _ (match ?x with _ => _ end) => destruct x
      end
    | progress unfold queueStanza, TimedMessages.processTimedMessages,
        Commands.processCommands ].

Lemma silent_actions {A} (c : M A) w :
  spec (fun _ => True) (fun _ => False) c -> actionsOf c w = [].
Proof.
  intros Hc. destruct (Hc w Logic.I) as [_ H].
  destruct (actionsOf c w) as [|a t]; [reflexivity|].
  apply Forall_cons in H as [[] _].
Qed.

Lemma processTimedMessages_silent r rc w :
  actionsOf (TimedMessages.processTimedMessages r rc) w = [].
Proof. apply silent_actions. repeat silent_step. Qed.

Lemma processCommands_silent m r rc w :
  actionsOf (Commands.processCommands m r rc) w = [].
Proof. apply silent_actions. repeat silent_step. Qed.

Lemma queueStanza_silent st w : actionsOf (queueStanza st) w = [].
Proof. apply silent_actions. repeat silent_step. Qed.

Lemma muteUser_actions u r d w :
  actionsOf (Moderation.muteUser u r d) w = [] \/
  exists c t, actionsOf (Moderation.muteUser u r d) w = [MuteMember c u d t].
Proof.
  unfold Moderation.muteUser, actionsOf.
  destruct (d <=? 0)%Z; [left; reflexivity|].
  rewrite run_bind. cbn [getState fst snd].
  destruct (StateManager.accessToken (sm w)); cbn; [right; eauto | left; reflexivity].
Qed.

Lemma afterDelete_actions call w :
  actionsOf (Moderation.afterDelete call) w = [] \/
  exists c d t, actionsOf (Moderation.afterDelete call) w = [MuteMember c (offender call) d t].
Proof.
  destruct call as [[] mid a r]; cbn [offender].
  - change (Moderation.afterDelete _) with (Moderation.afterDelete (bannedWordCall mid a r)).
    unfold actionsOf. rewrite run_afterDelete_banned.
    destruct (muteUser_actions a r
                (default bannedWordMuteDuration
                   (profanityFilterConfigs w !! r ≫= mute_duration_seconds)) w)
      as [H|(c & t & H)]; [left; exact H | right; eauto].
  - destruct (muteUser_actions a r readOnlyMuteDuration w) as [H|(c & t & H)];
      [left; exact H | right; eauto].
Qed.

Lemma resumeAfterSleep_actions call w :
  (resultOf (Moderation.resumeAfterSleep call) w = false /\
   actionsOf (Moderation.resumeAfterSleep call) w = []) \/
  (resultOf (Moderation.resumeAfterSleep call) w = true /\
   exists f m t,
     actionsOf (Moderation.resumeAfterSleep call) w = [RetractMessage (retracted call) f m t]).
Proof.
  unfold resultOf, actionsOf.
  destruct (StateManager.accessToken (sm w)) as [token|] eqn:Ht.
  - right. rewrite (run_resumeAfterSleep call token w Ht). cbn [fst snd].
    split; [reflexivity|]. unfold retraction. eauto.
  - left. rewrite (run_resumeAfterSleep_no_token call w Ht). split; reflexivity.
Qed.

Lemma notification_actions r m a w :
  actionsOf (DiscordWebhookManager.sendBannedWordsNotification r m a r) w = [] \/
  exists u c d n,
    actionsOf (DiscordWebhookManager.sendBannedWordsNotification r m a r) w
    = [DiscordWebhook u c d a n].
Proof.
  unfold actionsOf. rewrite run_sendBannedWordsNotification. cbn [snd]. unfold webhookCall.
  destruct (webhookConfigs w !! r); [right; eauto 6 | left; reflexivity].
Qed.

Lemma webhookCall_shape w r m a :
  webhookCall w r m a = [] \/ exists u c d n, webhookCall w r m a = [DiscordWebhook u c d a n].
Proof.
  unfold webhookCall. destruct (webhookConfigs w !! r); [right; eauto 6 | left; reflexivity].
Qed.

(** X20. One groupchat message causes at most one webhook
    notification, at once; at most one retraction, when the sleep of
    the call that waits for it has ended; and at most one mute, when the
    retraction has been answered; all of them about the message and its
    author, and nothing else: no stanza is sent, no exit asked for, no
    status posted. *)
Theorem one_moderation_per_message (re : RegExpEngine) (stanza : Node) (w : Worker) :
  let pipeline := WorkerService.handleGroupChatMessage re stanza in
  (actionsOf pipeline w = [] \/
   exists md u c d n,
     MessageProcessor.validateMessage stanza (sm w) = Value (Some md) /\
     actionsOf pipeline w = [DiscordWebhook u c d (messageAuthorGuid md) n]) /\
  (forall call,
     resultOf pipeline w = Awaits call ->
     exists md,
       MessageProcessor.validateMessage stanza (sm w) = Value (Some md) /\
       retracted call = messageId md /\
       offender call = messageAuthorGuid md /\
       Some (room call) = roomId md) /\
  (forall call w1,
     (resultOf (Moderation.resumeAfterSleep call) w1 = false /\
      actionsOf (Moderation.resumeAfterSleep call) w1 = []) \/
     (resultOf (Moderation.resumeAfterSleep call) w1 = true /\
      exists f m t,
        actionsOf (Moderation.resumeAfterSleep call) w1
        = [RetractMessage (retracted call) f m t])) /\
  (forall call w2,
     actionsOf (Moderation.resumeAfterRetraction call) w2 = [] \/
     exists c d t,
       actionsOf (Moderation.resumeAfterRetraction call) w2
       = [MuteMember c (offender call) d t]).
Proof.
  cbn zeta.
  split; [|split; [|split]];
    [| |intros call w1; apply resumeAfterSleep_actions
     |intros call w2; apply afterDelete_actions].
  - destruct (handleGroupChatMessage_cases re stanza w)
      as [H|[H|(md & r & rc & Hmd & He & Hr & Hrc)]];
      [left; unfold actionsOf; rewrite H; reflexivity ..|].
    destruct (pipeline_outcome re stanza w md r rc Hmd He Hr Hrc)
      as [[_ H]|[[_ H]|[[_ H]|[_ H]]]]; try (left; exact H).
    destruct (webhookCall_shape w r (messageContent md) (messageAuthorGuid md))
      as [Hw|(u & c & d & n & Hw)].
    + left. rewrite H. exact Hw.
    + right. exists md, u, c, d, n. split; [exact Hmd|]. rewrite H. exact Hw.
  - intros call Hres.
    destruct (handleGroupChatMessage_cases re stanza w)
      as [H|[H|(md & r & rc & Hmd & He & Hr & Hrc)]];
      [unfold resultOf in Hres; rewrite H in Hres; discriminate Hres ..|].
    exists md. split; [exact Hmd|].
    destruct (pipeline_outcome re stanza w md r rc Hmd He Hr Hrc)
      as [[H _]|[[H _]|[[H _]|[H _]]]];
      rewrite H in Hres; try discriminate Hres;
      injection Hres as <-; rewrite Hr; repeat split; reflexivity.
Qed.

(** ** Messages the pipeline does not look at *)

(** X21. The pipeline leaves alone, without any action or change of
    state, every groupchat stanza that is replayed history (it carries
    a [delay] element), that has no body, whose room is flagged
    recently unassigned or non-existent, or whose room is not in the
    entity map. *)
Theorem unheeded_messages (re : RegExpEngine) (stanza : Node) (w : Worker) :
  (is_Some (Xml.getChild "delay" (Some "urn:xmpp:delay") stanza) \/
   Xml.getChild "body" None stanza = None \/
   exists md,
     MessageProcessor.validateMessage stanza (sm w) = Value (Some md) /\
     (roomId md = None \/
      exists r, roomId md = Some r /\
                (StateManager.hasRecentlyUnassignedEntity r (sm w) = true \/
                 StateManager.hasNonExistentEntity r (sm w) = true \/
                 StateManager.hasEntity r (sm w) = false))) ->
  WorkerService.handleGroupChatMessage re stanza w = (Returns tt, w, []).
Proof.
  intros [[d Hd]|[Hb|(md & Hmd & Hroom)]].
  - apply run_handleGroupChatMessage_invalid. unfold MessageProcessor.validateMessage.
    destruct (Xml.getChild "body" None stanza); [|reflexivity].
    rewrite Hd. reflexivity.
  - apply run_handleGroupChatMessage_invalid. unfold MessageProcessor.validateMessage.
    rewrite Hb. reflexivity.
  - unfold WorkerService.handleGroupChatMessage. rewrite run_bind.
    cbn [getState fst snd]. rewrite Hmd.
    destruct Hroom as [Hnone|(r & Hr & Hflag)].
    + rewrite Hnone. destruct (negb (MessageProcessor.isValidEntity None (sm w))); reflexivity.
    + rewrite Hr. unfold MessageProcessor.isValidEntity, MessageProcessor.getRoomConfig.
      cbn [mbind option_bind].
      destruct Hflag as [H|[H|H]].
      * rewrite H. reflexivity.
      * rewrite H. destruct (StateManager.hasRecentlyUnassignedEntity r (sm w)); reflexivity.
      * unfold StateManager.hasEntity in H. apply bool_decide_eq_false_1 in H.
        unfold StateManager.getEntity.
        destruct (entities (sm w) !! r) as [e|] eqn:He; [exfalso; apply H; eauto|].
        destruct (negb _); reflexivity.
Qed.

(** The moderated room E1: the violation of user u1 is taken up when it
    is live, and left alone when the server replays it. *)
Lemma unheeded_messages_witness :
  let w := stateOf (WorkerService.run Sample.regexp false (moderatedE1 false)) initWorker in
  resultOf (WorkerService.handleGroupChatMessage Sample.regexp (violation "u1")) w
  = Awaits (bannedWordCall (Some "m1") "u1" guidE1) /\
  WorkerService.handleGroupChatMessage Sample.regexp replayedViolation w = (Returns tt, w, []).
Proof.
  cbn zeta. split; [vm_compute; reflexivity|].
  apply (unheeded_messages Sample.regexp replayedViolation
           (stateOf (WorkerService.run Sample.regexp false (moderatedE1 false)) initWorker)).
  left. vm_compute. eexists. reflexivity.
Defined.

(** ** Webhook calls go to Discord only *)

Section Keeps.

Context {J : Worker -> Prop} {T : Action -> Prop}.

(** [J] does not read the state manager. *)
Hypothesis J_sm : forall s w, J w -> J (withSm s w).

Lemma keeps_ret {A} (x : A) : keeps J T (mret x).
Proof. intros w Hw. split; [exact Hw | constructor]. Qed.

Lemma keeps_skip : keeps J T skip.
Proof. apply keeps_ret. Qed.

Lemma keeps_bind {A B} (c : M A) (f : A -> M B) :
  keeps J T c -> (forall x, keeps J T (f x)) -> keeps J T (c ≫= f).
Proof.
  intros Hc Hf w Hw. rewrite stateOf_bind, actionsOf_bind.
  destruct (Hc w Hw) as [H1 H2].
  destruct (Hf (resultOf c w) (stateOf c w) H1) as [H3 H4].
  split; [exact H3 | apply Forall_app; split; assumption].
Qed.

Lemma keeps_get : keeps J T getState.
Proof. intros w Hw. split; [exact Hw | constructor]. Qed.

Lemma keeps_modify f : keeps J T (modifySm f).
Proof. intros w Hw. split; [apply J_sm, Hw | constructor]. Qed.

Lemma keeps_liftSm {A} (f : StateManagerState -> A * StateManagerState) :
  keeps J T (liftSm f).
Proof.
  intros w Hw. unfold stateOf, actionsOf. rewrite run_liftSm. cbn [fst snd].
  split; [apply J_sm, Hw | constructor].
Qed.

Lemma keeps_emit a : T a -> keeps J T (emit a).
Proof. intros Ha w Hw. split; [exact Hw | repeat constructor; exact Ha]. Qed.

Lemma keeps_forEach {A} (l : list A) (f : A -> M unit) :
  (forall a, keeps J T (f a)) -> keeps J T (WorkerService.forEach l f).
Proof.
  intros Hf. induction l as [|a l IH]; cbn [WorkerService.forEach].
  - apply keeps_skip.
  - apply keeps_bind; [apply Hf | intros _; exact IH].
Qed.

Lemma keeps_forEachTry {A} (l : list A) (f : A -> M (Result unit)) :
  (forall a, keeps J T (f a)) -> keeps J T (WorkerService.forEachTry l f).
Proof.
  intros Hf. induction l as [|a l IH]; cbn [WorkerService.forEachTry].
  - apply keeps_ret.
  - apply keeps_bind; [apply Hf|]. intros [[]|]; [exact IH | apply keeps_ret].
Qed.

End Keeps.

Lemma webhooksValid_sm s w : webhooksValid w -> webhooksValid (withSm s w).
Proof. intros H e cfg He. exact (H e cfg He). Qed.

Lemma webhooksValid_cleanup e w :
  webhooksValid w -> webhooksValid (WorkerService.cleanupModeration e w).
Proof.
  intros H e' cfg He'. unfold WorkerService.cleanupModeration, withModeration,
    DiscordWebhookManager.cleanupWebhook in He'. cbn [webhookConfigs] in He'.
  apply lookup_delete_Some in He' as [_ He']. exact (H e' cfg He').
Qed.

Lemma webhooksValid_configureWebhook e pc n (wh : gmap string WebhookConfig) :
  (forall e' cfg, wh !! e' = Some cfg -> WebhookUrl.isValidDiscordWebhookUrl (url cfg) = true) ->
  forall e' cfg, configureWebhook e pc n wh !! e' = Some cfg ->
                 WebhookUrl.isValidDiscordWebhookUrl (url cfg) = true.
Proof.
  intros H e' cfg. unfold configureWebhook.
  destruct (String.eqb e ""); [apply H|].
  destruct (Js.truthy (discord_webhook_url pc)) as [u|].
  - destruct (WebhookUrl.isValidDiscordWebhookUrl u) eqn:Hu; cbn [negb]; [|apply H].
    intros He'. apply lookup_insert_Some in He' as [[_ <-]|[_ He']]; [exact Hu|].
    exact (H e' cfg He').
  - intros He'. apply lookup_delete_Some in He' as [_ He']. exact (H e' cfg He').
Qed.

Lemma keeps_cleanupModeration e :
  keeps webhooksValid validWebhookCall
    (fun w => (tt, WorkerService.cleanupModeration e w, [])).
Proof. intros w Hw. split; [apply webhooksValid_cleanup, Hw | constructor]. Qed.

Lemma keeps_configureEntityProfanityFilter e env :
  keeps webhooksValid validWebhookCall (WorkerService.configureEntityProfanityFilter e env).
Proof.
  intros w Hw. unfold stateOf, actionsOf, WorkerService.configureEntityProfanityFilter.
  assert (Hfail : forall m w0, webhooksValid w0 ->
                               webhooksValid (WorkerService.configureFailed e m w0)).
  { intros m w0 Hw0. unfold WorkerService.configureFailed.
    destruct (negb (String.eqb m "") && Js.includes "404" m);
      [apply webhooksValid_cleanup, Hw0 | exact Hw0]. }
  destruct (profanityReply env) as [[pc|]|m]; cbn [fst snd];
    try (split; [first [apply webhooksValid_cleanup, Hw | apply Hfail, Hw] | constructor]).
  destruct (is_active pc); cbn [negb fst snd];
    [|split; [apply webhooksValid_cleanup, Hw | constructor]].
  destruct (entityDataReply env) as [d|m]; cbn [fst snd]; (split; [|constructor]).
  - intros e' cfg. cbn [withModeration webhookConfigs].
    apply webhooksValid_configureWebhook. exact Hw.
  - apply Hfail. exact Hw.
Qed.

Lemma keeps_setManager manager :
  keeps webhooksValid validWebhookCall
    (fun w => (tt, withModeration manager (webhookConfigs w) (profanityFilterConfigs w) w, [])).
Proof. intros w Hw. split; [exact Hw | constructor]. Qed.

Lemma keeps_handlePresetRefresh p f :
  keeps webhooksValid validWebhookCall (WorkerService.handlePresetRefresh p f).
Proof. intros w Hw. split; [exact Hw | constructor]. Qed.

Lemma keeps_sendBannedWordsNotification e m a r :
  keeps webhooksValid validWebhookCall
    (DiscordWebhookManager.sendBannedWordsNotification e m a r).
Proof.
  intros w Hw. unfold stateOf, actionsOf, DiscordWebhookManager.sendBannedWordsNotification.
  rewrite run_bind. cbn [getState fst snd].
  destruct (webhookConfigs w !! e) as [cfg|] eqn:He; cbn [fst snd app].
  - split; [exact Hw|]. repeat constructor. exact (Hw e cfg He).
  - split; [exact Hw | constructor].
Qed.

Ltac keeps_step :=
  first
    [ apply keeps_sendBannedWordsNotification
    | apply keeps_setManager
    | apply keeps_configureEntityProfanityFilter
    | apply keeps_cleanupModeration
    | apply keeps_handlePresetRefresh
    | apply keeps_ret
    | apply keeps_skip
    | apply keeps_get
    | apply keeps_bind; [|intros ?]
    | apply (keeps_modify webhooksValid_sm)
    | apply (keeps_liftSm webhooksValid_sm)
    | apply keeps_emit; exact Logic.I
    | match goal with
      | |- keeps _ _ (if ?b then _ else _) => destruct b
      | |- keeps _ _ (match ?x with _ => _ end) => destruct x
      | |- keeps _ _ (let '(_, _) := ?x in _) => destruct x
      end
    | progress unfold queueStanza, joinRoomForEntity, leaveRoomForEntity,
        Moderation.deleteMessage, Moderation.muteUser, Moderation.checkBannedWords,
        Moderation.enforceReadOnlyMode, Moderation.processModeration,
        TimedMessages.processTimedMessages, Commands.processCommands,
        DebugHandler.handle404Error, DebugHandler.handleVerboseError,
        DebugHandler.handleVerboseSuccess, DebugHandler.handleVerboseSupergroupIQ,
        WorkerService.handleSupergroupIQ, WorkerService.handleIQGet,
        WorkerService.handleGroupChatMessage, WorkerService.handleStanza,
        WorkerService.processStanzaQueue,
        WorkerService.handleEntityAssignment, WorkerService.handleEntityUnassignment,
        WorkerService.handleEntityUpdate, WorkerService.removeStale,
        WorkerService.handlePing,
        Moderation.afterDelete, Moderation.resumeAfterSleep,
        Moderation.resumeAfterRetraction, andThen, detached,
        WorkerService.cleanupEntityTracking,
        WorkerService.recordReconnectionAttempt, WorkerService.resetReconnectionState,
        WorkerService.connectXmpp, WorkerService.handleXmppOnline,
        WorkerService.handleXmppOffline ].

Lemma keeps_handle re v ev :
  keeps webhooksValid validWebhookCall (WorkerService.handle re v ev).
Proof.
  destruct ev; cbn [WorkerService.handle]; try solve [repeat keeps_step].
  unfold WorkerService.reconcileEntities.
  apply keeps_bind; [apply keeps_get|intros w].
  destruct (isShuttingDown (sm w)); [apply keeps_skip|].
  destruct updated as [[updated|]|m]; try apply keeps_skip.
  apply keeps_bind; [|intros _; apply keeps_bind; [apply keeps_get|intros w2]].
  - apply keeps_forEach. intros [e d]. repeat keeps_step.
  - apply keeps_bind; [|intros [[]|]; [|apply keeps_skip]].
    + apply keeps_forEachTry. intros e. repeat keeps_step.
    + apply keeps_forEach. intros [e d]. repeat keeps_step.
Qed.

Lemma keeps_run re v evs :
  keeps webhooksValid validWebhookCall (WorkerService.run re v evs).
Proof. unfold WorkerService.run. apply keeps_forEach. intros ev. apply keeps_handle. Qed.

(** X22. Along every trace of events the worker stores webhooks with
    accepted urls only, and every webhook call it makes goes to a url
    that [isValidDiscordWebhookUrl] accepts, an [https] url on
    [discord.com] or [discordapp.com] under [/api/webhooks/]. *)
Theorem webhook_calls_go_to_discord (re : RegExpEngine) (verbose : bool)
    (evs : list WorkerService.Event) :
  let w := stateOf (WorkerService.run re verbose evs) initWorker in
  (forall e cfg, webhookConfigs w !! e = Some cfg ->
                 WebhookUrl.isValidDiscordWebhookUrl (url cfg) = true) /\
  (forall u c d a n,
      DiscordWebhook u c d a n ∈ actionsOf (WorkerService.run re verbose evs) initWorker ->
      WebhookUrl.isValidDiscordWebhookUrl u = true /\
      (String.prefix "https://discord.com/api/webhooks/" u = true \/
       String.prefix "https://discordapp.com/api/webhooks/" u = true)).
Proof.
  cbn zeta.
  destruct (keeps_run re verbose evs initWorker) as [Hst Hact].
  { intros e cfg He. cbn in He. rewrite lookup_empty in He. discriminate He. }
  split; [exact Hst|].
  intros u c d a n Hin. rewrite Forall_forall in Hact. specialize (Hact _ Hin).
  cbn in Hact. split; [exact Hact|].
  unfold WebhookUrl.isValidDiscordWebhookUrl in Hact.
  apply andb_true_iff in Hact as [_ Hact].
  destruct (WebhookUrl.stripPrefix "https://discord" u) as [r0|] eqn:H0; [|discriminate].
  apply stripPrefix_spec in H0. subst u.
  destruct (WebhookUrl.stripPrefix "app" r0) as [r1|] eqn:H1;
    unfold default, from_option, id in Hact.
  - apply stripPrefix_spec in H1. subst r0.
    destruct (WebhookUrl.stripPrefix ".com/api/webhooks/" r1) as [r2|] eqn:H2; [|discriminate].
    apply stripPrefix_spec in H2. subst r1. right.
    exact (prefix_append "https://discordapp.com/api/webhooks/" r2).
  - destruct (WebhookUrl.stripPrefix ".com/api/webhooks/" r0) as [r2|] eqn:H2; [|discriminate].
    apply stripPrefix_spec in H2. subst r0. left.
    exact (prefix_append "https://discord.com/api/webhooks/" r2).
Qed.
